(** * clcache: a compiler cache for Microsoft Visual Studio

    A shallow embedding of [clcache.py] and the properties of its
    command-line classifier, command-line normalisation, persistent
    documents, eviction and main control flow.

    Pure functions of the script are functions returning a [PyResult]
    (a value or an exception); code that touches the disk, runs the
    compiler or exits is a [Proc], a state-and-error monad over a [World]
    that also records the trace of what the process did.  The methods of a
    class [C] are in the module [C_]; the record [C] is its instance. *)

From Stdlib Require Import ZArith String Ascii List Lia Bool Permutation Sorted.
From stdpp Require Import base gmap strings list pretty.

Local Open Scope string_scope.
Local Open Scope Z_scope.

(** ** Python values and primitives used by the program *)

Inductive Exception :=
  IndexError | KeyError | TypeError | AttributeError | IOError | OSError | ValueError.

(** Outcome of evaluating a Python expression or pure function. *)
Inductive PyResult (A : Type) :=
| Returned (a : A)
| Raised (e : Exception).
Arguments Returned {A} a.
Arguments Raised {A} e.

Module Py.

(** [s[i]]: raises [IndexError] out of range. *)
Definition index (s : string) (i : nat) : PyResult ascii :=
  match String.get i s with
  | Some c => Returned c
  | None => Raised IndexError
  end.

(** [s[i:]] *)
Fixpoint slice_from (i : nat) (s : string) : string :=
  match i, s with
  | O, _ => s
  | S i', String _ s' => slice_from i' s'
  | S _, EmptyString => EmptyString
  end.

(** [s[i:j]] *)
Definition slice (i j : nat) (s : string) : string :=
  String.substring i (j - i) s.

(** [c in s] for a one-character string [c]. *)
Fixpoint char_in (c : ascii) (s : string) : bool :=
  match s with
  | EmptyString => false
  | String d s' => Ascii.eqb c d || char_in c s'
  end.

(** [s.startswith(p)] *)
Definition startswith (s p : string) : bool := String.prefix p s.

(** [s.startswith(ps)] for a tuple [ps] of prefixes. *)
Definition startswith_any (s : string) (ps : list string) : bool :=
  existsb (startswith s) ps.

(** [sep.join(l)] *)
Definition join (sep : string) (l : list string) : string :=
  String.concat sep l.

(** Truth value of a string or [None]. *)
Definition truthy (v : option string) : bool :=
  match v with
  | None => false
  | Some s => negb (String.eqb s "")
  end.

(** [v == s] for a value [v] that is a string or [None]. *)
Definition eq_str (v : option string) (s : string) : bool :=
  match v with
  | None => false
  | Some t => String.eqb t s
  end.

(** [[x for x in l if cond(x)]], where evaluating [cond] may raise. *)
Fixpoint comprehension {A} (cond : A -> PyResult bool) (l : list A)
  : PyResult (list A) :=
  match l with
  | [] => Returned []
  | x :: l' =>
      match cond x with
      | Raised e => Raised e
      | Returned b =>
          match comprehension cond l' with
          | Raised e => Raised e
          | Returned r => Returned (if b then x :: r else r)
          end
      end
  end.

End Py.

(** ** The invocation classifier *)

Inductive AnalysisResult := Ok | NoSourceFile | MultipleSourceFiles | CalledForLink.

#[export] Instance AnalysisResult_eq_dec : EqDecision AnalysisResult.
Proof. solve_decision. Defined.

(** What [analyzeCommandLine] returns: the outcome, the source file and
    the output file (each a string or [None]). *)
Definition Analysis : Type := AnalysisResult * option string * option string.

(** The local variables of [analyzeCommandLine]. *)
Record ScanState := {
  foundCompileOnlySwitch : bool;
  sourceFile : option string;
  outputFile : option string
}.

(** One iteration of the loop either falls through to the next argument
    or leaves the function with a [return]. *)
Inductive LoopStep :=
| Next (st : ScanState)
| Return (r : Analysis).

(** Functions of the host platform that the program calls. *)
Record Host := {
  os_getcwd : string;
  os_path_basename : string -> string;
  os_path_splitext : string -> string * string;
  os_path_join : string -> string -> string;
  (** [hashlib.sha1] of the concatenated updates, as a hex digest *)
  sha1_hexdigest : string -> string;
  (** [str(stat.st_mtime)] and [str(stat.st_size)] of a file *)
  stat_mtime_str : string -> string;
  stat_size_str : string -> string;
  (** the cache directory ([CLCACHE_DIR], or [~/clcache]) *)
  env_cache_dir : string;
  (** whether [CLCACHE_LOG] is set *)
  env_CLCACHE_LOG : bool;
  (** standard output of the preprocessor, run on a command line over the
      files outside the cache *)
  cl_preprocess : list string -> gmap string string -> string;
  (** the real compiler, run on a command line over the files outside the
      cache: exit code, captured output and the files it leaves *)
  cl_compile : list string -> gmap string string
               -> Z * string * gmap string string
}.

Section Classifier.

Context (host : Host).

(** Body of the [for arg in cmdline[1:]] loop. *)
Definition analyzeArg (st : ScanState) (arg : string) : PyResult LoopStep :=
  match Py.index arg 0 with
  | Raised e => Raised e
  | Returned c0 =>
      if Ascii.eqb c0 "/" || Ascii.eqb c0 "-" then
        if String.eqb (Py.slice_from 1 arg) "link" then
          Returned (Return (CalledForLink, None, None))
        else
          match Py.index arg 1 with
          | Raised e => Raised e
          | Returned c1 =>
              if Ascii.eqb c1 "c" then
                Returned (Next {| foundCompileOnlySwitch := true;
                                  sourceFile := sourceFile st;
                                  outputFile := outputFile st |})
              else if String.eqb (Py.slice 1 3 arg) "Fo" then
                Returned (Next {| foundCompileOnlySwitch := foundCompileOnlySwitch st;
                                  sourceFile := sourceFile st;
                                  outputFile := Some (Py.slice_from 3 arg) |})
              else if String.eqb (Py.slice 1 3 arg) "Tp"
                      || String.eqb (Py.slice 1 3 arg) "Tc" then
                Returned (Next {| foundCompileOnlySwitch := foundCompileOnlySwitch st;
                                  sourceFile := Some (Py.slice_from 3 arg);
                                  outputFile := outputFile st |})
              else Returned (Next st)
          end
      else if Ascii.eqb c0 "@" then
        Returned (Return (MultipleSourceFiles, None, None))
      else if Py.truthy (sourceFile st) then
        Returned (Return (MultipleSourceFiles, None, None))
      else
        Returned (Next {| foundCompileOnlySwitch := foundCompileOnlySwitch st;
                          sourceFile := Some arg;
                          outputFile := outputFile st |})
  end.

(** The loop itself: stops at the first [return] or exception. *)
Fixpoint analyzeLoop (st : ScanState) (args : list string) : PyResult LoopStep :=
  match args with
  | [] => Returned (Next st)
  | arg :: args' =>
      match analyzeArg st arg with
      | Returned (Next st') => analyzeLoop st' args'
      | r => r
      end
  end.

(** [os.path.join(os.getcwd(), os.path.splitext(os.path.basename(src))[0] + ".obj")] *)
Definition defaultOutputFile (src : string) : string :=
  let srcFileName := os_path_basename host src in
  os_path_join host (os_getcwd host)
               (fst (os_path_splitext host srcFileName) ++ ".obj").

Definition analyzeCommandLine (cmdline : list string) : PyResult Analysis :=
  let st0 := {| foundCompileOnlySwitch := false;
                sourceFile := None;
                outputFile := None |} in
  match analyzeLoop st0 (tail cmdline) with
  | Raised e => Raised e
  | Returned (Return r) => Returned r
  | Returned (Next st) =>
      let outputFile' :=
        if negb (Py.truthy (outputFile st)) && Py.truthy (sourceFile st) then
          match sourceFile st with
          | Some src => Some (defaultOutputFile src)
          | None => outputFile st
          end
        else outputFile st in
      if negb (foundCompileOnlySwitch st) then
        Returned (CalledForLink, None, None)
      else if Py.eq_str (sourceFile st) "" then
        Returned (NoSourceFile, None, None)
      else Returned (Ok, sourceFile st, outputFile')
  end.

End Classifier.

(** ** Command-line normalisation and the cache key *)

Definition _argsToStrip : list string :=
  ["AI"; "C"; "E"; "P"; "FI"; "u"; "X"; "FU"; "D"; "EP"; "Fx"; "U"; "I"]
  ++ ["Fo"].

(** The condition [arg[0] in "/-" and arg[1:].startswith(_argsToStrip)]. *)
Definition isStripped (arg : string) : PyResult bool :=
  match Py.index arg 0 with
  | Raised e => Raised e
  | Returned c0 =>
      Returned (Py.char_in c0 "/-"
                && Py.startswith_any (Py.slice_from 1 arg) _argsToStrip)
  end.

Definition _normalizedCommandLine (cmdline : list string) : PyResult (list string) :=
  Py.comprehension
    (fun arg => match isStripped arg with
                | Raised e => Raised e
                | Returned b => Returned (negb b)
                end)
    cmdline.

(** ** The cache directory on disk *)

(** A persisted document: what [json.load] makes of the file.  The
    documents the program writes are JSON objects with integer values;
    a file is one of those or does not parse.  Valid JSON of another
    shape, which only another program can have put there, has no value
    here: what is proved of a document is proved of these two kinds. *)
Inductive FileContent :=
| Malformed
| JsonObject (d : gmap string Z).

(** The [object] file of an entry, with what [os.stat] reports of it. *)
Record ObjectBlob := {
  st_atime : Z;
  blob : string
}.

Definition st_size (o : ObjectBlob) : Z := Z.of_nat (String.length (blob o)).

(** An entry directory [<dir>/<key[:2]>/<key>]. *)
Record EntryDir := {
  object : option ObjectBlob;
  output_txt : option string
}.

(** What a process does to the state shared between processes, and the
    lock operations that would guard it ([FileLock.acquire] and
    [FileLock.release]). *)
Inductive Event :=
| LockAcquire
| LockRelease
| LoadDocument (fileName : string)
| DumpDocument (fileName : string)
| ProbeEntry (key : string)
| MakeEntryDir (key : string)
| WriteEntry (key : string)
| ReadEntry (key : string)
| WalkEntries
| RemoveEntry (key : string)
| RunPreprocessor
| RunCompiler
| Stdout (text : string).

Record World := {
  (** [config.txt] and [stats.txt], by path; absent when the file is missing *)
  documents : gmap string FileContent;
  (** the entry directories by key, in the order [os.walk] lists them *)
  entries : list (string * EntryDir);
  (** the files outside the cache directory, by path *)
  files : gmap string string;
  (** the time a file written now is stamped with *)
  clock : Z;
  (** what the process has done so far, oldest first *)
  trace : list Event
}.

Definition emit (e : Event) (w : World) : World :=
  {| documents := documents w; entries := entries w; files := files w;
     clock := clock w; trace := (trace w ++ [e])%list |}.

Definition setDocuments (d : gmap string FileContent) (w : World) : World :=
  {| documents := d; entries := entries w; files := files w;
     clock := clock w; trace := trace w |}.

Definition setEntries (es : list (string * EntryDir)) (w : World) : World :=
  {| documents := documents w; entries := es; files := files w;
     clock := clock w; trace := trace w |}.

Definition setFiles (fs : gmap string string) (w : World) : World :=
  {| documents := documents w; entries := entries w; files := fs;
     clock := clock w; trace := trace w |}.

(** ** Processes: state, exceptions and [sys.exit] *)

Inductive Outcome (A : Type) :=
| Done (a : A)
| Exited (code : Z)
| Failed (e : Exception).
Arguments Done {A} a.
Arguments Exited {A} code.
Arguments Failed {A} e.

Definition Proc (A : Type) : Type := World -> Outcome A * World.

#[export] Instance Proc_ret : MRet Proc := fun A a w => (Done a, w).

#[export] Instance Proc_bind : MBind Proc := fun A B k m w =>
  match m w with
  | (Done a, w') => k a w'
  | (Exited c, w') => (Exited c, w')
  | (Failed e, w') => (Failed e, w')
  end.

Definition raise {A} (e : Exception) : Proc A := fun w => (Failed e, w).
Definition sys_exit {A} (code : Z) : Proc A := fun w => (Exited code, w).
Definition getWorld : Proc World := fun w => (Done w, w).
Definition modify (f : World -> World) : Proc unit := fun w => (Done tt, f w).
Definition log (e : Event) : Proc unit := modify (emit e).

Definition lift {A} (r : PyResult A) : Proc A :=
  match r with
  | Returned a => mret a
  | Raised e => raise e
  end.

(** ** PersistentJSONDict *)

Record PersistentJSONDict := {
  _dirty : bool;
  _dict : gmap string Z;
  _fileName : string
}.

Module PersistentJSONDict_.

(** [__init__]: the bare [except] swallows every failure of the load. *)
Definition __init__ (fileName : string) : Proc PersistentJSONDict :=
  log (LoadDocument fileName);;
  w ← getWorld;
  mret {| _dirty := false;
          _dict := match documents w !! fileName with
                   | Some (JsonObject d) => d
                   | Some Malformed | None => ∅
                   end;
          _fileName := fileName |}.

Definition save (self : PersistentJSONDict) : Proc unit :=
  if _dirty self then
    log (DumpDocument (_fileName self));;
    modify (fun w => setDocuments
                       (<[_fileName self := JsonObject (_dict self)]> (documents w)) w)
  else mret tt.

Definition __setitem__ (self : PersistentJSONDict) (key : string) (value : Z)
  : PersistentJSONDict :=
  {| _dirty := true;
     _dict := <[key := value]> (_dict self);
     _fileName := _fileName self |}.

Definition __getitem__ (self : PersistentJSONDict) (key : string) : PyResult Z :=
  match _dict self !! key with
  | Some v => Returned v
  | None => Raised KeyError
  end.

Definition __contains__ (self : PersistentJSONDict) (key : string) : bool :=
  bool_decide (is_Some (_dict self !! key)).

End PersistentJSONDict_.

(** ** ObjectCache, Configuration, CacheStatistics and the main flow *)

Record ObjectCache := { dir : string }.

Record Configuration := { _cfg : PersistentJSONDict }.

Record CacheStatistics := { _stats : PersistentJSONDict }.

(** The [FileLock] object that [cacheLock] builds.  Constructing it does
    not take the lock: only its [acquire] (or a [with] block) would. *)
Record FileLock := {
  lockfile : string;
  timeout : Z;
  is_locked : bool
}.

Definition ObjectInfo : Type := ObjectBlob * string.

(** [objectInfos.sort(key=lambda t: t[0].st_atime, reverse=True)]: a stable
    sort, greatest access time first. *)
Fixpoint insertByAtime (x : ObjectInfo) (l : list ObjectInfo) : list ObjectInfo :=
  match l with
  | [] => [x]
  | y :: l' =>
      if st_atime (fst y) <=? st_atime (fst x) then x :: y :: l'
      else y :: insertByAtime x l'
  end.

Definition sortByAtimeReverse (l : list ObjectInfo) : list ObjectInfo :=
  foldr insertByAtime [] l.

Module Configuration_.

Definition _defaultValues : list (string * Z) :=
  [("MaximumCacheSize", 1024 * 1024 * 1000)].

Definition maximumCacheSize (self : Configuration) : PyResult Z :=
  PersistentJSONDict_.__getitem__ (_cfg self) "MaximumCacheSize".

Definition setMaximumCacheSize (self : Configuration) (size : Z) : Configuration :=
  {| _cfg := PersistentJSONDict_.__setitem__ (_cfg self) "MaximumCacheSize" size |}.

Definition save (self : Configuration) : Proc unit :=
  PersistentJSONDict_.save (_cfg self).

End Configuration_.

Module CacheStatistics_.

Definition counters : list string :=
  ["CallsWithoutSourceFile"; "CallsWithMultipleSourceFiles"; "CallsForLinking";
   "CacheEntries"; "CacheSize"; "CacheHits"; "CacheMisses"].

(** [self._stats[k] += n] *)
Definition add (self : CacheStatistics) (k : string) (n : Z)
  : PyResult CacheStatistics :=
  match PersistentJSONDict_.__getitem__ (_stats self) k with
  | Raised e => Raised e
  | Returned v =>
      Returned {| _stats := PersistentJSONDict_.__setitem__ (_stats self) k (v + n) |}
  end.

Definition numCallsWithoutSourceFile (self : CacheStatistics) :=
  PersistentJSONDict_.__getitem__ (_stats self) "CallsWithoutSourceFile".

Definition registerCallWithoutSourceFile (self : CacheStatistics) :=
  add self "CallsWithoutSourceFile" 1.

Definition numCallsWithMultipleSourceFiles (self : CacheStatistics) :=
  PersistentJSONDict_.__getitem__ (_stats self) "CallsWithMultipleSourceFiles".

Definition registerCallWithMultipleSourceFiles (self : CacheStatistics) :=
  add self "CallsWithMultipleSourceFiles" 1.

Definition numCallsForLinking (self : CacheStatistics) :=
  PersistentJSONDict_.__getitem__ (_stats self) "CallsForLinking".

Definition registerCallForLinking (self : CacheStatistics) :=
  add self "CallsForLinking" 1.

Definition numCacheEntries (self : CacheStatistics) :=
  PersistentJSONDict_.__getitem__ (_stats self) "CacheEntries".

Definition registerCacheEntry (self : CacheStatistics) (size : Z)
  : PyResult CacheStatistics :=
  match add self "CacheEntries" 1 with
  | Raised e => Raised e
  | Returned self' => add self' "CacheSize" size
  end.

Definition currentCacheSize (self : CacheStatistics) :=
  PersistentJSONDict_.__getitem__ (_stats self) "CacheSize".

Definition setCacheSize (self : CacheStatistics) (size : Z) : CacheStatistics :=
  {| _stats := PersistentJSONDict_.__setitem__ (_stats self) "CacheSize" size |}.

Definition numCacheHits (self : CacheStatistics) :=
  PersistentJSONDict_.__getitem__ (_stats self) "CacheHits".

Definition registerCacheHit (self : CacheStatistics) :=
  add self "CacheHits" 1.

Definition numCacheMisses (self : CacheStatistics) :=
  PersistentJSONDict_.__getitem__ (_stats self) "CacheMisses".

Definition registerCacheMiss (self : CacheStatistics) :=
  add self "CacheMisses" 1.

Definition save (self : CacheStatistics) : Proc unit :=
  PersistentJSONDict_.save (_stats self).

End CacheStatistics_.

(** Fill in [value] for [key] unless the document has the key. *)
Definition setdefault (d : PersistentJSONDict) (kv : string * Z) : PersistentJSONDict :=
  if negb (PersistentJSONDict_.__contains__ d (fst kv))
  then PersistentJSONDict_.__setitem__ d (fst kv) (snd kv)
  else d.

Module ObjectCache_.

Definition emptyDir : EntryDir := {| object := None; output_txt := None |}.

Definition lookupEntry (key : string) (es : list (string * EntryDir))
  : option EntryDir :=
  snd <$> List.find (fun e => String.eqb (fst e) key) es.

Definition alterEntry (key : string) (f : EntryDir -> EntryDir)
           (es : list (string * EntryDir)) : list (string * EntryDir) :=
  List.map (fun e => if String.eqb (fst e) key then (fst e, f (snd e)) else e) es.

Definition removeEntry (key : string) (es : list (string * EntryDir))
  : list (string * EntryDir) :=
  List.filter (fun e => negb (String.eqb (fst e) key)) es.

Definition cacheDirectory (self : ObjectCache) : string := dir self.

(** [rmtree(os.path.split(fn)[0])] for the [object] file of entry [key]. *)
Definition rmtree (key : string) : Proc unit :=
  log (RemoveEntry key);;
  modify (fun w => setEntries (removeEntry key (entries w)) w).

(** The [for stat, fn in objectInfos] loop of [clean]. *)
Fixpoint evictLoop (objectInfos : list ObjectInfo) (currentSize maximumSize : Z)
  : Proc Z :=
  match objectInfos with
  | [] => mret currentSize
  | (stat, fn) :: rest =>
      rmtree fn;;
      let currentSize := currentSize - st_size stat in
      if currentSize <? maximumSize then mret currentSize
      else evictLoop rest currentSize maximumSize
  end.

(** [(os.stat(fn), fn)] for every entry directory that holds an [object]. *)
Definition walkObjects (es : list (string * EntryDir)) : list ObjectInfo :=
  omap (fun e => match object (snd e) with
                 | Some o => Some (o, fst e)
                 | None => None
                 end) es.

Definition clean (self : ObjectCache) (stats : CacheStatistics) (maximumSize : Z)
  : Proc CacheStatistics :=
  currentSize ← lift (CacheStatistics_.currentCacheSize stats);
  if currentSize <? maximumSize then mret stats
  else
    log WalkEntries;;
    w ← getWorld;
    let objectInfos := sortByAtimeReverse (walkObjects (entries w)) in
    currentSize ← evictLoop objectInfos currentSize maximumSize;
    mret (CacheStatistics_.setCacheSize stats currentSize).

Definition hasObject (d : option EntryDir) : bool :=
  match d with
  | Some {| object := Some _ |} => true
  | _ => false
  end.

Definition hasEntry (self : ObjectCache) (key : string) : Proc bool :=
  log (ProbeEntry key);;
  w ← getWorld;
  mret (hasObject (lookupEntry key (entries w))).

(** [setEntry]: make the entry directory unless it exists, copy the
    object file into it, write the compiler output next to it. *)
Definition setEntry (self : ObjectCache) (key objectFileName compilerOutput : string)
  : Proc unit :=
  log (ProbeEntry key);;
  w ← getWorld;
  (if lookupEntry key (entries w) is None then
     log (MakeEntryDir key);;
     modify (fun w => setEntries (entries w ++ [(key, emptyDir)])%list w)
   else mret tt);;
  w ← getWorld;
  match files w !! objectFileName with
  | None => raise IOError
  | Some data =>
      log (WriteEntry key);;
      modify (fun w =>
        setEntries
          (alterEntry key
             (fun d => {| object := Some {| st_atime := clock w; blob := data |};
                          output_txt := output_txt d |})
             (entries w)) w);;
      modify (fun w =>
        setEntries
          (alterEntry key
             (fun d => {| object := object d;
                          output_txt := Some compilerOutput |})
             (entries w)) w)
  end.

(** [copyfile(self.cachedObjectName(key), dst)]: the bytes of the object
    file go to [dst].  Whether reading the object file moves its access
    time is up to the file system; the world keeps the time of the write. *)
Definition copyObjectTo (self : ObjectCache) (key dst : string) : Proc unit :=
  log (ReadEntry key);;
  w ← getWorld;
  match lookupEntry key (entries w) with
  | Some {| object := Some o |} =>
      if String.eqb dst "" then raise IOError
      else modify (setFiles (<[dst := blob o]> (files w)))
  | _ => raise IOError
  end.

Definition cachedCompilerOutput (self : ObjectCache) (key : string) : Proc string :=
  log (ReadEntry key);;
  w ← getWorld;
  match lookupEntry key (entries w) with
  | Some {| output_txt := Some text |} => mret text
  | _ => raise IOError
  end.

Section WithHost.

Context (host : Host).

(** [__init__]: the cache directory comes from the environment.  The
    world holds what is in the cache directory, not the directory itself:
    [os.makedirs] of a missing one leaves no mark in it. *)
Definition __init__ : Proc ObjectCache :=
  mret {| dir := env_cache_dir host |}.

(** The bytes fed to the hash, in the order of the [sha.update] calls. *)
Definition keyMaterial (compilerBinary : string) (normalizedCmdLine : list string)
           (preprocessedSourceCode : string) : string :=
  stat_mtime_str host compilerBinary
  ++ stat_size_str host compilerBinary
  ++ Py.join " " normalizedCmdLine
  ++ preprocessedSourceCode.

Definition computeKey (self : ObjectCache) (compilerBinary : string)
           (commandLine : list string) : Proc string :=
  let ppcmd :=
    ([compilerBinary; "/EP"]
     ++ List.filter (fun arg => negb (String.eqb arg "-c" || String.eqb arg "/c"))
                    (tail commandLine))%list in
  log RunPreprocessor;;
  w ← getWorld;
  let preprocessedSourceCode := cl_preprocess host ppcmd (files w) in
  normalizedCmdLine ← lift (_normalizedCommandLine (tail commandLine));
  mret (sha1_hexdigest host
          (keyMaterial compilerBinary normalizedCmdLine preprocessedSourceCode)).

End WithHost.

End ObjectCache_.

Section Main.

Context (host : Host).

Definition PersistentJSONDict_in (cache : ObjectCache) (name : string)
  : Proc PersistentJSONDict :=
  PersistentJSONDict_.__init__
    (os_path_join host (ObjectCache_.cacheDirectory cache) name).

(** [Configuration.__init__] *)
Definition Configuration__init__ (objectCache : ObjectCache) : Proc Configuration :=
  cfg ← PersistentJSONDict_in objectCache "config.txt";
  mret {| _cfg := foldl setdefault cfg Configuration_._defaultValues |}.

(** [CacheStatistics.__init__] *)
Definition CacheStatistics__init__ (objectCache : ObjectCache) : Proc CacheStatistics :=
  stats ← PersistentJSONDict_in objectCache "stats.txt";
  mret {| _stats := foldl setdefault stats
                          ((fun k => (k, 0)) <$> CacheStatistics_.counters) |}.

Definition cacheLock (cache : ObjectCache) : FileLock :=
  {| lockfile := os_path_join host (ObjectCache_.cacheDirectory cache) "cache.lock";
     timeout := 2;
     is_locked := false |}.

Definition printTraceStatement (msg : string) : Proc unit :=
  if env_CLCACHE_LOG host then log (Stdout ("*** clcache.py: " ++ msg))
  else mret tt.

(** [os.path.getsize] *)
Definition getsize (path : string) : Proc Z :=
  w ← getWorld;
  match files w !! path with
  | Some data => mret (Z.of_nat (String.length data))
  | None => raise OSError
  end.

Definition invokeRealCompiler (compilerBinary : string) (cmdLine : list string)
           (captureOutput : bool) : Proc (Z * option string) :=
  let realCmdline := ([compilerBinary] ++ cmdLine)%list in
  log RunCompiler;;
  w ← getWorld;
  let '(returnCode, output, fs) := cl_compile host realCmdline (files w) in
  modify (setFiles fs);;
  if captureOutput then mret (returnCode, Some output)
  else log (Stdout output);; mret (returnCode, None).

(** [sys.stdout.write] of a string or [None]. *)
Definition stdout_write (text : option string) : Proc unit :=
  match text with
  | Some s => log (Stdout s)
  | None => raise TypeError
  end.

(** The branch taken when the classification is not [Ok]. *)
Definition notCacheable (analysisResult : AnalysisResult) (stats : CacheStatistics)
           (compiler : string) (argv1 cmdLine : list string) : Proc Empty_set :=
  stats ← match analysisResult with
          | NoSourceFile =>
              printTraceStatement ("Cannot cache invocation as " ++ Py.join " " cmdLine
                                   ++ ": no source file found");;
              lift (CacheStatistics_.registerCallWithoutSourceFile stats)
          | MultipleSourceFiles =>
              printTraceStatement ("Cannot cache invocation as " ++ Py.join " " cmdLine
                                   ++ ": multiple source files found");;
              lift (CacheStatistics_.registerCallWithMultipleSourceFiles stats)
          | CalledForLink =>
              printTraceStatement ("Cannot cache invocation as " ++ Py.join " " cmdLine
                                   ++ ": called for linking");;
              lift (CacheStatistics_.registerCallForLinking stats)
          | Ok => raise AttributeError
          end;
  CacheStatistics_.save stats;;
  '(returnCode, _) ← invokeRealCompiler compiler argv1 false;
  sys_exit returnCode.

(** The branch taken when the cache has the key. *)
Definition cacheHit (cache : ObjectCache) (stats : CacheStatistics)
           (cachekey : string) (outputFile : option string) : Proc Empty_set :=
  stats ← lift (CacheStatistics_.registerCacheHit stats);
  CacheStatistics_.save stats;;
  match outputFile with
  | None => raise TypeError
  | Some out =>
      printTraceStatement ("Reusing cached object for key " ++ cachekey ++ " for "
                           ++ "output file " ++ out);;
      ObjectCache_.copyObjectTo cache cachekey out;;
      text ← ObjectCache_.cachedCompilerOutput cache cachekey;
      log (Stdout text);;
      sys_exit 0
  end.

(** The branch taken when the cache does not have the key. *)
Definition cacheMiss (cache : ObjectCache) (stats : CacheStatistics)
           (compiler : string) (argv1 : list string)
           (cachekey : string) (outputFile : option string) : Proc Empty_set :=
  stats ← lift (CacheStatistics_.registerCacheMiss stats);
  '(returnCode, compilerOutput) ← invokeRealCompiler compiler argv1 true;
  stats ← (if returnCode =? 0 then
             match outputFile with
             | None => raise TypeError
             | Some out =>
                 printTraceStatement ("Adding file " ++ out ++ " to cache using "
                                      ++ "key " ++ cachekey);;
                 text ← lift (match compilerOutput with
                              | Some text => Returned text
                              | None => Raised TypeError
                              end);
                 ObjectCache_.setEntry cache cachekey out text;;
                 size ← getsize out;
                 stats ← lift (CacheStatistics_.registerCacheEntry stats size);
                 cfg ← Configuration__init__ cache;
                 maximumSize ← lift (Configuration_.maximumCacheSize cfg);
                 ObjectCache_.clean cache stats maximumSize
             end
           else mret stats);
  CacheStatistics_.save stats;;
  stdout_write compilerOutput;;
  sys_exit returnCode.

(** The module-level code after the statistics are loaded and the lock
    object is built: the three branches. *)
Definition dispatch (cache : ObjectCache) (stats : CacheStatistics)
           (analysisResult : AnalysisResult) (outputFile : option string)
           (compiler : string) (argv1 cmdLine : list string) : Proc Empty_set :=
  if negb (bool_decide (analysisResult = Ok)) then
    notCacheable analysisResult stats compiler argv1 cmdLine
  else
    cachekey ← ObjectCache_.computeKey host cache compiler cmdLine;
    hit ← ObjectCache_.hasEntry cache cachekey;
    if (hit : bool) then cacheHit cache stats cachekey outputFile
    else cacheMiss cache stats compiler argv1 cachekey outputFile.

(** The module-level code from the classification on; [argv1] is
    [sys.argv[1:]] and [cmdLine] its expansion by [expandCommandLine].
    The lock object is built and never used. *)
Definition mainFlow (compiler : string) (argv1 cmdLine : list string)
  : Proc Empty_set :=
  '(analysisResult, sourceFile, outputFile) ← lift (analyzeCommandLine host cmdLine);
  cache ← ObjectCache_.__init__ host;
  stats ← CacheStatistics__init__ cache;
  let lock := cacheLock cache in
  dispatch cache stats analysisResult outputFile compiler argv1 cmdLine.

End Main.

(** ** Vocabulary of the properties *)

(** The switch prefixes that normalisation removes: the ones that only
    steer the preprocessor, and the output-path switch. *)
Definition preprocessorOnlyPrefixes : list string :=
  ["AI"; "C"; "E"; "P"; "FI"; "u"; "X"; "FU"; "D"; "EP"; "Fx"; "U"; "I"].

Definition outputPathPrefix : string := "Fo".

(** A switch token whose name, after the [/] or [-], starts with a
    denylisted prefix. *)
Definition denylisted (arg : string) : bool :=
  match arg with
  | EmptyString => false
  | String c name =>
      (Ascii.eqb c "/" || Ascii.eqb c "-")
      && existsb (fun p => String.prefix p name)
                 (preprocessorOnlyPrefixes ++ [outputPathPrefix])
  end.


(** A token whose first character is [/] or [-] and whose remainder starts
    with one of the listed prefixes. *)
Definition beginsWithListedPrefix (arg : string) : Prop :=
  exists c p suffix,
    arg = String c (p ++ suffix)
    /\ (c = "/"%char \/ c = "-"%char)
    /\ In p ["AI"; "C"; "E"; "P"; "FI"; "u"; "X"; "FU"; "D"; "EP"; "Fx"; "U"; "I"; "Fo"].

(** Inserting one such token somewhere in a command line. *)
Inductive insertsListed : list string -> list string -> Prop :=
| insertsListed_at l1 t l2 :
    beginsWithListedPrefix t -> insertsListed (l1 ++ l2) (l1 ++ t :: l2).

(** Command lines that differ only by inserting or removing such tokens. *)
Inductive differByListed : list string -> list string -> Prop :=
| dbl_refl l : differByListed l l
| dbl_insert l l' l'' :
    differByListed l l' -> insertsListed l' l'' -> differByListed l l''
| dbl_remove l l' l'' :
    differByListed l l' -> insertsListed l'' l' -> differByListed l l''.

(** [/link] or [-link]. *)
Definition isLinkSwitch (arg : string) : bool :=
  String.eqb arg "/link" || String.eqb arg "-link".

(** [/c] or [-c]. *)
Definition isCompileOnlySwitch (arg : string) : bool :=
  String.eqb arg "/c" || String.eqb arg "-c".

(** The test the classifier makes for the compile-only switch: the
    character after the [/] or [-] is [c]. *)
Definition isCompileOnlySwitchLike (arg : string) : bool :=
  match Py.index arg 1 with
  | Returned c => Ascii.eqb c "c"
  | Raised _ => false
  end.

(** A switch: [/] or [-] followed by at least one character. *)
Definition isSwitch (arg : string) : bool :=
  match arg with
  | String c (String _ _) => Ascii.eqb c "/" || Ascii.eqb c "-"
  | _ => false
  end.

(** A bare token: non-empty and starting with none of [/], [-], [@]. *)
Definition isBare (arg : string) : bool :=
  match arg with
  | String c _ => negb (Ascii.eqb c "/" || Ascii.eqb c "-" || Ascii.eqb c "@")
  | EmptyString => false
  end.

(** The switch name starts with [Tp] or [Tc]. *)
Definition isSourceSwitch (arg : string) : bool :=
  isSwitch arg
  && (String.eqb (Py.slice 1 3 arg) "Tp" || String.eqb (Py.slice 1 3 arg) "Tc").

(** The switch name starts with [Fo]. *)
Definition isOutputSwitch (arg : string) : bool :=
  isSwitch arg && String.eqb (Py.slice 1 3 arg) "Fo".

(** A token that starts with [@]. *)
Definition isResponseToken (arg : string) : bool :=
  match arg with
  | String c _ => Ascii.eqb c "@"
  | EmptyString => false
  end.

(** A token on which the classifier cannot index: the empty token, or a
    lone [/] or [-]. *)
Definition isMalformed (arg : string) : bool :=
  match arg with
  | EmptyString => true
  | String c EmptyString => Ascii.eqb c "/" || Ascii.eqb c "-"
  | _ => false
  end.

(** The source file that a token names: a bare token names itself, a
    [/Tp] or [/Tc] switch the path after the switch name. *)
Definition sourceNamed (arg : string) : option string :=
  if isBare arg then Some arg
  else if isSourceSwitch arg then Some (Py.slice_from 3 arg)
  else None.

(** The source on record after the tokens [args], when it was [init]
    before them: the one named last. *)
Definition recordedSource (init : option string) (args : list string) : option string :=
  foldl (fun src arg => match sourceNamed arg with
                        | Some s => Some s
                        | None => src
                        end) init args.

(** The token [arg], met after the tokens [before], ends the scan with
    [MultipleSourceFiles]: it starts with [@], or it is a bare token and a
    non-empty source is on record. *)
Definition stopsScanFrom (init : option string) (before : list string) (arg : string)
  : bool :=
  isResponseToken arg || (isBare arg && Py.truthy (recordedSource init before)).

Definition scanStopsFrom (init : option string) (pre : list string) : Prop :=
  exists before arg after,
    pre = (before ++ arg :: after)%list /\ stopsScanFrom init before arg = true.

(** Some token of [pre] ends the scan. *)
Definition scanStopsIn (pre : list string) : Prop := scanStopsFrom None pre.

(** A [/Tp] or [/Tc] switch with an empty path. *)
Definition isEmptySourceSwitch (arg : string) : bool :=
  String.eqb arg "/Tp" || String.eqb arg "-Tp"
  || String.eqb arg "/Tc" || String.eqb arg "-Tc".

(** A host to run the examples on. *)
Definition exampleHost : Host :=
  {| os_getcwd := "C:\build";
     os_path_basename := fun p => p;
     os_path_splitext := fun p => (p, "");
     os_path_join := fun a b => a ++ "\" ++ b;
     sha1_hexdigest := fun _ => "5d41402abc4b2a76";
     stat_mtime_str := fun _ => "1288000000.0";
     stat_size_str := fun _ => "131072";
     env_cache_dir := "C:\clcache";
     env_CLCACHE_LOG := false;
     cl_preprocess := fun _ _ => "int main() { return 0; }";
     cl_compile := fun _ fs => (0, "", fs) |}.

(** The measured size of the store: the bytes of the [object] files of
    the entry directories. *)
Definition objectBytes (es : list (string * EntryDir)) : Z :=
  foldr (fun e acc => match object (snd e) with
                      | Some o => st_size o + acc
                      | None => acc
                      end) 0 es.

Definition sumSizes (infos : list ObjectInfo) : Z :=
  foldr (fun i acc => st_size (fst i) + acc) 0 infos.

(** The objects that the loop of [clean] deletes, in order. *)
Fixpoint evicted (objectInfos : list ObjectInfo) (currentSize maximumSize : Z)
  : list ObjectInfo :=
  match objectInfos with
  | [] => []
  | i :: rest =>
      let currentSize := currentSize - st_size (fst i) in
      i :: (if currentSize <? maximumSize then []
            else evicted rest currentSize maximumSize)
  end.

(** An entry directory that is none of the deleted ones. *)
Definition survives (del : list ObjectInfo) (key : string) : bool :=
  negb (existsb (fun i => String.eqb key (snd i)) del).

(** Greatest access time first. *)
Definition newestFirst (l : list ObjectInfo) : Prop :=
  StronglySorted (fun x y => st_atime (fst y) <= st_atime (fst x)) l.

(** The access time of the object of entry [key], when it has one. *)
Definition atimeOf (key : string) (es : list (string * EntryDir)) : option Z :=
  match ObjectCache_.lookupEntry key es with
  | Some {| object := Some o |} => Some (st_atime o)
  | _ => None
  end.

Definition exampleCache : ObjectCache := {| dir := "C:\clcache" |}.

(** A statistics object as [CacheStatistics.__init__] leaves it, with the
    given recorded size. *)
Definition statsWithSize (size : Z) : CacheStatistics :=
  {| _stats := {| _dirty := false;
                  _dict := <["CacheSize" := size]>
                             (list_to_map ((fun k => (k, 0)) <$> CacheStatistics_.counters));
                  _fileName := "C:\clcache\stats.txt" |} |}.

Definition entryOf (key : string) (atime : Z) (data : string) : string * EntryDir :=
  (key, {| object := Some {| st_atime := atime; blob := data |};
           output_txt := Some "" |}).

Definition worldWith (es : list (string * EntryDir)) : World :=
  {| documents := ∅; entries := es; files := ∅; clock := 1000; trace := [] |}.

(** Two entries of ten bytes each, [old] last read at time 100 and [new]
    at time 200. *)
Definition twoEntries : World :=
  worldWith [entryOf "old" 100 "0123456789"; entryOf "new" 200 "0123456789"].

(** A store of thirteen bytes. *)
Definition threeEntries : World :=
  worldWith [entryOf "a" 3 "x"; entryOf "b" 2 "xxxxxx"; entryOf "c" 1 "xxxxxx"].

(** A cache directory with neither [config.txt] nor [stats.txt]. *)
Definition freshWorld : World := worldWith [].

(** A cache directory whose [stats.txt] does not parse. *)
Definition corruptWorld : World :=
  {| documents := {["C:\clcache\stats.txt" := Malformed]};
     entries := []; files := ∅; clock := 1000; trace := [] |}.

(** The lock operations. *)
Definition isLockEvent (e : Event) : bool :=
  match e with
  | LockAcquire | LockRelease => true
  | _ => false
  end.

(** The events that read or write the state shared between processes:
    the documents and the entry directories. *)
Definition touchesSharedState (e : Event) : bool :=
  match e with
  | LoadDocument _ | DumpDocument _ | ProbeEntry _ | MakeEntryDir _
  | WriteEntry _ | ReadEntry _ | WalkEntries | RemoveEntry _ => true
  | _ => false
  end.

(** Every access to the shared state happens between an acquisition of
    the lock and its release; [held] tells whether the lock is held at the
    start. *)
Fixpoint lockDiscipline (held : bool) (events : list Event) : bool :=
  match events with
  | [] => true
  | LockAcquire :: rest => lockDiscipline true rest
  | LockRelease :: rest => lockDiscipline false rest
  | e :: rest => (negb (touchesSharedState e) || held) && lockDiscipline held rest
  end.

(** A process that only appends events, each satisfying [P], to the trace. *)
Definition Emits (P : Event -> Prop) {A} (p : Proc A) : Prop :=
  forall w, exists events,
    trace (snd (p w)) = (trace w ++ events)%list /\ Forall P events.

(** A process that performs no lock operation. *)
Definition lockFree {A} (p : Proc A) : Prop :=
  Emits (fun e => isLockEvent e = false) p.

(** [exampleHost] with a compiler that exits with [returnCode] and leaves
    [data] in [foo.obj]. *)
Definition compilerWriting (returnCode : Z) (data : string) : Host :=
  {| os_getcwd := os_getcwd exampleHost;
     os_path_basename := os_path_basename exampleHost;
     os_path_splitext := os_path_splitext exampleHost;
     os_path_join := os_path_join exampleHost;
     sha1_hexdigest := sha1_hexdigest exampleHost;
     stat_mtime_str := stat_mtime_str exampleHost;
     stat_size_str := stat_size_str exampleHost;
     env_cache_dir := env_cache_dir exampleHost;
     env_CLCACHE_LOG := false;
     cl_preprocess := cl_preprocess exampleHost;
     cl_compile := fun _ fs => (returnCode, "foo.cpp", <["foo.obj" := data]> fs) |}.

Definition exampleArgs : list string := ["cl"; "/c"; "/Fofoo.obj"; "foo.cpp"].

(** The path of [stats.txt]. *)
Definition statsPath (host : Host) : string :=
  os_path_join host (env_cache_dir host) "stats.txt".

(** Run from [w], the process appends events to the trace, [e] among them. *)
Definition Logs (e : Event) {A} (p : Proc A) (w : World) : Prop :=
  exists events,
    trace (snd (p w)) = (trace w ++ events)%list /\ In e events.

(** ** The rest of the script *)

Module PyStr.

(** [s.split()]: the maximal runs of characters that are not whitespace,
    for the whitespace test [isspace] of the string type. *)
Fixpoint split (isspace : ascii -> bool) (s : string) : list string :=
  match s with
  | EmptyString => []
  | String c s' =>
      let rest := split isspace s' in
      if isspace c then rest
      else
        match s' with
        | EmptyString => [String c EmptyString]
        | String d _ =>
            if isspace d then String c EmptyString :: rest
            else match rest with
                 | tok :: rest' => String c tok :: rest'
                 | [] => [String c EmptyString]
                 end
        end
  end.

(** [s.split(sep)] for a separator of one character. *)
Fixpoint split_on (sep : ascii) (s : string) : list string :=
  match s with
  | EmptyString => [EmptyString]
  | String c s' =>
      if Ascii.eqb c sep then EmptyString :: split_on sep s'
      else match split_on sep s' with
           | field :: fields => String c field :: fields
           | [] => [String c EmptyString]
           end
  end.

End PyStr.

(** The [for arg in cmdline] loop of [expandCommandLine], with the
    recursive call as [expand] and the list built so far as [ret]. *)
Fixpoint expandArgs (isspace : ascii -> bool) (read : string -> PyResult string)
         (expand : list string -> option (PyResult (list string)))
         (args : list string) (ret : list string) : option (PyResult (list string)) :=
  match args with
  | [] => Some (Returned ret)
  | arg :: args' =>
      match Py.index arg 0 with
      | Raised e => Some (Raised e)
      | Returned c =>
          if Ascii.eqb c "@" then
            let includeFile := Py.slice_from 1 arg in
            match read includeFile with
            | Raised e => Some (Raised e)
            | Returned includeFileContents =>
                let includeFileTokens := PyStr.split isspace includeFileContents in
                match expand includeFileTokens with
                | None => None
                | Some (Raised e) => Some (Raised e)
                | Some (Returned tokens) =>
                    expandArgs isspace read expand args' (ret ++ tokens)%list
                end
            end
          else expandArgs isspace read expand args' (ret ++ [arg])%list
      end
  end.

(** [expandCommandLine]: [read f] is what
    [codecs.open(f, 'r', 'utf-16').read()] returns or raises, [isspace] the
    whitespace of the text it returns.  [fuel] bounds the depth of the
    recursion through response files; the result is [None] when the
    recursion goes deeper. *)
Fixpoint expandCommandLine (isspace : ascii -> bool) (read : string -> PyResult string)
         (fuel : nat) (cmdline : list string) : option (PyResult (list string)) :=
  match fuel with
  | O => None
  | S fuel' =>
      expandArgs isspace read (expandCommandLine isspace read fuel') cmdline []
  end.

(** A token that is not empty and does not name a response file. *)
Definition isPlainToken (arg : string) : bool :=
  match arg with
  | EmptyString => false
  | String c _ => negb (Ascii.eqb c "@")
  end.

(** [os.path.exists] on the files outside the cache directory. *)
Definition os_path_exists (w : World) (path : string) : bool :=
  bool_decide (is_Some (files w !! path)).

(** [findCompilerBinary]: [environ] is [os.environ], [pathsep] is
    [os.pathsep]. *)
Definition findCompilerBinary (host : Host) (pathsep : ascii)
           (environ : gmap string string) (w : World) : PyResult (option string) :=
  match environ !! "CLCACHE_CL" with
  | Some path =>
      Returned (if os_path_exists w path then Some path else None)
  | None =>
      match environ !! "PATH" with
      | None => Raised KeyError
      | Some dirs =>
          Returned
            (List.find (os_path_exists w)
               (List.map (fun dir => os_path_join host dir "cl.exe")
                         (PyStr.split_on pathsep dirs)))
      end
  end.

(** The host as [ObjectCache.__init__] and [printTraceStatement] read it
    off the environment; [home] is [os.path.expanduser("~")]. *)
Definition hostIn (host : Host) (home : string) (environ : gmap string string) : Host :=
  {| os_getcwd := os_getcwd host;
     os_path_basename := os_path_basename host;
     os_path_splitext := os_path_splitext host;
     os_path_join := os_path_join host;
     sha1_hexdigest := sha1_hexdigest host;
     stat_mtime_str := stat_mtime_str host;
     stat_size_str := stat_size_str host;
     env_cache_dir := match environ !! "CLCACHE_DIR" with
                      | Some d => d
                      | None => os_path_join host home "clcache"
                      end;
     env_CLCACHE_LOG := bool_decide (is_Some (environ !! "CLCACHE_LOG"));
     cl_preprocess := cl_preprocess host;
     cl_compile := cl_compile host |}.

Definition newline : string := String (ascii_of_nat 10) EmptyString.

Section Commands.

Context (host : Host).

(** The text that [printStatistics] formats: [%d] prints an integer in
    decimal. *)
Definition statisticsReport (dir : string)
           (size maximum numEntries hits misses linking noSource multiple : Z) : string :=
  "clcache statistics:" ++ newline
  ++ "  current cache dir        : " ++ dir ++ newline
  ++ "  cache size               : " ++ pretty size ++ " bytes" ++ newline
  ++ "  maximum cache size       : " ++ pretty maximum ++ " bytes" ++ newline
  ++ "  cache entries            : " ++ pretty numEntries ++ newline
  ++ "  cache hits               : " ++ pretty hits ++ newline
  ++ "  cache misses             : " ++ pretty misses ++ newline
  ++ "  called for linking       : " ++ pretty linking ++ newline
  ++ "  called w/o sources       : " ++ pretty noSource ++ newline
  ++ "  calls w/ multiple sources: " ++ pretty multiple.

Definition printStatistics : Proc unit :=
  cache ← ObjectCache_.__init__ host;
  stats ← CacheStatistics__init__ host cache;
  cfg ← Configuration__init__ host cache;
  let dir := ObjectCache_.cacheDirectory cache in
  size ← lift (CacheStatistics_.currentCacheSize stats);
  maximum ← lift (Configuration_.maximumCacheSize cfg);
  numEntries ← lift (CacheStatistics_.numCacheEntries stats);
  hits ← lift (CacheStatistics_.numCacheHits stats);
  misses ← lift (CacheStatistics_.numCacheMisses stats);
  linking ← lift (CacheStatistics_.numCallsForLinking stats);
  noSource ← lift (CacheStatistics_.numCallsWithoutSourceFile stats);
  multiple ← lift (CacheStatistics_.numCallsWithMultipleSourceFiles stats);
  log (Stdout (statisticsReport dir size maximum numEntries hits misses linking
                                noSource multiple)).

(** The [-M <size>] command; [size] is what [int(sys.argv[2])] gives,
    evaluated once the configuration is loaded. *)
Definition setMaximumCacheSizeCommand (size : PyResult Z) : Proc Empty_set :=
  cache ← ObjectCache_.__init__ host;
  cfg ← Configuration__init__ host cache;
  size ← lift size;
  let cfg := Configuration_.setMaximumCacheSize cfg size in
  Configuration_.save cfg;;
  sys_exit 0.

End Commands.

(** The text of [--help]. *)
Definition helpText : string :=
  "clcache.py v0.1" ++ String (ascii_of_nat 34) EmptyString ++ newline
  ++ "  --help   : show this help" ++ newline
  ++ "  -s       : print cache statistics" ++ newline
  ++ "  -M <size>: set maximum cache size (in bytes)" ++ newline.

(** The script, from its first statement to its last: [argv1] is
    [sys.argv[1:]], [environ] is [os.environ], [py_int] is [int] on a
    string ([ValueError] when it is not a number).  The result is [None]
    when the response files nest deeper than [fuel]. *)
Definition script (host : Host) (home : string) (pathsep : ascii)
           (isspace : ascii -> bool) (read : string -> PyResult string)
           (py_int : string -> PyResult Z)
           (environ : gmap string string) (fuel : nat) (argv1 : list string)
           (w : World) : option (Outcome Empty_set * World) :=
  let host := hostIn host home environ in
  if bool_decide (argv1 = ["--help"]) then
    Some ((log (Stdout helpText);; sys_exit 0) w)
  else if bool_decide (argv1 = ["-s"]) then
    Some ((printStatistics host;; sys_exit 0) w)
  else if (length argv1 =? 2)%nat && String.eqb (nth 0 argv1 EmptyString) "-M" then
    Some (setMaximumCacheSizeCommand host (py_int (nth 1 argv1 EmptyString)) w)
  else
    match findCompilerBinary host pathsep environ w with
    | Raised e => Some (Failed e, w)
    | Returned compiler =>
        if negb (Py.truthy compiler) then
          Some ((log (Stdout "Failed to locate cl.exe on PATH (and CLCACHE_CL is not set), aborting.");;
                 sys_exit 1) w)
        else
          let compiler := default EmptyString compiler in
          if bool_decide (is_Some (environ !! "CLCACHE_DISABLE")) then
            Some (('(returnCode, _) ← invokeRealCompiler host compiler argv1 false;
                   sys_exit returnCode) w)
          else
            match expandCommandLine isspace read fuel argv1 with
            | None => None
            | Some (Raised e) => Some (Failed e, w)
            | Some (Returned cmdLine) => Some (mainFlow host compiler argv1 cmdLine w)
            end
    end.

(** An invocation that is none of [--help], [-s] and [-M <size>]. *)
Definition isCompilerInvocation (argv1 : list string) : Prop :=
  argv1 <> ["--help"] /\ argv1 <> ["-s"] /\ forall size, argv1 <> ["-M"; size].

(** [int] of the examples: decimal digits only. *)
Definition exampleInt (s : string) : PyResult Z :=
  if String.eqb s "5000" then Returned 5000 else Raised ValueError.

(** Whitespace of the examples: space, tab, line feed, carriage return. *)
Definition exampleSpace (c : ascii) : bool :=
  Ascii.eqb c " " || Ascii.eqb c (ascii_of_nat 9)
  || Ascii.eqb c (ascii_of_nat 10) || Ascii.eqb c (ascii_of_nat 13).

(** Response files of the examples: [a.rsp] includes [b.rsp], and [loop.rsp]
    includes itself. *)
Definition exampleRead (f : string) : PyResult string :=
  if String.eqb f "a.rsp" then Returned "/O2 @b.rsp  /W4"
  else if String.eqb f "b.rsp" then Returned " /DNDEBUG "
  else if String.eqb f "loop.rsp" then Returned "/Zi @loop.rsp"
  else Raised IOError.

(** A file system with a compiler in the second directory of the search
    path only. *)
Definition exampleFiles : World :=
  {| documents := ∅; entries := [];
     files := {["C:\vc\bin\cl.exe" := "MZ"]};
     clock := 1000; trace := [] |}.

Definition exampleEnviron : gmap string string :=
  {["PATH" := "C:\windows;C:\vc\bin;C:\tools"]}.

(** The value stored for [key] in a statistics object. *)
Definition counter (stats : CacheStatistics) (key : string) : option Z :=
  _dict (_stats stats) !! key.

(** What is on disk at [path], when it parses. *)
Definition storedDocument (w : World) (path : string) : gmap string Z :=
  match documents w !! path with
  | Some (JsonObject d) => d
  | _ => ∅
  end.

(** The pairs of methods of [CacheStatistics] that count calls: the
    method that registers one, the method that reads the count. *)
Definition callCounters
  : list ((CacheStatistics -> PyResult CacheStatistics)
          * (CacheStatistics -> PyResult Z) * string) :=
  [(CacheStatistics_.registerCallWithoutSourceFile,
    CacheStatistics_.numCallsWithoutSourceFile, "CallsWithoutSourceFile");
   (CacheStatistics_.registerCallWithMultipleSourceFiles,
    CacheStatistics_.numCallsWithMultipleSourceFiles, "CallsWithMultipleSourceFiles");
   (CacheStatistics_.registerCallForLinking,
    CacheStatistics_.numCallsForLinking, "CallsForLinking");
   (CacheStatistics_.registerCacheHit,
    CacheStatistics_.numCacheHits, "CacheHits");
   (CacheStatistics_.registerCacheMiss,
    CacheStatistics_.numCacheMisses, "CacheMisses")].

(** The path of [config.txt]. *)
Definition configPath (host : Host) : string :=
  os_path_join host (env_cache_dir host) "config.txt".

(** The cache object that [ObjectCache.__init__] builds. *)
Definition cacheOf (host : Host) : ObjectCache := {| dir := env_cache_dir host |}.

(** A cache directory whose [config.txt] sets a maximum of 5000 bytes and
    whose [stats.txt] lacks some counters. *)
Definition configuredWorld : World :=
  {| documents := {["C:\clcache\config.txt" := JsonObject {["MaximumCacheSize" := 5000]};
                    "C:\clcache\stats.txt" := JsonObject {["CacheHits" := 7;
                                                           "CacheSize" := 120]}]};
     entries := []; files := ∅; clock := 1000; trace := [] |}.

(** The entry directories have distinct keys. *)
Definition distinctKeys (w : World) : Prop :=
  List.NoDup (List.map fst (entries w)).

(** A world with [foo.obj] compiled and nothing cached. *)
Definition compiledWorld : World :=
  {| documents := ∅; entries := []; files := {["foo.obj" := "OBJ"]};
     clock := 1000; trace := [] |}.

(** The counter that the main flow increments for a classification other
    than [Ok]. *)
Definition counterKey (r : AnalysisResult) : string :=
  match r with
  | NoSourceFile => "CallsWithoutSourceFile"
  | MultipleSourceFiles => "CallsWithMultipleSourceFiles"
  | CalledForLink => "CallsForLinking"
  | Ok => ""
  end.

(** The text of the trace statement for a classification other than [Ok]. *)
Definition notCacheableMessage (r : AnalysisResult) (cmdLine : list string) : string :=
  "Cannot cache invocation as " ++ Py.join " " cmdLine
  ++ match r with
     | NoSourceFile => ": no source file found"
     | MultipleSourceFiles => ": multiple source files found"
     | _ => ": called for linking"
     end.

(** What [CacheStatistics.__init__] makes of the statistics on disk. *)
Definition loadedCounter (host : Host) (w : World) (key : string) : option Z :=
  match storedDocument w (statsPath host) !! key with
  | Some v => Some v
  | None => if bool_decide (key ∈ CacheStatistics_.counters) then Some 0 else None
  end.

(** What [printTraceStatement] adds to the trace. *)
Definition traced (host : Host) (msg : string) : list Event :=
  if env_CLCACHE_LOG host then [Stdout ("*** clcache.py: " ++ msg)] else [].

(** The statistics object that [CacheStatistics.__init__] builds in [w]. *)
Definition loadedStats (host : Host) (w : World) : CacheStatistics :=
  {| _stats := foldl setdefault
                     {| _dirty := false;
                        _dict := storedDocument w (statsPath host);
                        _fileName := statsPath host |}
                     ((fun k => (k, 0)) <$> CacheStatistics_.counters) |}.

(** The maximum size that [Configuration.__init__] makes of the
    configuration on disk. *)
Definition loadedMaximum (host : Host) (w : World) : Z :=
  default (1024 * 1024 * 1000) (storedDocument w (configPath host) !! "MaximumCacheSize").


(** A switch that the classifier passes over or takes for the
    compile-only switch: not a link, source or output switch. *)
Definition plainSwitch (arg : string) : Prop :=
  isSwitch arg = true /\ isLinkSwitch arg = false
  /\ isSourceSwitch arg = false /\ isOutputSwitch arg = false.

(** The value of a counter of [stats.txt], 0 when it is not recorded. *)
Definition recordedCounter (host : Host) (w : World) (key : string) : Z :=
  default 0 (storedDocument w (statsPath host) !! key).

(** The document at [path] is missing, does not parse, or is a JSON object
    with integer values. *)
Definition objectOrUnreadable (w : World) (path : string) : Prop :=
  documents w !! path = None
  \/ documents w !! path = Some Malformed
  \/ exists d, documents w !! path = Some (JsonObject d).

(** What the entry directories hold, access times left out: for each key
    the bytes of the object file and the compiler output. *)
Definition storedContent (es : list (string * EntryDir))
  : list (string * (option string * option string)) :=
  List.map (fun e => (fst e, (blob <$> object (snd e), output_txt (snd e)))) es.

(** Unfold the plumbing of [Proc]. *)
Ltac proc_unfold :=
  cbv beta iota zeta delta
      [mbind mret Proc_bind Proc_ret log modify getWorld lift raise sys_exit].

(** ** Command-line normalisation *)

Lemma isStripped_denylisted c name :
  isStripped (String c name) = Returned (denylisted (String c name)).
Proof.
  unfold isStripped, denylisted. simpl.
  rewrite orb_false_r. reflexivity.
Qed.

Lemma normalized_cons_nonempty c name l :
  _normalizedCommandLine (String c name :: l)
  = match _normalizedCommandLine l with
    | Raised e => Raised e
    | Returned r =>
        Returned (if denylisted (String c name) then r else String c name :: r)
    end.
Proof.
  unfold _normalizedCommandLine. cbn [Py.comprehension].
  rewrite isStripped_denylisted.
  destruct (Py.comprehension _ l); [|reflexivity].
  destruct (denylisted (String c name)); reflexivity.
Qed.



Lemma normalized_skip t l :
  denylisted t = true ->
  _normalizedCommandLine (t :: l) = _normalizedCommandLine l.
Proof.
  intros Ht. destruct t as [|c name]; [discriminate|].
  rewrite normalized_cons_nonempty, Ht.
  destruct (_normalizedCommandLine l); reflexivity.
Qed.

Lemma normalized_cons_congr a l1 l2 :
  _normalizedCommandLine l1 = _normalizedCommandLine l2 ->
  _normalizedCommandLine (a :: l1) = _normalizedCommandLine (a :: l2).
Proof.
  intros E. destruct a as [|c name]; [reflexivity|].
  rewrite !normalized_cons_nonempty, E. reflexivity.
Qed.



(** [computeKey] as a function of the world it runs in. *)
Lemma computeKey_unfold host cache compiler commandLine w :
  ObjectCache_.computeKey host cache compiler commandLine w
  = match _normalizedCommandLine (tail commandLine) with
    | Returned normalizedCmdLine =>
        (Done (sha1_hexdigest host
                 (ObjectCache_.keyMaterial host compiler normalizedCmdLine
                    (cl_preprocess host
                       ([compiler; "/EP"]
                        ++ List.filter
                             (fun arg => negb (String.eqb arg "-c" || String.eqb arg "/c"))
                             (tail commandLine))%list (files w)))),
         emit RunPreprocessor w)
    | Raised e => (Failed e, emit RunPreprocessor w)
    end.
Proof.
  unfold ObjectCache_.computeKey, mbind, Proc_bind, log, modify, getWorld, lift.
  destruct (_normalizedCommandLine (tail commandLine)); reflexivity.
Qed.



Lemma prefix_app p suffix : String.prefix p (p ++ suffix) = true.
Proof.
  induction p as [|c p IH]; [by destruct suffix|].
  change (String c p ++ suffix) with (String c (p ++ suffix)).
  cbn [String.prefix]. destruct (ascii_dec c c); [exact IH|congruence].
Qed.

Lemma beginsWithListedPrefix_denylisted arg :
  beginsWithListedPrefix arg -> denylisted arg = true.
Proof.
  intros (c & p & suffix & -> & Hc & Hp).
  unfold denylisted. apply andb_true_iff. split.
  - destruct Hc as [-> | ->]; reflexivity.
  - apply existsb_exists. exists p. split; [exact Hp|apply prefix_app].
Qed.

Lemma normalized_app_congr l l1 l2 :
  _normalizedCommandLine l1 = _normalizedCommandLine l2 ->
  _normalizedCommandLine (l ++ l1) = _normalizedCommandLine (l ++ l2).
Proof.
  intros E. induction l as [|a l IH]; [exact E|].
  cbn [app]. by apply normalized_cons_congr.
Qed.

Lemma insertsListed_normalized l l' :
  insertsListed l l' -> _normalizedCommandLine l' = _normalizedCommandLine l.
Proof.
  intros [l1 t l2 Ht]. apply normalized_app_congr, normalized_skip.
  by apply beginsWithListedPrefix_denylisted.
Qed.

Lemma normalized_not_denylisted l r t :
  _normalizedCommandLine l = Returned r -> In t r -> denylisted t = false.
Proof.
  revert r. induction l as [|a l IH]; intros r Hr Hin.
  - injection Hr as <-. destruct Hin.
  - destruct a as [|c name]; [discriminate|].
    rewrite normalized_cons_nonempty in Hr.
    destruct (_normalizedCommandLine l) as [r'|]; [|discriminate].
    destruct (denylisted (String c name)) eqn:Hd; injection Hr as <-.
    + apply (IH r'); [reflexivity|exact Hin].
    + destruct Hin as [<-|Hin]; [exact Hd|].
      apply (IH r'); [reflexivity|exact Hin].
Qed.

(** C10: normalisation strips every [/] or [-] token whose remainder
    merely begins with one of AI, C, E, P, FI, u, X, FU, D, EP, Fx, U, I
    or Fo: two command lines that differ only by inserting or removing such
    tokens have the same normalised line; in particular a token that
    begins [/EH], such as [/EHsc], can be inserted anywhere without
    changing the result and never occurs in it. *)
Theorem normalization_strips_by_prefix (l l' : list string) :
  differByListed l l' ->
  _normalizedCommandLine l' = _normalizedCommandLine l
  /\ (forall suffix l1 l2,
        _normalizedCommandLine (l1 ++ ("/EH" ++ suffix) :: l2)
        = _normalizedCommandLine (l1 ++ l2))
  /\ (forall r suffix,
        _normalizedCommandLine l = Returned r -> ~ In ("/EH" ++ suffix) r).
Proof.
  intros Hdiff. split; [|split].
  - induction Hdiff as [l|l l' l'' _ IH Hins|l l' l'' _ IH Hins].
    + reflexivity.
    + by rewrite (insertsListed_normalized _ _ Hins).
    + by rewrite <- (insertsListed_normalized _ _ Hins).
  - intros suffix l1 l2. apply normalized_app_congr, normalized_skip. reflexivity.
  - intros r suffix Hr Hin.
    pose proof (normalized_not_denylisted _ _ _ Hr Hin) as Hd. discriminate Hd.
Qed.

Lemma normalization_strips_by_prefix_witness :
  _normalizedCommandLine ["/c"; "/EHsc"; "/O2"; "foo.cpp"]
  = _normalizedCommandLine ["/c"; "/O2"; "-Iinc"; "foo.cpp"]
  /\ ~ In "/EHsc" ["/c"; "/O2"; "foo.cpp"].
Proof.
  destruct (normalization_strips_by_prefix
              ["/c"; "/O2"; "-Iinc"; "foo.cpp"] ["/c"; "/EHsc"; "/O2"; "foo.cpp"])
    as (H1 & _ & H3).
  { eapply dbl_insert.
    - eapply dbl_remove; [apply dbl_refl|].
      apply (insertsListed_at ["/c"; "/O2"] "-Iinc" ["foo.cpp"]).
      exists "-"%char, "I", "inc". repeat split; [by right|cbn; tauto].
    - apply (insertsListed_at ["/c"] "/EHsc" ["/O2"; "foo.cpp"]).
      exists "/"%char, "E", "Hsc". repeat split; [by left|cbn; tauto]. }
  split; [exact H1|].
  apply (H3 ["/c"; "/O2"; "foo.cpp"] "sc"). reflexivity.
Defined.

(** ** The invocation classifier *)

Lemma isLinkSwitch_slice c rest :
  (Ascii.eqb c "/" || Ascii.eqb c "-") = true ->
  String.eqb (Py.slice_from 1 (String c rest)) "link" = isLinkSwitch (String c rest).
Proof.
  intros Hc. unfold isLinkSwitch. cbn [Py.slice_from].
  apply orb_true_iff in Hc as [Hc|Hc]; apply Ascii.eqb_eq in Hc; subst c; cbn;
    by rewrite ?orb_false_r.
Qed.

(** What one loop iteration does with a switch. *)
Lemma analyzeArg_switch st arg :
  isSwitch arg = true ->
  analyzeArg st arg
  = Returned
      (if isLinkSwitch arg then Return (CalledForLink, None, None)
       else if isCompileOnlySwitchLike arg then
         Next {| foundCompileOnlySwitch := true;
                 sourceFile := sourceFile st;
                 outputFile := outputFile st |}
       else if isOutputSwitch arg then
         Next {| foundCompileOnlySwitch := foundCompileOnlySwitch st;
                 sourceFile := sourceFile st;
                 outputFile := Some (Py.slice_from 3 arg) |}
       else if isSourceSwitch arg then
         Next {| foundCompileOnlySwitch := foundCompileOnlySwitch st;
                 sourceFile := Some (Py.slice_from 3 arg);
                 outputFile := outputFile st |}
       else Next st).
Proof.
  destruct arg as [|c0 [|c1 rest]]; try discriminate. intros Hsw.
  unfold analyzeArg. cbn [Py.index String.get]. cbv beta iota.
  cbn [isSwitch] in Hsw. rewrite Hsw.
  rewrite (isLinkSwitch_slice c0 (String c1 rest) Hsw).
  destruct (isLinkSwitch _); [reflexivity|].
  unfold isCompileOnlySwitchLike, isOutputSwitch, isSourceSwitch.
  cbn [Py.index String.get isSwitch]. rewrite Hsw. cbn [andb].
  destruct (Ascii.eqb c1 "c"); [reflexivity|].
  destruct (String.eqb _ "Fo"); [reflexivity|].
  destruct (String.eqb _ "Tp" || String.eqb _ "Tc"); reflexivity.
Qed.

(** What one loop iteration does with a bare token. *)
Lemma analyzeArg_bare st arg :
  isBare arg = true ->
  analyzeArg st arg
  = Returned
      (if Py.truthy (sourceFile st) then Return (MultipleSourceFiles, None, None)
       else Next {| foundCompileOnlySwitch := foundCompileOnlySwitch st;
                    sourceFile := Some arg;
                    outputFile := outputFile st |}).
Proof.
  destruct arg as [|c0 rest]; [discriminate|]. intros Hb.
  unfold analyzeArg. cbn [Py.index String.get]. cbv beta iota.
  cbn [isBare] in Hb. apply negb_true_iff in Hb.
  apply orb_false_iff in Hb as [Hb ->]. rewrite Hb.
  destruct (Py.truthy (sourceFile st)); reflexivity.
Qed.

Lemma isBare_nonempty arg : isBare arg = true -> Py.truthy (Some arg) = true.
Proof. destruct arg; [discriminate|reflexivity]. Qed.

Lemma analyzeLoop_app st st1 l1 l2 :
  analyzeLoop st l1 = Returned (Next st1) ->
  analyzeLoop st (l1 ++ l2) = analyzeLoop st1 l2.
Proof.
  revert st. induction l1 as [|arg l1 IH]; intros st H.
  - injection H as <-. reflexivity.
  - cbn [app analyzeLoop] in *.
    destruct (analyzeArg st arg) as [[st'|r]|e]; try discriminate. by apply IH.
Qed.

Lemma isSourceSwitch_only arg :
  isSourceSwitch arg = true ->
  isSwitch arg = true /\ isLinkSwitch arg = false
  /\ isCompileOnlySwitchLike arg = false /\ isOutputSwitch arg = false.
Proof.
  unfold isSourceSwitch, isOutputSwitch. intros H.
  apply andb_true_iff in H as [Hsw H]. rewrite Hsw. split; [reflexivity|].
  assert (Hprefix : Py.slice 1 3 arg = "Tp" \/ Py.slice 1 3 arg = "Tc")
    by (apply orb_true_iff in H as [H|H]; apply String.eqb_eq in H; auto).
  clear H.
  destruct arg as [|c0 [|c1 [|c2 rest]]]; try discriminate.
  - exfalso. unfold Py.slice in Hprefix. cbn in Hprefix.
    destruct Hprefix as [H|H]; discriminate.
  - unfold Py.slice in *. cbn [Nat.sub String.substring] in *.
    assert (Hc : c1 = "T"%char /\ (c2 = "p"%char \/ c2 = "c"%char)).
    { destruct Hprefix as [H|H]; destruct rest; cbn [String.substring] in H;
        inversion H; auto. }
    destruct Hc as [-> Hc2].
    split; [|split].
    + unfold isLinkSwitch. apply orb_false_iff.
      split; apply String.eqb_neq; intros Heq; inversion Heq.
    + reflexivity.
    + cbn [andb]. apply String.eqb_neq. intros Heq.
      destruct rest; cbn [String.substring] in Heq; inversion Heq; subst c2;
        destruct Hc2; discriminate.
Qed.

(** One loop iteration on a source switch. *)
Lemma analyzeArg_source st arg :
  isSourceSwitch arg = true ->
  analyzeArg st arg
  = Returned (Next {| foundCompileOnlySwitch := foundCompileOnlySwitch st;
                      sourceFile := Some (Py.slice_from 3 arg);
                      outputFile := outputFile st |}).
Proof.
  intros Hs. destruct (isSourceSwitch_only arg Hs) as (Hsw & Hl & Hc & Ho).
  by rewrite (analyzeArg_switch st arg Hsw), Hl, Hc, Ho, Hs.
Qed.

Lemma token_cases arg :
  isMalformed arg = false ->
  isSwitch arg = true \/ isBare arg = true \/ isResponseToken arg = true.
Proof.
  destruct arg as [|c [|c' rest]]; cbn [isMalformed isSwitch isBare isResponseToken];
    [discriminate| |]; intros H.
  - rewrite H. destruct (Ascii.eqb c "@"); auto.
  - destruct (Ascii.eqb c "/" || Ascii.eqb c "-"); [auto|].
    destruct (Ascii.eqb c "@"); auto.
Qed.

Lemma isSwitch_sourceNamed arg :
  isSwitch arg = true ->
  isBare arg = false /\ isResponseToken arg = false
  /\ sourceNamed arg = if isSourceSwitch arg then Some (Py.slice_from 3 arg) else None.
Proof.
  destruct arg as [|c [|c' rest]]; try discriminate.
  unfold sourceNamed. cbn [isSwitch isBare isResponseToken]. intros H.
  apply orb_true_iff in H as [H|H]; apply Ascii.eqb_eq in H; subst c; auto.
Qed.

Lemma isBare_sourceNamed arg :
  isBare arg = true -> isResponseToken arg = false /\ sourceNamed arg = Some arg.
Proof.
  unfold sourceNamed. intros H. rewrite H. split; [|reflexivity].
  destruct arg as [|c rest]; [reflexivity|]. cbn [isBare isResponseToken] in *.
  apply negb_true_iff, orb_false_iff in H as [_ H]. exact H.
Qed.

(** One loop iteration on a switch other than the link switch. *)
Lemma analyzeArg_switch_source st arg :
  isSwitch arg = true -> isLinkSwitch arg = false ->
  exists st',
    analyzeArg st arg = Returned (Next st')
    /\ sourceFile st' = recordedSource (sourceFile st) [arg].
Proof.
  intros Hsw Hl. rewrite (analyzeArg_switch st arg Hsw), Hl.
  destruct (isSwitch_sourceNamed arg Hsw) as (_ & _ & Hnamed).
  unfold recordedSource. cbn [foldl]. rewrite Hnamed.
  destruct (isSourceSwitch arg) eqn:Hs.
  - destruct (isSourceSwitch_only arg Hs) as (_ & _ & -> & ->). eauto.
  - destruct (isCompileOnlySwitchLike arg); [eauto|].
    destruct (isOutputSwitch arg); eauto.
Qed.

Lemma analyzeArg_response st arg :
  isResponseToken arg = true ->
  analyzeArg st arg = Returned (Return (MultipleSourceFiles, None, None)).
Proof.
  destruct arg as [|c rest]; [discriminate|]. cbn [isResponseToken]. intros H.
  apply Ascii.eqb_eq in H. subst c. reflexivity.
Qed.

Lemma analyzeArg_malformed st arg :
  isMalformed arg = true -> analyzeArg st arg = Raised IndexError.
Proof.
  destruct arg as [|c [|c' rest]]; [reflexivity| |discriminate].
  cbn [isMalformed]. intros H.
  apply orb_true_iff in H as [H|H]; apply Ascii.eqb_eq in H; subst c; reflexivity.
Qed.

Lemma scanStopsFrom_nil init : ~ scanStopsFrom init [].
Proof. intros ([|b before] & arg & after & H & _); discriminate. Qed.

Lemma scanStopsFrom_cons init arg pre :
  scanStopsFrom init (arg :: pre)
  <-> stopsScanFrom init [] arg = true
      \/ scanStopsFrom (recordedSource init [arg]) pre.
Proof.
  split.
  - intros ([|b before] & a & after & Heq & Hstop); cbn [app] in Heq;
      injection Heq as <- ->; [by left|].
    right. by exists before, a, after.
  - intros [Hstop|(before & a & after & -> & Hstop)].
    + by exists [], arg, pre.
    + by exists (arg :: before), a, after.
Qed.

Lemma scanStopsFrom_dec init pre : scanStopsFrom init pre \/ ~ scanStopsFrom init pre.
Proof.
  revert init. induction pre as [|arg pre IH]; intros init.
  - right. apply scanStopsFrom_nil.
  - destruct (stopsScanFrom init [] arg) eqn:Hstop.
    + left. apply scanStopsFrom_cons. by left.
    + destruct (IH (recordedSource init [arg])) as [H|H].
      * left. apply scanStopsFrom_cons. by right.
      * right. intros H'. apply scanStopsFrom_cons in H' as [H'|H']; [congruence|auto].
Qed.

(** The scan passes over tokens none of which ends it. *)
Lemma analyzeLoop_passes st pre :
  Forall (fun arg => isLinkSwitch arg = false /\ isMalformed arg = false) pre ->
  ~ scanStopsFrom (sourceFile st) pre ->
  exists st',
    analyzeLoop st pre = Returned (Next st')
    /\ sourceFile st' = recordedSource (sourceFile st) pre.
Proof.
  intros Hpre. revert st.
  induction Hpre as [|arg pre [Hl Hm] _ IH]; intros st Hno; [by exists st|].
  cbn [analyzeLoop].
  assert (Hrest : forall st1,
             analyzeArg st arg = Returned (Next st1) ->
             sourceFile st1 = recordedSource (sourceFile st) [arg] ->
             exists st',
               analyzeLoop st1 pre = Returned (Next st')
               /\ sourceFile st' = recordedSource (sourceFile st) (arg :: pre)).
  { intros st1 _ Hsrc. destruct (IH st1) as (st' & Hloop & Hsrc').
    - intros Hstop. apply Hno, scanStopsFrom_cons. right. by rewrite <- Hsrc.
    - exists st'. split; [exact Hloop|]. by rewrite Hsrc', Hsrc. }
  destruct (token_cases arg Hm) as [Hsw|[Hb|Hr]].
  - destruct (analyzeArg_switch_source st arg Hsw Hl) as (st1 & Harg & Hsrc).
    rewrite Harg. by apply Hrest.
  - destruct (isBare_sourceNamed arg Hb) as [Hr Hnamed].
    pose proof (analyzeArg_bare st arg Hb) as Harg.
    destruct (Py.truthy (sourceFile st)) eqn:Htruthy.
    + exfalso. apply Hno, scanStopsFrom_cons. left.
      unfold stopsScanFrom. cbn [recordedSource foldl]. by rewrite Hr, Hb, Htruthy.
    + rewrite Harg. apply Hrest; [exact Harg|].
      unfold recordedSource. cbn [foldl sourceFile]. by rewrite Hnamed.
  - exfalso. apply Hno, scanStopsFrom_cons. left.
    unfold stopsScanFrom. by rewrite Hr.
Qed.

(** The scan ends at the first token that stops it. *)
Lemma analyzeLoop_stops st pre rest :
  Forall (fun arg => isLinkSwitch arg = false /\ isMalformed arg = false) pre ->
  scanStopsFrom (sourceFile st) pre ->
  analyzeLoop st (pre ++ rest) = Returned (Return (MultipleSourceFiles, None, None)).
Proof.
  intros Hpre. revert st.
  induction Hpre as [|arg pre [Hl Hm] _ IH]; intros st Hstop.
  - by apply scanStopsFrom_nil in Hstop.
  - cbn [app analyzeLoop]. apply scanStopsFrom_cons in Hstop.
    destruct (token_cases arg Hm) as [Hsw|[Hb|Hr]].
    + destruct (analyzeArg_switch_source st arg Hsw Hl) as (st1 & Harg & Hsrc).
      rewrite Harg. apply IH. rewrite Hsrc.
      destruct Hstop as [Hstop|Hstop]; [|exact Hstop].
      destruct (isSwitch_sourceNamed arg Hsw) as (Hb & Hr & _).
      unfold stopsScanFrom in Hstop. rewrite Hb, Hr in Hstop. discriminate.
    + destruct (isBare_sourceNamed arg Hb) as [Hr Hnamed].
      rewrite (analyzeArg_bare st arg Hb).
      destruct (Py.truthy (sourceFile st)) eqn:Htruthy; [reflexivity|].
      apply IH. cbn [sourceFile].
      destruct Hstop as [Hstop|Hstop].
      * unfold stopsScanFrom in Hstop. cbn [recordedSource foldl] in Hstop.
        rewrite Hr, Hb, Htruthy in Hstop. discriminate.
      * unfold recordedSource in Hstop. cbn [foldl] in Hstop.
        by rewrite Hnamed in Hstop.
    + by rewrite (analyzeArg_response st arg Hr).
Qed.

(** C7 (as the code has it): the first [/link] or [-link] switch of a
    command line gives [CalledForLink], whatever follows it, exactly when
    no token before it ends the scan, and [MultipleSourceFiles] exactly
    when one does.  A token ends the scan when it starts with [@], or when
    it is a bare token met while a non-empty source is on record, the
    source on record being the one named last, by a bare token or by a
    [/Tp] or [/Tc] switch: such a switch replaces the source on record and
    does not end the scan.  The tokens before the switch are taken to be
    other than the empty token and a lone [/] or [-]: on one of these,
    when the scan reaches it, the classifier raises [IndexError]. *)
Theorem link_switch_reached_is_CalledForLink
        (host : Host) (prog : string) (pre : list string) (l : string)
        (post : list string) :
  isLinkSwitch l = true ->
  Forall (fun arg => isLinkSwitch arg = false /\ isMalformed arg = false) pre ->
  (analyzeCommandLine host (prog :: pre ++ l :: post)
   = Returned (CalledForLink, None, None)
   <-> ~ scanStopsIn pre)
  /\ (analyzeCommandLine host (prog :: pre ++ l :: post)
      = Returned (MultipleSourceFiles, None, None)
      <-> scanStopsIn pre)
  /\ (forall bad rest,
         isMalformed bad = true -> ~ scanStopsIn pre ->
         analyzeCommandLine host (prog :: pre ++ bad :: rest) = Raised IndexError).
Proof.
  intros Hl Hpre. unfold analyzeCommandLine, scanStopsIn. cbn [tail].
  set (st0 := {| foundCompileOnlySwitch := false; sourceFile := None;
                 outputFile := None |}).
  change None with (sourceFile st0) at 7 8 9 10.
  destruct (scanStopsFrom_dec (sourceFile st0) pre) as [Hstop|Hno].
  - rewrite (analyzeLoop_stops st0 pre (l :: post) Hpre Hstop).
    split; [|split].
    + split; [discriminate|tauto].
    + tauto.
    + tauto.
  - destruct (analyzeLoop_passes st0 pre Hpre Hno) as (st' & Hloop & _).
    rewrite (analyzeLoop_app _ _ _ (l :: post) Hloop). cbn [analyzeLoop].
    assert (Hsw : isSwitch l = true).
    { unfold isLinkSwitch in Hl.
      apply orb_true_iff in Hl as [H|H]; apply String.eqb_eq in H; by subst l. }
    rewrite (analyzeArg_switch st' l Hsw), Hl.
    split; [|split].
    + tauto.
    + split; [discriminate|tauto].
    + intros bad rest Hbad _.
      rewrite (analyzeLoop_app _ _ _ (bad :: rest) Hloop). cbn [analyzeLoop].
      by rewrite (analyzeArg_malformed st' bad Hbad).
Qed.

Lemma link_switch_reached_is_CalledForLink_witness :
  analyzeCommandLine exampleHost ["cl"; "/c"; "a.cpp"; "/Tcb.c"; "/link"; "a.lib"; "b.obj"]
  = Returned (CalledForLink, None, None).
Proof.
  apply (link_switch_reached_is_CalledForLink
           exampleHost "cl" ["/c"; "a.cpp"; "/Tcb.c"] "/link" ["a.lib"; "b.obj"]).
  - reflexivity.
  - repeat (constructor; [split; reflexivity|]). constructor.
  - intros (before & arg & after & Heq & Hstop).
    destruct before as [|b0 [|b1 [|b2 [|b3 before]]]]; cbn [app] in Heq;
      inversion Heq; subst; discriminate Hstop.
Defined.

(** C7 (as claimed) fails: two bare source tokens before the link switch
    make the classifier return [MultipleSourceFiles]. *)
Lemma link_after_two_sources_is_MultipleSourceFiles :
  In "/link" ["cl"; "/c"; "a.cpp"; "b.cpp"; "/link"]
  /\ analyzeCommandLine exampleHost ["cl"; "/c"; "a.cpp"; "b.cpp"; "/link"]
     = Returned (MultipleSourceFiles, None, None)
  /\ analyzeCommandLine exampleHost ["cl"; "/c"; "a.cpp"; "b.cpp"; "/link"]
     <> Returned (CalledForLink, None, None).
Proof.
  split; [cbn; tauto|]. split; [reflexivity|discriminate].
Qed.

Lemma isCompileOnlySwitch_like arg :
  isCompileOnlySwitch arg = true -> isCompileOnlySwitchLike arg = true.
Proof.
  unfold isCompileOnlySwitch. intros H.
  apply orb_true_iff in H as [H|H]; apply String.eqb_eq in H; by subst arg.
Qed.

(** The loop over switches that are neither link, source nor output
    switches only records whether a compile-only switch was seen. *)
Lemma analyzeLoop_plain_switches st args :
  Forall (fun arg => isSwitch arg = true /\ isLinkSwitch arg = false
                     /\ isSourceSwitch arg = false /\ isOutputSwitch arg = false) args ->
  analyzeLoop st args
  = Returned (Next {| foundCompileOnlySwitch :=
                        foundCompileOnlySwitch st
                        || existsb isCompileOnlySwitchLike args;
                      sourceFile := sourceFile st;
                      outputFile := outputFile st |}).
Proof.
  intros Hargs. revert st.
  induction Hargs as [|arg args (Hsw & Hl & Hs & Ho) _ IH]; intros st.
  - cbn [analyzeLoop existsb]. rewrite orb_false_r. by destruct st.
  - cbn [analyzeLoop existsb].
    rewrite (analyzeArg_switch st arg Hsw), Hl, Hs, Ho.
    destruct (isCompileOnlySwitchLike arg); rewrite IH; cbn [foundCompileOnlySwitch
      sourceFile outputFile orb]; [|reflexivity].
    by rewrite orb_true_r.
Qed.

(** A [return] out of the loop never reports [NoSourceFile]. *)
Lemma analyzeLoop_Return st args r :
  analyzeLoop st args = Returned (Return r) ->
  r = (CalledForLink, None, None) \/ r = (MultipleSourceFiles, None, None).
Proof.
  revert st. induction args as [|arg args IH]; intros st H; [discriminate|].
  cbn [analyzeLoop] in H.
  destruct (analyzeArg st arg) as [[st'|r']|e] eqn:Harg; [by eapply IH| |discriminate].
  injection H as <-. unfold analyzeArg in Harg.
  repeat match type of Harg with
         | match ?x with _ => _ end = _ => destruct x; try discriminate
         | (if ?b then _ else _) = _ => destruct b; try discriminate
         end; injection Harg as <-; auto.
Qed.

(** One iteration makes the source file the empty string only on a
    [/Tp] or [/Tc] switch with nothing after it. *)
Lemma analyzeArg_empty_source st arg st' :
  analyzeArg st arg = Returned (Next st') ->
  sourceFile st' = Some "" ->
  sourceFile st = Some "" \/ isEmptySourceSwitch arg = true.
Proof.
  intros Harg Hsrc.
  destruct (isSwitch arg) eqn:Hsw.
  - rewrite (analyzeArg_switch st arg Hsw) in Harg.
    destruct (isLinkSwitch arg); [discriminate|].
    destruct (isCompileOnlySwitchLike arg);
      [injection Harg as <-; by left|].
    destruct (isOutputSwitch arg); [injection Harg as <-; by left|].
    destruct (isSourceSwitch arg) eqn:Hs; [|injection Harg as <-; by left].
    injection Harg as <-. cbn [sourceFile] in Hsrc. right.
    injection Hsrc as Hsrc.
    destruct arg as [|c0 [|c1 [|c2 [|c3 rest]]]]; try discriminate;
      unfold isSourceSwitch in Hs; cbn [isSwitch] in Hs, Hsw;
      rewrite Hsw in Hs; cbn [andb] in Hs; unfold isEmptySourceSwitch;
      apply orb_true_iff in Hsw as [Hc|Hc]; apply Ascii.eqb_eq in Hc; subst c0;
      apply orb_true_iff in Hs as [Hs|Hs]; apply String.eqb_eq in Hs;
      cbn in Hs; inversion Hs; subst; reflexivity.
  - destruct arg as [|c0 rest]; [discriminate|].
    unfold analyzeArg in Harg. cbn [Py.index String.get] in Harg.
    cbv beta iota in Harg.
    destruct (Ascii.eqb c0 "/" || Ascii.eqb c0 "-") eqn:Hc.
    + destruct rest as [|c1 rest]; [|cbn [isSwitch] in Hsw; congruence].
      cbn in Harg. discriminate.
    + destruct (Ascii.eqb c0 "@"); [discriminate|].
      destruct (Py.truthy (sourceFile st)); [discriminate|].
      injection Harg as <-. cbn [sourceFile] in Hsrc. discriminate.
Qed.

Lemma analyzeLoop_empty_source st args st' :
  analyzeLoop st args = Returned (Next st') ->
  sourceFile st' = Some "" ->
  sourceFile st = Some ""
  \/ exists arg, In arg args /\ isEmptySourceSwitch arg = true.
Proof.
  revert st. induction args as [|arg args IH]; intros st H Hsrc.
  - injection H as <-. by left.
  - cbn [analyzeLoop] in H.
    destruct (analyzeArg st arg) as [[st1|r']|e] eqn:Harg; try discriminate.
    destruct (IH st1 H Hsrc) as [H1|(a & Hin & Ha)].
    + destruct (analyzeArg_empty_source st arg st1 Harg H1) as [?|Ha]; [by left|].
      right. exists arg. split; [by left|exact Ha].
    + right. exists a. split; [by right|exact Ha].
Qed.

(** A command line that the classifier accepts has no empty token after
    the program name: the loop has indexed the first character of each. *)
Lemma analyzeLoop_Next_nonempty st args st' :
  analyzeLoop st args = Returned (Next st') -> Forall (fun arg => arg <> "") args.
Proof.
  revert st. induction args as [|arg args IH]; intros st H; [constructor|].
  cbn [analyzeLoop] in H.
  destruct (analyzeArg st arg) as [[st1|r]|e] eqn:Harg; try discriminate.
  constructor; [|by eapply IH].
  intros ->. discriminate Harg.
Qed.

Lemma analyzeCommandLine_Ok_nonempty host cmdline src out :
  analyzeCommandLine host cmdline = Returned (Ok, src, out) ->
  Forall (fun arg => arg <> "") (tail cmdline).
Proof.
  unfold analyzeCommandLine. intros H.
  destruct (analyzeLoop _ (tail cmdline)) as [[st|r]|e] eqn:Hloop; [| |discriminate].
  - by eapply analyzeLoop_Next_nonempty.
  - injection H as ->.
    destruct (analyzeLoop_Return _ _ _ Hloop) as [?|?]; discriminate.
Qed.

(** C9 (as the code has it): when the tokens after the program name are
    all switches of two or more characters, none of them a link, source
    ([/Tp], [/Tc]) or output ([/Fo]) switch, and a compile-only switch is
    among them, the classifier returns [Ok] with source file and output
    file both [None]; and [NoSourceFile] is returned only when some token
    is a [/Tp] or [/Tc] switch with an empty path. *)
Theorem compile_only_without_source_is_Ok (host : Host) (cmdline : list string) :
  ((exists arg, In arg (tail cmdline) /\ isCompileOnlySwitch arg = true) ->
   Forall (fun arg => isSwitch arg = true /\ isLinkSwitch arg = false
                      /\ isSourceSwitch arg = false /\ isOutputSwitch arg = false)
          (tail cmdline) ->
   analyzeCommandLine host cmdline = Returned (Ok, None, None))
  /\ (forall src out,
        analyzeCommandLine host cmdline = Returned (NoSourceFile, src, out) ->
        exists arg, In arg (tail cmdline) /\ isEmptySourceSwitch arg = true).
Proof.
  split.
  - intros (arg & Hin & Hc) Hargs. unfold analyzeCommandLine.
    rewrite (analyzeLoop_plain_switches _ _ Hargs).
    cbn [foundCompileOnlySwitch sourceFile outputFile orb].
    assert (Hfound : existsb isCompileOnlySwitchLike (tail cmdline) = true).
    { apply existsb_exists. exists arg. split; [exact Hin|].
      by apply isCompileOnlySwitch_like. }
    rewrite Hfound. reflexivity.
  - intros src out H. unfold analyzeCommandLine in H.
    destruct (analyzeLoop _ (tail cmdline)) as [[st|r]|e] eqn:Hloop; [| |discriminate].
    + destruct (negb (foundCompileOnlySwitch st)); [discriminate|].
      destruct (Py.eq_str (sourceFile st) "") eqn:Hsrc; [|discriminate].
      assert (Hs : sourceFile st = Some "").
      { destruct (sourceFile st) as [s|]; [|discriminate].
        cbn in Hsrc. apply String.eqb_eq in Hsrc. by subst s. }
      destruct (analyzeLoop_empty_source _ _ _ Hloop Hs) as [?|?]; [discriminate|done].
    + injection H as ->.
      destruct (analyzeLoop_Return _ _ _ Hloop) as [?|?]; discriminate.
Qed.

Lemma compile_only_without_source_is_Ok_witness :
  analyzeCommandLine exampleHost ["cl"; "/c"; "/O2"; "-W4"] = Returned (Ok, None, None)
  /\ analyzeCommandLine exampleHost ["cl"; "/c"; "/Tp"] = Returned (NoSourceFile, None, None)
  /\ exists arg, In arg ["/c"; "/Tp"] /\ isEmptySourceSwitch arg = true.
Proof.
  split; [|split].
  - apply (proj1 (compile_only_without_source_is_Ok exampleHost ["cl"; "/c"; "/O2"; "-W4"])).
    + exists "/c". split; [by left|reflexivity].
    + repeat constructor.
  - reflexivity.
  - apply (proj2 (compile_only_without_source_is_Ok exampleHost ["cl"; "/c"; "/Tp"])
             None None).
    reflexivity.
Defined.

(** C9 (as claimed) fails: with a compile-only switch and no source token,
    an output-path switch still sets the output file, and a link switch
    still makes the call [CalledForLink]. *)
Lemma compile_only_with_output_switch_has_output :
  Forall (fun arg => isBare arg = false /\ isSourceSwitch arg = false) ["/c"; "/Fox.obj"]
  /\ In "/c" ["/c"; "/Fox.obj"]
  /\ analyzeCommandLine exampleHost ["cl"; "/c"; "/Fox.obj"]
     = Returned (Ok, None, Some "x.obj")
  /\ analyzeCommandLine exampleHost ["cl"; "/c"; "/Fox.obj"]
     <> Returned (Ok, None, None)
  /\ analyzeCommandLine exampleHost ["cl"; "/c"; "/link"]
     = Returned (CalledForLink, None, None).
Proof.
  split; [repeat constructor|]. split; [by left|].
  split; [reflexivity|]. split; [discriminate|reflexivity].
Qed.

(** ** Eviction *)

Lemma world_eta w :
  {| documents := documents w; entries := entries w; files := files w;
     clock := clock w; trace := trace w |} = w.
Proof. by destruct w. Qed.

(** The loop of [clean] as a function of the world it runs in. *)
Lemma evictLoop_run infos cur max w :
  ObjectCache_.evictLoop infos cur max w
  = (Done (cur - sumSizes (evicted infos cur max)),
     {| documents := documents w;
        entries := foldl (fun es i => ObjectCache_.removeEntry (snd i) es)
                         (entries w) (evicted infos cur max);
        files := files w;
        clock := clock w;
        trace := (trace w ++ List.map (fun i => RemoveEntry (snd i))
                                     (evicted infos cur max))%list |}).
Proof.
  revert cur w. induction infos as [|[stat fn] rest IH]; intros cur w.
  - cbn. rewrite app_nil_r, world_eta, Z.sub_0_r. reflexivity.
  - cbn [ObjectCache_.evictLoop evicted fst].
    unfold ObjectCache_.rmtree. proc_unfold.
    destruct (cur - st_size stat <? max) eqn:Hlt.
    + cbn. rewrite Z.add_0_r. reflexivity.
    + rewrite IH. cbn. rewrite <- app_assoc, Z.sub_add_distr. reflexivity.
Qed.

Lemma clean_run cache stats max w recorded :
  CacheStatistics_.currentCacheSize stats = Returned recorded ->
  ObjectCache_.clean cache stats max w
  = if recorded <? max then (Done stats, w)
    else
      let del := evicted (sortByAtimeReverse (ObjectCache_.walkObjects (entries w)))
                         recorded max in
      (Done (CacheStatistics_.setCacheSize stats (recorded - sumSizes del)),
       {| documents := documents w;
          entries := foldl (fun es i => ObjectCache_.removeEntry (snd i) es)
                           (entries w) del;
          files := files w;
          clock := clock w;
          trace := (trace w ++ WalkEntries
                      :: List.map (fun i => RemoveEntry (snd i)) del)%list |}).
Proof.
  intros Hsize. unfold ObjectCache_.clean. rewrite Hsize. proc_unfold.
  destruct (recorded <? max); [reflexivity|].
  rewrite evictLoop_run. cbn. rewrite <- app_assoc. reflexivity.
Qed.

(** *** The sort *)

Lemma insertByAtime_Permutation x l : Permutation (insertByAtime x l) (x :: l).
Proof.
  induction l as [|y l IH]; cbn; [reflexivity|].
  destruct (st_atime (fst y) <=? st_atime (fst x)); [reflexivity|].
  rewrite IH. apply perm_swap.
Qed.

Lemma sortByAtimeReverse_Permutation l : Permutation (sortByAtimeReverse l) l.
Proof.
  induction l as [|x l IH]; cbn; [reflexivity|].
  rewrite insertByAtime_Permutation. by constructor.
Qed.

Lemma insertByAtime_newestFirst x l :
  newestFirst l -> newestFirst (insertByAtime x l).
Proof.
  unfold newestFirst. induction 1 as [|y l Hl IH Hy]; cbn.
  - repeat constructor.
  - destruct (st_atime (fst y) <=? st_atime (fst x)) eqn:Hle.
    + apply Z.leb_le in Hle. constructor; [by constructor|].
      constructor; [exact Hle|].
      eapply List.Forall_impl; [|exact Hy]. cbn. intros z Hz. lia.
    + apply Z.leb_gt in Hle. constructor; [exact IH|].
      eapply Permutation_Forall.
      { symmetry. apply insertByAtime_Permutation. }
      constructor; [lia|exact Hy].
Qed.

Lemma sortByAtimeReverse_newestFirst l : newestFirst (sortByAtimeReverse l).
Proof.
  induction l as [|x l IH]; cbn; [constructor|].
  by apply insertByAtime_newestFirst.
Qed.

(** *** What the loop deletes *)

Lemma sumSizes_cons i l : sumSizes (i :: l) = st_size (fst i) + sumSizes l.
Proof. reflexivity. Qed.

Lemma sumSizes_app l1 l2 : sumSizes (l1 ++ l2) = sumSizes l1 + sumSizes l2.
Proof.
  induction l1 as [|i l1 IH]; [reflexivity|].
  cbn [app]. rewrite !sumSizes_cons, IH. lia.
Qed.

Lemma evicted_prefix infos cur max :
  exists kept,
    infos = (evicted infos cur max ++ kept)%list
    /\ (cur - sumSizes (evicted infos cur max) < max \/ kept = []).
Proof.
  revert cur. induction infos as [|i rest IH]; intros cur.
  - exists []. split; [reflexivity|by right].
  - cbn [evicted]. destruct (cur - st_size (fst i) <? max) eqn:Hlt.
    + exists rest. split; [reflexivity|]. left. apply Z.ltb_lt in Hlt.
      rewrite sumSizes_cons. change (sumSizes []) with 0. lia.
    + destruct (IH (cur - st_size (fst i))) as (kept & Heq & Hk).
      exists kept. split; [cbn [app]; by rewrite <- Heq|].
      destruct Hk as [Hk|Hk]; [left; rewrite sumSizes_cons; lia|by right].
Qed.

(** *** Accounting of the bytes on disk *)

Lemma foldl_removeEntry del es :
  foldl (fun es i => ObjectCache_.removeEntry (snd i) es) es del
  = List.filter (fun e => survives del (fst e)) es.
Proof.
  revert es. induction del as [|i del IH]; intros es.
  - cbn [foldl]. unfold survives. cbn [existsb negb].
    induction es as [|e es IHes]; [reflexivity|]. cbn [List.filter]. by f_equal.
  - cbn [foldl]. rewrite IH. unfold ObjectCache_.removeEntry, survives.
    induction es as [|e es IHes]; [reflexivity|].
    cbn [List.filter existsb].
    destruct (String.eqb (fst e) (snd i)); cbn [negb orb List.filter];
      rewrite IHes; reflexivity.
Qed.

Lemma objectBytes_walkObjects es :
  objectBytes es = sumSizes (ObjectCache_.walkObjects es).
Proof.
  induction es as [|[k d] es IH]; [reflexivity|].
  unfold ObjectCache_.walkObjects in *. cbn [objectBytes foldr omap list_omap snd fst].
  fold (objectBytes es). destruct (object d) as [o|]; [|exact IH].
  rewrite sumSizes_cons, IH. reflexivity.
Qed.

Lemma walkObjects_filter (p : string -> bool) es :
  ObjectCache_.walkObjects (List.filter (fun e => p (fst e)) es)
  = List.filter (fun i => p (snd i)) (ObjectCache_.walkObjects es).
Proof.
  unfold ObjectCache_.walkObjects.
  induction es as [|[k [[o|] t]] es IH]; [reflexivity| |];
    cbn [List.filter omap list_omap fst snd object];
    destruct (p k) eqn:Hp;
    cbn [omap list_omap List.filter fst snd object]; rewrite ?Hp, ?IH; reflexivity.
Qed.

Lemma sumSizes_filter_Permutation (f : ObjectInfo -> bool) l l' :
  Permutation l l' -> sumSizes (List.filter f l) = sumSizes (List.filter f l').
Proof.
  induction 1 as [|x l l' _ IH|x y l|l l' l'' _ IH1 _ IH2].
  - reflexivity.
  - cbn [List.filter]. destruct (f x); [rewrite !sumSizes_cons|]; lia.
  - cbn [List.filter]. destruct (f x), (f y); rewrite ?sumSizes_cons; lia.
  - lia.
Qed.

Lemma sumSizes_Permutation l l' : Permutation l l' -> sumSizes l = sumSizes l'.
Proof.
  induction 1 as [|x l l' _ IH|x y l|l l' l'' _ IH1 _ IH2];
    rewrite ?sumSizes_cons; lia.
Qed.

Lemma walkObjects_keys es k :
  In k (List.map snd (ObjectCache_.walkObjects es)) -> In k (List.map fst es).
Proof.
  unfold ObjectCache_.walkObjects.
  induction es as [|[k' d] es IH]; [intros []|].
  cbn [omap list_omap fst snd List.map]. destruct (object d) as [o|].
  - cbn [List.map snd]. intros [<-|H]; [by left|right; auto].
  - intros H. right. auto.
Qed.

Lemma walkObjects_NoDup es :
  List.NoDup (List.map fst es) ->
  List.NoDup (List.map snd (ObjectCache_.walkObjects es)).
Proof.
  induction es as [|[k d] es IH]; [constructor|].
  cbn [List.map fst]. intros Hnd. apply List.NoDup_cons_iff in Hnd as [Hk Hnd].
  unfold ObjectCache_.walkObjects in *. cbn [omap list_omap fst snd].
  destruct (object d) as [o|]; [|auto].
  cbn [List.map snd]. apply List.NoDup_cons; [|auto].
  intros Hin. apply Hk. by apply walkObjects_keys.
Qed.

Lemma filter_none {A} (f : A -> bool) l :
  (forall x, In x l -> f x = false) -> List.filter f l = [].
Proof.
  induction l as [|x l IH]; [reflexivity|]. intros H. cbn [List.filter].
  rewrite (H x) by (by left). apply IH. intros y Hy. apply H. by right.
Qed.

Lemma filter_all {A} (f : A -> bool) l :
  (forall x, In x l -> f x = true) -> List.filter f l = l.
Proof.
  induction l as [|x l IH]; [reflexivity|]. intros H. cbn [List.filter].
  rewrite (H x) by (by left). f_equal. apply IH. intros y Hy. apply H. by right.
Qed.

(** Deleting a prefix of the objects, listed without repetition. *)
Lemma sumSizes_survivors del kept :
  List.NoDup (List.map snd (del ++ kept)) ->
  sumSizes (List.filter (fun i => survives del (snd i)) (del ++ kept)) = sumSizes kept.
Proof.
  intros Hnd. rewrite List.filter_app, sumSizes_app.
  rewrite filter_none, filter_all; [reflexivity| |].
  - intros x Hx. unfold survives. apply negb_true_iff.
    destruct (existsb _ del) eqn:He; [|reflexivity].
    apply existsb_exists in He as (i & Hi & Heq). apply String.eqb_eq in Heq.
    rewrite List.map_app in Hnd.
    apply NoDup_ListNoDup, NoDup_app in Hnd as (_ & Hdisj & _).
    exfalso. apply (Hdisj (snd i)).
    + apply list_elem_of_In, in_map, Hi.
    + rewrite <- Heq. apply list_elem_of_In, in_map, Hx.
  - intros x Hx. unfold survives. apply negb_false_iff.
    apply existsb_exists. exists x. split; [exact Hx|apply String.eqb_refl].
Qed.

Lemma objectBytes_after_eviction es cur max :
  List.NoDup (List.map fst es) ->
  let del := evicted (sortByAtimeReverse (ObjectCache_.walkObjects es)) cur max in
  let es' := foldl (fun es i => ObjectCache_.removeEntry (snd i) es) es del in
  objectBytes es' = objectBytes es - sumSizes del
  /\ (cur - sumSizes del < max \/ objectBytes es' = 0).
Proof.
  intros Hnd. cbv zeta. rewrite foldl_removeEntry.
  pose proof (sortByAtimeReverse_Permutation (ObjectCache_.walkObjects es)) as Hperm.
  set (infos := sortByAtimeReverse _) in *.
  destruct (evicted_prefix infos cur max) as (kept & Hsplit & Hstop).
  set (del := evicted infos cur max) in *.
  clearbody del. clearbody infos. subst infos.
  assert (Hafter : objectBytes (List.filter (fun e => survives del (fst e)) es)
                   = sumSizes kept).
  { rewrite objectBytes_walkObjects, (walkObjects_filter (survives del)).
    rewrite <- (sumSizes_filter_Permutation _ _ _ Hperm).
    apply sumSizes_survivors.
    eapply Permutation_NoDup; [|apply (walkObjects_NoDup es Hnd)].
    apply Permutation_map. by symmetry. }
  assert (Hbefore : objectBytes es = sumSizes del + sumSizes kept).
  { rewrite objectBytes_walkObjects, <- (sumSizes_Permutation _ _ Hperm).
    apply sumSizes_app. }
  split; [lia|].
  destruct Hstop as [Hlt| ->]; [by left|right]. by rewrite Hafter.
Qed.

Lemma currentCacheSize_setCacheSize stats size :
  CacheStatistics_.currentCacheSize (CacheStatistics_.setCacheSize stats size)
  = Returned size.
Proof.
  unfold CacheStatistics_.currentCacheSize, CacheStatistics_.setCacheSize,
    PersistentJSONDict_.__getitem__, PersistentJSONDict_.__setitem__.
  cbn [_stats _dict]. by rewrite lookup_insert_eq.
Qed.

(** C3 (as the code has it): an eviction run triggered with recorded size
    at least the maximum sets the statistics size field to the recorded
    size minus the bytes of the deleted objects.  When the recorded size
    was the measured total of the object files before the run and some
    object is smaller than the maximum, the measured total of the remaining
    objects is at most the maximum and the size field equals it; the field
    is never measured afresh, so a recorded size that had drifted stays off
    by the same amount. *)
Theorem clean_decrements_recorded_size
        (cache : ObjectCache) (stats : CacheStatistics) (maximumSize : Z)
        (w : World) (recorded : Z) :
  List.NoDup (List.map fst (entries w)) ->
  CacheStatistics_.currentCacheSize stats = Returned recorded ->
  maximumSize <= recorded ->
  exists stats' w',
    ObjectCache_.clean cache stats maximumSize w = (Done stats', w')
    /\ CacheStatistics_.currentCacheSize stats'
       = Returned (recorded - (objectBytes (entries w) - objectBytes (entries w')))
    /\ (recorded = objectBytes (entries w) ->
        (exists key d o, In (key, d) (entries w) /\ object d = Some o
                         /\ st_size o < maximumSize) ->
        objectBytes (entries w') <= maximumSize
        /\ CacheStatistics_.currentCacheSize stats'
           = Returned (objectBytes (entries w'))).
Proof.
  intros Hnd Hsize Hmax.
  rewrite (clean_run cache stats maximumSize w recorded Hsize).
  destruct (recorded <? maximumSize) eqn:Hlt; [apply Z.ltb_lt in Hlt; lia|].
  cbv zeta. eexists _, _. split; [reflexivity|]. cbn [entries].
  destruct (objectBytes_after_eviction (entries w) recorded maximumSize Hnd)
    as [Hbytes Hstop]. cbv zeta in Hbytes, Hstop.
  rewrite currentCacheSize_setCacheSize. split; [f_equal; lia|].
  intros Hexact (key & d & o & _ & _ & Hsmall).
  split; [|f_equal; lia].
  assert (0 <= st_size o) by (unfold st_size; lia).
  destruct Hstop as [Hstop|Hstop]; lia.
Qed.

Lemma clean_decrements_recorded_size_witness :
  exists stats' w',
    ObjectCache_.clean exampleCache (statsWithSize 20) 15 twoEntries = (Done stats', w')
    /\ objectBytes (entries w') <= 15
    /\ CacheStatistics_.currentCacheSize stats' = Returned (objectBytes (entries w')).
Proof.
  destruct (clean_decrements_recorded_size exampleCache (statsWithSize 20) 15
              twoEntries 20) as (stats' & w' & Hrun & _ & Hexact).
  - cbn. repeat constructor; cbn; intuition discriminate.
  - reflexivity.
  - lia.
  - exists stats', w'. split; [exact Hrun|]. apply Hexact.
    + reflexivity.
    + exists "old", (snd (entryOf "old" 100 "0123456789")),
        {| st_atime := 100; blob := "0123456789" |}.
      split; [by left|]. split; reflexivity.
Defined.

(** C3 (as claimed) fails when the recorded size has drifted: with thirteen
    bytes on disk recorded as five and a maximum of five, the run deletes
    one byte, leaves twelve bytes on disk, above the maximum, and records
    four. *)
Lemma clean_keeps_drift :
  5 <= 5
  /\ objectBytes (entries threeEntries) = 13
  /\ exists stats' w',
      ObjectCache_.clean exampleCache (statsWithSize 5) 5 threeEntries = (Done stats', w')
      /\ objectBytes (entries w') = 12
      /\ ~ (objectBytes (entries w') <= 5)
      /\ CacheStatistics_.currentCacheSize stats' = Returned 4
      /\ CacheStatistics_.currentCacheSize stats' <> Returned (objectBytes (entries w')).
Proof.
  split; [lia|]. split; [reflexivity|].
  eexists _, _. split; [vm_compute; reflexivity|].
  split; [reflexivity|]. split; [vm_compute; intros H; by apply H|].
  split; [vm_compute; reflexivity|]. vm_compute. discriminate.
Qed.

(** *** The order of eviction *)

Lemma newestFirst_app l1 l2 x y :
  newestFirst (l1 ++ l2) -> In x l1 -> In y l2 ->
  st_atime (fst y) <= st_atime (fst x).
Proof.
  unfold newestFirst. induction l1 as [|a l1 IH]; intros Hs Hx Hy; [destruct Hx|].
  cbn [app] in Hs. apply StronglySorted_inv in Hs as [Hs Ha].
  destruct Hx as [->|Hx]; [|by apply IH].
  rewrite List.Forall_forall in Ha. apply Ha, in_or_app. by right.
Qed.

Lemma NoDup_map_eq {A B} (f : A -> B) l x y :
  List.NoDup (List.map f l) -> In x l -> In y l -> f x = f y -> x = y.
Proof.
  induction l as [|a l IH]; [intros _ []|].
  cbn [List.map]. intros Hnd Hx Hy Hf.
  apply List.NoDup_cons_iff in Hnd as [Ha Hnd].
  destruct Hx as [->|Hx], Hy as [->|Hy]; [reflexivity| | |by apply IH].
  - exfalso. apply Ha. rewrite Hf. by apply in_map.
  - exfalso. apply Ha. rewrite <- Hf. by apply in_map.
Qed.

(** Whatever the store, the run deletes the objects read last: every
    object it deletes was read at least as recently as every object it
    keeps. *)
Lemma clean_deletes_newest_first cache stats maximumSize w recorded stats' w' :
  List.NoDup (List.map fst (entries w)) ->
  CacheStatistics_.currentCacheSize stats = Returned recorded ->
  ObjectCache_.clean cache stats maximumSize w = (Done stats', w') ->
  forall deleted retained,
    In deleted (ObjectCache_.walkObjects (entries w)) ->
    ~ In deleted (ObjectCache_.walkObjects (entries w')) ->
    In retained (ObjectCache_.walkObjects (entries w')) ->
    st_atime (fst retained) <= st_atime (fst deleted).
Proof.
  intros Hnd Hsize Hrun deleted retained Hd Hgone Hkept.
  rewrite (clean_run cache stats maximumSize w recorded Hsize) in Hrun.
  destruct (recorded <? maximumSize); [injection Hrun as _ <-; contradiction|].
  cbv zeta in Hrun. injection Hrun as _ <-. cbn [entries] in Hgone, Hkept.
  rewrite foldl_removeEntry in Hgone, Hkept.
  pose proof (sortByAtimeReverse_Permutation (ObjectCache_.walkObjects (entries w)))
    as Hperm.
  pose proof (sortByAtimeReverse_newestFirst (ObjectCache_.walkObjects (entries w)))
    as Hsorted.
  set (infos := sortByAtimeReverse _) in *.
  destruct (evicted_prefix infos recorded maximumSize) as (kept & Hsplit & _).
  set (del := evicted infos recorded maximumSize) in *.
  clearbody del. clearbody infos. subst infos.
  assert (Hndi : List.NoDup (List.map snd (del ++ kept))).
  { eapply Permutation_NoDup; [|apply (walkObjects_NoDup _ Hnd)].
    apply Permutation_map. by symmetry. }
  rewrite (walkObjects_filter (survives del)) in Hgone, Hkept.
  assert (Hsplit_in : forall i, In i (ObjectCache_.walkObjects (entries w)) ->
                                survives del (snd i) = true -> In i kept).
  { intros i Hi Hsurv.
    apply (Permutation_in _ (Permutation_sym Hperm)), in_app_or in Hi as [Hi|Hi];
      [|exact Hi].
    unfold survives in Hsurv. apply negb_true_iff in Hsurv.
    assert (existsb (fun j => String.eqb (snd i) (snd j)) del = true); [|congruence].
    apply existsb_exists. exists i. split; [exact Hi|apply String.eqb_refl]. }
  assert (Hr : In retained kept).
  { apply List.filter_In in Hkept as [Hin Hsurv]. by apply Hsplit_in. }
  assert (Hdel : In deleted del).
  { destruct (survives del (snd deleted)) eqn:Hsurv.
    - exfalso. apply Hgone, List.filter_In. by split.
    - unfold survives in Hsurv. apply negb_false_iff, existsb_exists in Hsurv
        as (j & Hj & Heq).
      apply String.eqb_eq in Heq.
      assert (deleted = j) as ->; [|exact Hj].
      apply (NoDup_map_eq snd (del ++ kept)); [exact Hndi| |by apply in_or_app; left|exact Heq].
      apply (Permutation_in _ (Permutation_sym Hperm)), Hd. }
  by apply (newestFirst_app del kept).
Qed.

(** C2: on a store of two entries over the maximum, the run deletes the
    entry read last and keeps the one read first. *)
Lemma clean_deletes_most_recently_used :
  atimeOf "old" (entries twoEntries) = Some 100
  /\ atimeOf "new" (entries twoEntries) = Some 200
  /\ exists stats' w',
      ObjectCache_.clean exampleCache (statsWithSize 20) 15 twoEntries = (Done stats', w')
      /\ trace w' = [WalkEntries; RemoveEntry "new"]
      /\ List.map fst (entries w') = ["old"]
      /\ atimeOf "old" (entries w') = Some 100
      /\ atimeOf "new" (entries w') = None.
Proof.
  split; [reflexivity|]. split; [reflexivity|].
  eexists _, _. split; [vm_compute; reflexivity|].
  repeat split; reflexivity.
Qed.

(** ** Persistent documents *)

(** C8: constructing a [PersistentJSONDict] on a path whose file is
    missing or does not parse does not raise: it returns an empty document
    with the dirty flag unset, and leaves the files as they are. *)
Theorem PersistentJSONDict_init_recovers (fileName : string) (w : World) :
  documents w !! fileName = None \/ documents w !! fileName = Some Malformed ->
  PersistentJSONDict_.__init__ fileName w
  = (Done {| _dirty := false; _dict := ∅; _fileName := fileName |},
     emit (LoadDocument fileName) w).
Proof.
  intros H. unfold PersistentJSONDict_.__init__. proc_unfold.
  cbn [documents emit]. destruct H as [-> | ->]; reflexivity.
Qed.

Lemma PersistentJSONDict_init_recovers_witness :
  PersistentJSONDict_.__init__ "C:\clcache\stats.txt" corruptWorld
  = (Done {| _dirty := false; _dict := ∅; _fileName := "C:\clcache\stats.txt" |},
     emit (LoadDocument "C:\clcache\stats.txt") corruptWorld)
  /\ PersistentJSONDict_.__init__ "C:\clcache\stats.txt" freshWorld
     = (Done {| _dirty := false; _dict := ∅; _fileName := "C:\clcache\stats.txt" |},
        emit (LoadDocument "C:\clcache\stats.txt") freshWorld).
Proof.
  split.
  - apply (PersistentJSONDict_init_recovers "C:\clcache\stats.txt" corruptWorld).
    right. reflexivity.
  - apply (PersistentJSONDict_init_recovers "C:\clcache\stats.txt" freshWorld).
    left. reflexivity.
Defined.

Lemma Configuration_init_run host cache w :
  Configuration__init__ host cache w
  = (Done {| _cfg :=
               foldl setdefault
                     {| _dirty := false;
                        _dict := match documents w
                                       !! os_path_join host (dir cache) "config.txt" with
                                 | Some (JsonObject d) => d
                                 | _ => ∅
                                 end;
                        _fileName := os_path_join host (dir cache) "config.txt" |}
                     Configuration_._defaultValues |},
     emit (LoadDocument (os_path_join host (dir cache) "config.txt")) w).
Proof.
  unfold Configuration__init__, PersistentJSONDict_in, PersistentJSONDict_.__init__,
    ObjectCache_.cacheDirectory.
  proc_unfold. cbn [documents emit].
  destruct (documents w !! _) as [[|d]|]; reflexivity.
Qed.

(** C6 (as the code has it): when there is no configuration file the
    maximum cache size is the default 1024 * 1024 * 1000 = 1 048 576 000
    bytes. *)
Theorem default_maximumCacheSize (host : Host) (cache : ObjectCache) (w : World) :
  documents w !! os_path_join host (dir cache) "config.txt" = None ->
  exists cfg w',
    Configuration__init__ host cache w = (Done cfg, w')
    /\ Configuration_.maximumCacheSize cfg = Returned (1024 * 1024 * 1000)
    /\ Configuration_.maximumCacheSize cfg = Returned 1048576000.
Proof.
  intros Hmissing. rewrite Configuration_init_run, Hmissing.
  eexists _, _. split; [reflexivity|].
  assert (H : forall cfg : PersistentJSONDict,
             _dict cfg = ∅ ->
             Configuration_.maximumCacheSize
               {| _cfg := foldl setdefault cfg Configuration_._defaultValues |}
             = Returned (1024 * 1024 * 1000)).
  { intros cfg Hcfg.
    unfold Configuration_.maximumCacheSize, Configuration_._defaultValues,
      PersistentJSONDict_.__getitem__.
    cbn [foldl _cfg]. unfold setdefault, PersistentJSONDict_.__contains__.
    cbn [fst snd]. rewrite Hcfg, lookup_empty.
    rewrite bool_decide_eq_false_2 by (intros [? ?]; discriminate).
    cbn [negb PersistentJSONDict_.__setitem__ _dict].
    by rewrite lookup_insert_eq. }
  split; [by apply H|]. by rewrite H.
Qed.

Lemma default_maximumCacheSize_witness :
  exists cfg w',
    Configuration__init__ exampleHost exampleCache freshWorld = (Done cfg, w')
    /\ Configuration_.maximumCacheSize cfg = Returned 1048576000.
Proof.
  destruct (default_maximumCacheSize exampleHost exampleCache freshWorld)
    as (cfg & w' & Hrun & _ & Hmax).
  - reflexivity.
  - exists cfg, w'. split; [exact Hrun|exact Hmax].
Defined.

(** C6 (as claimed) fails: the default is not 1 000 000 * 1024. *)
Lemma default_maximumCacheSize_is_not_1024000000 :
  exists cfg w',
    Configuration__init__ exampleHost exampleCache freshWorld = (Done cfg, w')
    /\ Configuration_.maximumCacheSize cfg = Returned 1048576000
    /\ Configuration_.maximumCacheSize cfg <> Returned (1000000 * 1024).
Proof.
  eexists _, _. split; [vm_compute; reflexivity|].
  split; [vm_compute; reflexivity|]. vm_compute. discriminate.
Qed.

(** ** What the processes emit *)

Section Emits.

Context (P : Event -> Prop).

Lemma Emits_ret {A} (a : A) : Emits P (mret a).
Proof. intros w. exists []. split; [by rewrite app_nil_r|constructor]. Qed.

Lemma Emits_raise {A} e : Emits P (raise (A := A) e).
Proof. intros w. exists []. split; [by rewrite app_nil_r|constructor]. Qed.

Lemma Emits_sys_exit {A} code : Emits P (sys_exit (A := A) code).
Proof. intros w. exists []. split; [by rewrite app_nil_r|constructor]. Qed.

Lemma Emits_getWorld : Emits P getWorld.
Proof. intros w. exists []. split; [by rewrite app_nil_r|constructor]. Qed.

Lemma Emits_lift {A} (r : PyResult A) : Emits P (lift r).
Proof. destruct r; [apply Emits_ret|apply Emits_raise]. Qed.

Lemma Emits_log e : P e -> Emits P (log e).
Proof. intros He w. exists [e]. split; [reflexivity|by constructor]. Qed.

Lemma Emits_modify f : (forall w, trace (f w) = trace w) -> Emits P (modify f).
Proof.
  intros Hf w. exists []. split; [cbn; by rewrite Hf, app_nil_r|constructor].
Qed.

Lemma Emits_bind {A B} (p : Proc A) (k : A -> Proc B) :
  Emits P p -> (forall a, Emits P (k a)) -> Emits P (p ≫= k).
Proof.
  intros Hp Hk w. destruct (Hp w) as (ev1 & Ht1 & HP1).
  unfold mbind, Proc_bind. destruct (p w) as [[a|c|e] w1]; cbn [snd] in *.
  - destruct (Hk a w1) as (ev2 & Ht2 & HP2).
    exists (ev1 ++ ev2)%list. split; [by rewrite Ht2, Ht1, app_assoc|].
    by apply Forall_app.
  - by exists ev1.
  - by exists ev1.
Qed.

End Emits.

(** Break a process into its steps; [solve_event] proves [P] of a logged
    event. *)
Ltac emits_with solve_event :=
  repeat lazymatch goal with
    | |- Emits _ (mbind _ _) => apply Emits_bind; [|intro]
    | |- Emits _ (mret _) => apply Emits_ret
    | |- Emits _ (raise _) => apply Emits_raise
    | |- Emits _ (sys_exit _) => apply Emits_sys_exit
    | |- Emits _ getWorld => apply Emits_getWorld
    | |- Emits _ (lift _) => apply Emits_lift
    | |- Emits _ (log _) => apply Emits_log; solve_event
    | |- Emits _ (modify _) => apply Emits_modify; intros; reflexivity
    | |- Emits _ (match ?x with _ => _ end) => destruct x
    | |- Emits _ (if ?b then _ else _) => destruct b
    end.

(** ** The lock *)

Ltac lock_free := unfold lockFree; emits_with ltac:(reflexivity).

Lemma lockFree_evictLoop infos cur max : lockFree (ObjectCache_.evictLoop infos cur max).
Proof.
  revert cur. induction infos as [|[stat fn] rest IH]; intros cur;
    cbn [ObjectCache_.evictLoop]; [lock_free|].
  unfold ObjectCache_.rmtree. lock_free. apply IH.
Qed.

Lemma lockFree_clean cache stats max : lockFree (ObjectCache_.clean cache stats max).
Proof. unfold ObjectCache_.clean. lock_free. apply lockFree_evictLoop. Qed.

Lemma lockFree_save d : lockFree (PersistentJSONDict_.save d).
Proof. unfold PersistentJSONDict_.save. lock_free. Qed.

Lemma lockFree_PersistentJSONDict_init f : lockFree (PersistentJSONDict_.__init__ f).
Proof. unfold PersistentJSONDict_.__init__. lock_free. Qed.

Lemma lockFree_invokeRealCompiler host compiler cmd capture :
  lockFree (invokeRealCompiler host compiler cmd capture).
Proof. unfold invokeRealCompiler. lock_free. Qed.

Lemma lockFree_setEntry cache key obj out :
  lockFree (ObjectCache_.setEntry cache key obj out).
Proof. unfold ObjectCache_.setEntry. lock_free. Qed.

Lemma lockFree_notCacheable host r stats compiler argv1 cmdLine :
  lockFree (notCacheable host r stats compiler argv1 cmdLine).
Proof.
  unfold notCacheable, printTraceStatement, CacheStatistics_.save.
  lock_free; apply lockFree_save || apply lockFree_invokeRealCompiler.
Qed.

Lemma lockFree_cacheHit host cache stats key out :
  lockFree (cacheHit host cache stats key out).
Proof.
  unfold cacheHit, printTraceStatement, CacheStatistics_.save,
    ObjectCache_.copyObjectTo, ObjectCache_.cachedCompilerOutput.
  lock_free; apply lockFree_save.
Qed.

Lemma lockFree_cacheMiss host cache stats compiler argv1 key out :
  lockFree (cacheMiss host cache stats compiler argv1 key out).
Proof.
  unfold cacheMiss, printTraceStatement, CacheStatistics_.save, stdout_write,
    getsize, Configuration__init__, PersistentJSONDict_in.
  lock_free;
    first [ apply lockFree_save | apply lockFree_invokeRealCompiler
          | apply lockFree_setEntry | apply lockFree_clean
          | apply lockFree_PersistentJSONDict_init ].
Qed.

Lemma lockFree_dispatch host cache stats r out compiler argv1 cmdLine :
  lockFree (dispatch host cache stats r out compiler argv1 cmdLine).
Proof.
  unfold dispatch, ObjectCache_.computeKey, ObjectCache_.hasEntry.
  lock_free;
    first [ apply lockFree_notCacheable | apply lockFree_cacheHit
          | apply lockFree_cacheMiss ].
Qed.

(** The main flow never acquires (or releases) the lock. *)
Lemma lockFree_mainFlow host compiler argv1 cmdLine :
  lockFree (mainFlow host compiler argv1 cmdLine).
Proof.
  unfold mainFlow, ObjectCache_.__init__, CacheStatistics__init__, PersistentJSONDict_in.
  lock_free; first [ apply lockFree_PersistentJSONDict_init | apply lockFree_dispatch ].
Qed.

Lemma CacheStatistics_init_run host cache w :
  CacheStatistics__init__ host cache w
  = (Done {| _stats :=
               foldl setdefault
                     {| _dirty := false;
                        _dict := match documents w
                                       !! os_path_join host (dir cache) "stats.txt" with
                                 | Some (JsonObject d) => d
                                 | _ => ∅
                                 end;
                        _fileName := os_path_join host (dir cache) "stats.txt" |}
                     ((fun k => (k, 0)) <$> CacheStatistics_.counters) |},
     emit (LoadDocument (os_path_join host (dir cache) "stats.txt")) w).
Proof.
  unfold CacheStatistics__init__, PersistentJSONDict_in, PersistentJSONDict_.__init__,
    ObjectCache_.cacheDirectory.
  proc_unfold. cbn [documents emit].
  destruct (documents w !! _) as [[|d]|]; reflexivity.
Qed.

(** Whenever the classifier returns, the main flow starts by loading the
    statistics, and neither then nor later takes the lock: the discipline
    "shared state only under the lock" is broken on every run. *)
Lemma mainFlow_runs_unlocked host compiler argv1 cmdLine w a :
  analyzeCommandLine host cmdLine = Returned a ->
  exists rest,
    trace (snd (mainFlow host compiler argv1 cmdLine w))
    = (trace w ++ LoadDocument (statsPath host) :: rest)%list
    /\ Forall (fun e => isLockEvent e = false) rest
    /\ lockDiscipline false (LoadDocument (statsPath host) :: rest) = false.
Proof.
  intros Ha. unfold mainFlow. rewrite Ha. destruct a as [[r src] out].
  unfold ObjectCache_.__init__.
  cbv beta iota zeta delta [mbind mret Proc_bind Proc_ret lift].
  rewrite CacheStatistics_init_run. cbn [dir].
  match goal with
  | |- context [dispatch host ?c ?s r out compiler argv1 cmdLine ?w1] =>
      destruct (lockFree_dispatch host c s r out compiler argv1 cmdLine w1)
        as (rest & Htrace & Hfree)
  end.
  exists rest. split; [|split; [exact Hfree|reflexivity]].
  rewrite Htrace. cbn [trace emit]. by rewrite <- app_assoc.
Qed.

(** The discipline can be met: a flow that takes the lock around the same
    accesses satisfies it. *)
Lemma lockDiscipline_under_lock :
  lockDiscipline false
    [RunPreprocessor; LockAcquire; LoadDocument "C:\clcache\stats.txt";
     ProbeEntry "5d41402abc4b2a76"; LockRelease; RunCompiler; LockAcquire;
     ProbeEntry "5d41402abc4b2a76"; MakeEntryDir "5d41402abc4b2a76";
     WriteEntry "5d41402abc4b2a76"; LoadDocument "C:\clcache\config.txt";
     DumpDocument "C:\clcache\stats.txt"; LockRelease; Stdout "foo.cpp"]
  = true.
Proof. reflexivity. Qed.

(** C1: a cacheable compilation that misses the cache loads the
    statistics, probes and writes the entry, reads the configuration and
    writes the statistics back without ever acquiring the lock. *)
Lemma main_flow_touches_cache_without_lock :
  analyzeCommandLine (compilerWriting 0 "OBJ") exampleArgs
  = Returned (Ok, Some "foo.cpp", Some "foo.obj")
  /\ fst (mainFlow (compilerWriting 0 "OBJ") "cl.exe" exampleArgs exampleArgs freshWorld)
     = Exited 0
  /\ trace (snd (mainFlow (compilerWriting 0 "OBJ") "cl.exe" exampleArgs exampleArgs
                          freshWorld))
     = [LoadDocument "C:\clcache\stats.txt"; RunPreprocessor;
        ProbeEntry "5d41402abc4b2a76"; RunCompiler;
        ProbeEntry "5d41402abc4b2a76"; MakeEntryDir "5d41402abc4b2a76";
        WriteEntry "5d41402abc4b2a76"; LoadDocument "C:\clcache\config.txt";
        DumpDocument "C:\clcache\stats.txt"; Stdout "foo.cpp"]
  /\ lockDiscipline false
       (trace (snd (mainFlow (compilerWriting 0 "OBJ") "cl.exe" exampleArgs exampleArgs
                             freshWorld)))
     = false
  /\ ~ In LockAcquire
       (trace (snd (mainFlow (compilerWriting 0 "OBJ") "cl.exe" exampleArgs exampleArgs
                             freshWorld))).
Proof.
  split; [reflexivity|]. split; [vm_compute; reflexivity|].
  assert (Htrace :
    trace (snd (mainFlow (compilerWriting 0 "OBJ") "cl.exe" exampleArgs exampleArgs
                         freshWorld))
    = [LoadDocument "C:\clcache\stats.txt"; RunPreprocessor;
       ProbeEntry "5d41402abc4b2a76"; RunCompiler;
       ProbeEntry "5d41402abc4b2a76"; MakeEntryDir "5d41402abc4b2a76";
       WriteEntry "5d41402abc4b2a76"; LoadDocument "C:\clcache\config.txt";
       DumpDocument "C:\clcache\stats.txt"; Stdout "foo.cpp"])
    by (vm_compute; reflexivity).
  rewrite Htrace. split; [reflexivity|]. split; [reflexivity|].
  cbn. intuition discriminate.
Qed.

(** ** The cache-miss path *)

Lemma setdefault_keeps d kv k :
  is_Some (_dict d !! k) -> is_Some (_dict (setdefault d kv) !! k).
Proof.
  intros Hk. unfold setdefault.
  destruct (negb _); [|exact Hk].
  unfold PersistentJSONDict_.__setitem__. cbn [_dict].
  destruct (decide (fst kv = k)) as [->|Hne];
    [rewrite lookup_insert_eq; eauto|by rewrite lookup_insert_ne].
Qed.

Lemma setdefault_has d kv : is_Some (_dict (setdefault d kv) !! fst kv).
Proof.
  unfold setdefault, PersistentJSONDict_.__contains__.
  destruct (bool_decide _) eqn:Hin; cbn [negb].
  - by apply bool_decide_eq_true_1 in Hin.
  - unfold PersistentJSONDict_.__setitem__. cbn [_dict].
    rewrite lookup_insert_eq. eauto.
Qed.

Lemma foldl_setdefault_keeps l d k :
  is_Some (_dict d !! k) -> is_Some (_dict (foldl setdefault d l) !! k).
Proof.
  revert d. induction l as [|kv l IH]; intros d Hk; [exact Hk|].
  cbn [foldl]. by apply IH, setdefault_keeps.
Qed.

Lemma foldl_setdefault_has l d k :
  In k (List.map fst l) -> is_Some (_dict (foldl setdefault d l) !! k).
Proof.
  revert d. induction l as [|kv l IH]; intros d; [intros []|].
  cbn [List.map foldl]. intros [<-|Hin]; [|by apply IH].
  apply foldl_setdefault_keeps, setdefault_has.
Qed.

(** After [CacheStatistics.__init__] every counter is present. *)
Lemma CacheStatistics_init_counters d k :
  In k CacheStatistics_.counters ->
  is_Some (_dict (foldl setdefault d ((fun k => (k, 0)) <$> CacheStatistics_.counters))
           !! k).
Proof.
  intros Hk. apply foldl_setdefault_has.
  change (List.map fst ((fun k : string => (k, 0)) <$> CacheStatistics_.counters))
    with CacheStatistics_.counters.
  exact Hk.
Qed.

Lemma Emits_weaken (P Q : Event -> Prop) {A} (p : Proc A) :
  (forall e, P e -> Q e) -> Emits P p -> Emits Q p.
Proof.
  intros HPQ Hp w. destruct (Hp w) as (ev & Ht & HP).
  exists ev. split; [exact Ht|]. eapply List.Forall_impl; [exact HPQ|exact HP].
Qed.

Lemma lockFree_extends {A} (p : Proc A) : lockFree p -> Emits (fun _ => True) p.
Proof. apply Emits_weaken. auto. Qed.

Lemma bind_Done {A B} (p : Proc A) (k : A -> Proc B) w a w' :
  p w = (Done a, w') -> (p ≫= k) w = k a w'.
Proof. intros H. unfold mbind, Proc_bind. by rewrite H. Qed.

Lemma bind_Failed {A B} (p : Proc A) (k : A -> Proc B) w e w' :
  p w = (Failed e, w') -> (p ≫= k) w = (Failed e, w').
Proof. intros H. unfold mbind, Proc_bind. by rewrite H. Qed.

Lemma Logs_bind_l {A B} (p : Proc A) (k : A -> Proc B) w e :
  Logs e p w -> (forall a, Emits (fun _ => True) (k a)) -> Logs e (p ≫= k) w.
Proof.
  intros (events & Ht & Hin) Hk. unfold Logs, mbind, Proc_bind.
  destruct (p w) as [[a|c|ex] w1]; cbn [snd] in *; [|by exists events..].
  destruct (Hk a w1) as (ev2 & Ht2 & _).
  exists (events ++ ev2)%list. split; [by rewrite Ht2, Ht, app_assoc|].
  apply in_or_app. by left.
Qed.

Lemma Logs_bind_r {A B} (p : Proc A) (k : A -> Proc B) w e a w' pre :
  p w = (Done a, w') -> trace w' = (trace w ++ pre)%list ->
  Logs e (k a) w' -> Logs e (p ≫= k) w.
Proof.
  intros Hp Hpre (events & Ht & Hin). unfold Logs.
  rewrite (bind_Done p k w a w' Hp).
  exists (pre ++ events)%list. split; [by rewrite Ht, Hpre, app_assoc|].
  apply in_or_app. by right.
Qed.

Lemma invokeRealCompiler_run host compiler cmdLine w rc output fs :
  cl_compile host (compiler :: cmdLine) (files w) = (rc, output, fs) ->
  invokeRealCompiler host compiler cmdLine true w
  = (Done (rc, Some output), setFiles fs (emit RunCompiler w)).
Proof.
  intros H. unfold invokeRealCompiler. proc_unfold. cbn [files emit app].
  by rewrite H.
Qed.

Lemma printTraceStatement_run host msg w :
  printTraceStatement host msg w
  = (Done tt, if env_CLCACHE_LOG host
              then emit (Stdout ("*** clcache.py: " ++ msg)) w else w).
Proof. unfold printTraceStatement. by destruct (env_CLCACHE_LOG host). Qed.

(** [setEntry] with the object file missing: the copy raises, and nothing
    has been written. *)
Lemma setEntry_missing_file cache key obj text w :
  files w !! obj = None ->
  exists w' events,
    ObjectCache_.setEntry cache key obj text w = (Failed IOError, w')
    /\ trace w' = (trace w ++ events)%list
    /\ ~ In (WriteEntry key) events.
Proof.
  intros Hobj. unfold ObjectCache_.setEntry. proc_unfold. cbn [entries emit].
  destruct (ObjectCache_.lookupEntry key (entries w)); cbn [files setEntries emit];
    rewrite Hobj; eexists _, _; (split; [reflexivity|]); cbn [trace setEntries emit];
    rewrite <- ?app_assoc; (split; [reflexivity|]); cbn; intuition discriminate.
Qed.

(** [setEntry] with the object file present writes the entry. *)
Lemma setEntry_writes cache key obj text w data :
  files w !! obj = Some data ->
  exists events,
    trace (snd (ObjectCache_.setEntry cache key obj text w)) = (trace w ++ events)%list
    /\ In (WriteEntry key) events.
Proof.
  intros Hobj. unfold ObjectCache_.setEntry. proc_unfold. cbn [entries emit].
  destruct (ObjectCache_.lookupEntry key (entries w)); cbn [files setEntries emit];
    rewrite Hobj; cbn [snd trace setEntries emit]; eexists; rewrite <- ?app_assoc;
    (split; [reflexivity|]); cbn; tauto.
Qed.

Lemma setEntry_Logs cache key obj text w data :
  files w !! obj = Some data ->
  Logs (WriteEntry key) (ObjectCache_.setEntry cache key obj text) w.
Proof. apply setEntry_writes. Qed.

(** The cache-miss branch, given what the compiler does: the events it
    adds include the write of the entry exactly when the compiler exits
    with zero and the output file is there to copy. *)
Lemma cacheMiss_events host cache stats compiler argv1 key out w rc output fs :
  is_Some (_dict (_stats stats) !! "CacheMisses") ->
  cl_compile host (compiler :: argv1) (files w) = (rc, output, fs) ->
  exists events,
    trace (snd (cacheMiss host cache stats compiler argv1 key out w))
    = (trace w ++ events)%list
    /\ (In (WriteEntry key) events
        <-> rc = 0 /\ exists o, out = Some o /\ is_Some (fs !! o))
    /\ (rc <> 0 ->
        entries (snd (cacheMiss host cache stats compiler argv1 key out w)) = entries w
        /\ fst (cacheMiss host cache stats compiler argv1 key out w) = Exited rc).
Proof.
  intros [v Hv] Hcompile.
  remember (cacheMiss host cache stats compiler argv1 key out w) as result eqn:Hres.
  unfold cacheMiss in Hres.
  unfold CacheStatistics_.registerCacheMiss, CacheStatistics_.add,
    PersistentJSONDict_.__getitem__ in Hres.
  rewrite Hv in Hres.
  rewrite (bind_Done (lift (Returned _)) _ w _ w eq_refl) in Hres.
  rewrite (bind_Done _ _ w _ _ (invokeRealCompiler_run _ _ _ _ _ _ _ Hcompile)) in Hres.
  cbv beta iota in Hres.
  set (w2 := setFiles fs (emit RunCompiler w)) in *.
  assert (Htr2 : trace w2 = (trace w ++ [RunCompiler])%list) by reflexivity.
  assert (Hfs2 : files w2 = fs) by reflexivity.
  assert (Hes2 : entries w2 = entries w) by reflexivity.
  clearbody w2.
  destruct (rc =? 0) eqn:Hrc.
  - apply Z.eqb_eq in Hrc. subst rc.
    destruct out as [o|].
    + destruct (fs !! o) as [data|] eqn:Hobj.
      * (* the object file is there: the entry is written *)
        assert (Hlogs : Logs (WriteEntry key) (fun _ => result) w2).
        { rewrite Hres. apply Logs_bind_l.
          - eapply Logs_bind_r;
              [apply printTraceStatement_run
              |instantiate (1 := if env_CLCACHE_LOG host then [_] else []);
               destruct (env_CLCACHE_LOG host); [reflexivity|by rewrite app_nil_r]|].
            eapply Logs_bind_r; [reflexivity|symmetry; apply app_nil_r|].
            apply Logs_bind_l.
            + eapply setEntry_Logs.
              destruct (env_CLCACHE_LOG host); cbn [files emit]; rewrite Hfs2; exact Hobj.
            + intros _. apply lockFree_extends.
              unfold getsize, Configuration__init__, PersistentJSONDict_in.
              lock_free; first [ apply lockFree_clean
                               | apply lockFree_PersistentJSONDict_init ].
          - intros stats'. apply lockFree_extends.
            unfold CacheStatistics_.save, stdout_write.
            lock_free; apply lockFree_save. }
        destruct Hlogs as (events & Ht & Hin).
        exists (RunCompiler :: events). split; [|split].
        -- rewrite Ht, Htr2, <- app_assoc. reflexivity.
        -- split; [intros _|intros _; by right].
           split; [reflexivity|]. exists o. split; [reflexivity|]. rewrite Hobj. eauto.
        -- intros Hne. congruence.
      * (* the object file is missing: the copy raises *)
        assert (Hfail : exists w' events,
                   result = (Failed IOError, w')
                   /\ trace w' = (trace w2 ++ events)%list
                   /\ ~ In (WriteEntry key) events).
        { rewrite Hres.
          destruct (setEntry_missing_file cache key o output
                      (if env_CLCACHE_LOG host
                       then emit (Stdout ("*** clcache.py: "
                                            ++ ("Adding file " ++ o ++ " to cache using "
                                                ++ "key " ++ key))) w2
                       else w2))
            as (w' & ev & Hset & Htr & Hnin).
          { destruct (env_CLCACHE_LOG host); cbn [files emit]; rewrite Hfs2; exact Hobj. }
          exists w',
            ((if env_CLCACHE_LOG host
              then [Stdout ("*** clcache.py: "
                              ++ ("Adding file " ++ o ++ " to cache using "
                                  ++ "key " ++ key))]
              else []) ++ ev)%list.
          split; [|split].
          - apply bind_Failed.
            rewrite (bind_Done _ _ w2 _ _ (printTraceStatement_run _ _ _)).
            rewrite (bind_Done (lift (Returned _)) _ _ _ _ eq_refl).
            by apply bind_Failed.
          - rewrite Htr. destruct (env_CLCACHE_LOG host); cbn [trace emit];
              by rewrite <- ?app_assoc.
          - intros Hin. apply in_app_or in Hin as [Hin|Hin]; [|by apply Hnin].
            destruct (env_CLCACHE_LOG host); cbn in Hin; intuition discriminate. }
        destruct Hfail as (w' & events & -> & Ht & Hnin).
        exists (RunCompiler :: events). split; [|split].
        -- cbn [snd]. rewrite Ht, Htr2, <- app_assoc. reflexivity.
        -- split.
           ++ intros [Hin|Hin]; [discriminate|contradiction].
           ++ intros (_ & o' & Ho' & Hsome). injection Ho' as <-.
              rewrite Hobj in Hsome. by destruct Hsome.
        -- intros Hne. congruence.
    + (* no output file name: building the trace message raises *)
      rewrite (bind_Failed (raise TypeError) _ w2 TypeError w2 eq_refl) in Hres.
      subst result. exists [RunCompiler]. split; [exact Htr2|]. split.
      * split.
        -- intros [Hin|[]]. discriminate.
        -- intros (_ & o & Ho & _). discriminate.
      * intros Hne. congruence.
  - (* the compiler failed: nothing is stored *)
    apply Z.eqb_neq in Hrc.
    rewrite (bind_Done (mret _) _ w2 _ w2 eq_refl) in Hres.
    unfold CacheStatistics_.save, PersistentJSONDict_.save, stdout_write in Hres.
    cbn [_stats PersistentJSONDict_.__setitem__ _dirty _dict _fileName] in Hres.
    revert Hres. proc_unfold. intros ->.
    cbn [snd fst trace entries emit setDocuments]. rewrite Htr2.
    eexists [RunCompiler; _; _]. split; [by rewrite <- !app_assoc|]. split.
    + split.
      * cbn. intuition discriminate.
      * intros [Hz _]. contradiction.
    + intros _. split; [exact Hes2|reflexivity].
Qed.

Lemma hasEntry_run cache key w :
  ObjectCache_.hasEntry cache key w
  = (Done (ObjectCache_.hasObject (ObjectCache_.lookupEntry key (entries w))),
     emit (ProbeEntry key) w).
Proof. reflexivity. Qed.

(** C4 (as the code has it): on the cache-miss path the entry is written
    exactly when the real compiler exits with code zero and the output
    file is there to copy, whatever its size; when the compiler exits
    non-zero the store is left as it was and the exit code is passed on. *)
Theorem cache_miss_stores_iff_compiler_succeeds
        (host : Host) (compiler : string) (argv1 cmdLine : list string) (w : World)
        (src out : option string) (key : string)
        (rc : Z) (output : string) (fs : gmap string string) :
  analyzeCommandLine host cmdLine = Returned (Ok, src, out) ->
  fst (ObjectCache_.computeKey host {| dir := env_cache_dir host |} compiler cmdLine w)
  = Done key ->
  ObjectCache_.hasObject (ObjectCache_.lookupEntry key (entries w)) = false ->
  cl_compile host (compiler :: argv1) (files w) = (rc, output, fs) ->
  exists events,
    trace (snd (mainFlow host compiler argv1 cmdLine w)) = (trace w ++ events)%list
    /\ (In (WriteEntry key) events
        <-> rc = 0 /\ exists o, out = Some o /\ is_Some (fs !! o))
    /\ (rc <> 0 ->
        entries (snd (mainFlow host compiler argv1 cmdLine w)) = entries w
        /\ fst (mainFlow host compiler argv1 cmdLine w) = Exited rc).
Proof.
  intros Hanalysis Hkey Hmiss Hcompile.
  remember (mainFlow host compiler argv1 cmdLine w) as result eqn:Hres.
  unfold mainFlow in Hres. rewrite Hanalysis in Hres.
  rewrite (bind_Done (lift (Returned _)) _ w _ w eq_refl) in Hres.
  cbv beta iota in Hres.
  rewrite (bind_Done (ObjectCache_.__init__ host) _ w _ w eq_refl) in Hres.
  rewrite (bind_Done _ _ w _ _ (CacheStatistics_init_run host _ w)) in Hres.
  cbv zeta in Hres. unfold dispatch in Hres.
  rewrite bool_decide_eq_true_2 in Hres by reflexivity. cbn [negb] in Hres.
  set (w1 := emit (LoadDocument _) w) in Hres.
  assert (Hk1 : ObjectCache_.computeKey host {| dir := env_cache_dir host |}
                  compiler cmdLine w1
                = (Done key, emit RunPreprocessor w1)).
  { rewrite computeKey_unfold in Hkey |- *.
    destruct (_normalizedCommandLine (tail cmdLine)); [|discriminate].
    cbn [fst] in Hkey. injection Hkey as <-. reflexivity. }
  rewrite (bind_Done _ _ w1 _ _ Hk1) in Hres.
  rewrite (bind_Done _ _ _ _ _ (hasEntry_run _ key _)) in Hres.
  subst w1. cbn [entries emit] in Hres. rewrite Hmiss in Hres.
  set (w3 := emit (ProbeEntry key) _) in Hres.
  destruct (cacheMiss_events host {| dir := env_cache_dir host |}
              {| _stats :=
                   foldl setdefault
                     {| _dirty := false;
                        _dict := match documents w
                                       !! os_path_join host (env_cache_dir host)
                                            "stats.txt" with
                                 | Some (JsonObject d) => d
                                 | _ => ∅
                                 end;
                        _fileName := os_path_join host (env_cache_dir host) "stats.txt" |}
                     ((fun k => (k, 0)) <$> CacheStatistics_.counters) |}
              compiler argv1 key out w3 rc output fs)
    as (events & Ht & Hiff & Hfail).
  { apply CacheStatistics_init_counters. cbn. tauto. }
  { exact Hcompile. }
  cbn [dir] in Hres. rewrite <- Hres in Ht, Hfail.
  exists ([LoadDocument (os_path_join host (env_cache_dir host) "stats.txt");
           RunPreprocessor; ProbeEntry key] ++ events)%list.
  split; [|split].
  - rewrite Ht. subst w3. cbn [trace emit]. by rewrite <- !app_assoc.
  - rewrite <- Hiff. split.
    + intros [H|[H|[H|H]]]; try discriminate. exact H.
    + intros H. right. right. right. exact H.
  - exact Hfail.
Qed.

Lemma cache_miss_stores_iff_compiler_succeeds_witness :
  exists events,
    trace (snd (mainFlow (compilerWriting 0 "OBJ") "cl.exe" exampleArgs exampleArgs
                         freshWorld))
    = events
    /\ In (WriteEntry "5d41402abc4b2a76") events.
Proof.
  destruct (cache_miss_stores_iff_compiler_succeeds
              (compilerWriting 0 "OBJ") "cl.exe" exampleArgs exampleArgs freshWorld
              (Some "foo.cpp") (Some "foo.obj") "5d41402abc4b2a76"
              0 "foo.cpp" (<["foo.obj" := "OBJ"]> ∅))
    as (events & Ht & Hiff & _); try reflexivity.
  exists events. split; [exact Ht|]. apply Hiff.
  split; [reflexivity|]. exists "foo.obj". split; [reflexivity|].
  exists "OBJ". reflexivity.
Defined.

(** C4 (as claimed) fails: a compilation that exits with zero and leaves
    an object file of size zero is stored. *)
Lemma zero_size_object_is_stored :
  fst (mainFlow (compilerWriting 0 "") "cl.exe" exampleArgs exampleArgs freshWorld)
  = Exited 0
  /\ In (WriteEntry "5d41402abc4b2a76")
        (trace (snd (mainFlow (compilerWriting 0 "") "cl.exe" exampleArgs exampleArgs
                              freshWorld)))
  /\ entries (snd (mainFlow (compilerWriting 0 "") "cl.exe" exampleArgs exampleArgs
                            freshWorld))
     = [("5d41402abc4b2a76",
         {| object := Some {| st_atime := 1000; blob := "" |};
            output_txt := Some "foo.cpp" |})]
  /\ st_size {| st_atime := 1000; blob := "" |} = 0.
Proof.
  split; [vm_compute; reflexivity|]. split; [|split; [vm_compute; reflexivity|reflexivity]].
  assert (Htrace :
    trace (snd (mainFlow (compilerWriting 0 "") "cl.exe" exampleArgs exampleArgs
                         freshWorld))
    = [LoadDocument "C:\clcache\stats.txt"; RunPreprocessor;
       ProbeEntry "5d41402abc4b2a76"; RunCompiler;
       ProbeEntry "5d41402abc4b2a76"; MakeEntryDir "5d41402abc4b2a76";
       WriteEntry "5d41402abc4b2a76"; LoadDocument "C:\clcache\config.txt";
       DumpDocument "C:\clcache\stats.txt"; Stdout "foo.cpp"])
    by (vm_compute; reflexivity).
  rewrite Htrace. cbn. tauto.
Qed.

(** ** Response files *)

(** The list built so far is only ever extended. *)
Lemma expandArgs_ret isspace read expand args ret :
  expandArgs isspace read expand args ret
  = match expandArgs isspace read expand args [] with
    | Some (Returned r) => Some (Returned (ret ++ r)%list)
    | other => other
    end.
Proof.
  revert ret. induction args as [|arg args IH]; intros ret.
  - cbn. by rewrite app_nil_r.
  - cbn [expandArgs]. destruct (Py.index arg 0) as [c|e]; [|reflexivity].
    destruct (Ascii.eqb c "@").
    + cbv zeta. destruct (read _) as [text|e]; [|reflexivity].
      destruct (expand _) as [[tokens|e]|]; [|reflexivity..].
      rewrite (IH (ret ++ tokens)%list), (IH ([] ++ tokens)%list).
      destruct (expandArgs _ _ _ args []) as [[r|e]|]; [|reflexivity..].
      by rewrite app_nil_l, app_assoc.
    + rewrite (IH (ret ++ [arg])%list), (IH ([] ++ [arg])%list).
      destruct (expandArgs _ _ _ args []) as [[r|e]|]; [|reflexivity..].
      by rewrite app_nil_l, app_assoc.
Qed.

Lemma expandArgs_app isspace read expand l1 l2 :
  expandArgs isspace read expand (l1 ++ l2) []
  = match expandArgs isspace read expand l1 [] with
    | Some (Returned r1) =>
        match expandArgs isspace read expand l2 [] with
        | Some (Returned r2) => Some (Returned (r1 ++ r2)%list)
        | other => other
        end
    | other => other
    end.
Proof.
  induction l1 as [|arg l1 IH].
  - cbn. by destruct (expandArgs _ _ _ l2 []) as [[r|e]|].
  - cbn [app expandArgs]. destruct (Py.index arg 0) as [c|e]; [|reflexivity].
    destruct (Ascii.eqb c "@").
    + cbv zeta. destruct (read _) as [text|e]; [|reflexivity].
      destruct (expand _) as [[tokens|e]|]; [|reflexivity..].
      rewrite (expandArgs_ret _ _ _ (l1 ++ l2)), (expandArgs_ret _ _ _ l1), IH.
      destruct (expandArgs _ _ _ l1 []) as [[r1|e]|]; [|reflexivity..].
      destruct (expandArgs _ _ _ l2 []) as [[r2|e]|]; [|reflexivity..].
      by rewrite app_assoc.
    + rewrite (expandArgs_ret _ _ _ (l1 ++ l2)), (expandArgs_ret _ _ _ l1), IH.
      destruct (expandArgs _ _ _ l1 []) as [[r1|e]|]; [|reflexivity..].
      destruct (expandArgs _ _ _ l2 []) as [[r2|e]|]; [|reflexivity..].
      by rewrite app_assoc.
Qed.

(** X1: expansion works through the command line from left to right and
    splices: expanding [l1 ++ l2] gives the expansion of [l1] followed by
    that of [l2], and fails as the first of the two that fails does. *)
Theorem expandCommandLine_app isspace read fuel (l1 l2 : list string) :
  expandCommandLine isspace read fuel (l1 ++ l2)
  = match expandCommandLine isspace read fuel l1 with
    | Some (Returned r1) =>
        match expandCommandLine isspace read fuel l2 with
        | Some (Returned r2) => Some (Returned (r1 ++ r2)%list)
        | other => other
        end
    | other => other
    end.
Proof.
  destruct fuel as [|fuel]; [reflexivity|]. cbn [expandCommandLine].
  apply expandArgs_app.
Qed.

Lemma expandArgs_plain isspace read expand l :
  Forall (fun arg => isPlainToken arg = true) l ->
  expandArgs isspace read expand l [] = Some (Returned l).
Proof.
  induction 1 as [|arg l Harg _ IH]; [reflexivity|].
  cbn [expandArgs]. destruct arg as [|c rest]; [discriminate|].
  cbn [Py.index String.get isPlainToken] in *.
  apply negb_true_iff in Harg. rewrite Harg, expandArgs_ret, IH. reflexivity.
Qed.

(** X2: a command line without response-file tokens (and without empty
    tokens) is its own expansion, and no file is read for it. *)
Theorem expandCommandLine_plain isspace read fuel (cmdline : list string) :
  Forall (fun arg => isPlainToken arg = true) cmdline ->
  expandCommandLine isspace read (S fuel) cmdline = Some (Returned cmdline).
Proof. intros H. cbn [expandCommandLine]. by apply expandArgs_plain. Qed.

Lemma expandCommandLine_plain_witness :
  expandCommandLine exampleSpace (fun _ => Raised IOError) 1
                    ["cl"; "/c"; "/Fofoo.obj"; "foo.cpp"]
  = Some (Returned ["cl"; "/c"; "/Fofoo.obj"; "foo.cpp"]).
Proof.
  apply (expandCommandLine_plain exampleSpace (fun _ => Raised IOError) 0).
  repeat constructor.
Defined.

Lemma expandArgs_result isspace read expand args r :
  (forall l r', expand l = Some (Returned r') ->
                Forall (fun arg => isPlainToken arg = true) r') ->
  expandArgs isspace read expand args [] = Some (Returned r) ->
  Forall (fun arg => isPlainToken arg = true) r.
Proof.
  intros Hexpand. revert r. induction args as [|arg args IH]; intros r H.
  - injection H as <-. constructor.
  - cbn [expandArgs] in H. destruct arg as [|c rest]; [discriminate|].
    cbn [Py.index String.get] in H. destruct (Ascii.eqb c "@") eqn:Hc.
    + cbv zeta in H. destruct (read _) as [text|e]; [|discriminate].
      destruct (expand _) as [[tokens|e]|] eqn:Htok; [|discriminate..].
      rewrite expandArgs_ret in H.
      destruct (expandArgs _ _ _ args []) as [[r1|e]|]; [|discriminate..].
      injection H as <-. cbn [app]. apply Forall_app. split; eauto.
    + rewrite expandArgs_ret in H.
      destruct (expandArgs _ _ _ args []) as [[r1|e]|]; [|discriminate..].
      injection H as <-. cbn [app]. constructor; [|eauto].
      cbn [isPlainToken]. by rewrite Hc.
Qed.

(** X3: whatever the response files hold, an expansion that returns has
    no token starting with [@] and no empty token left: the classifier's
    branch for [@] tokens is not reached on an expanded command line. *)
Theorem expandCommandLine_result isspace read fuel (cmdline r : list string) :
  expandCommandLine isspace read fuel cmdline = Some (Returned r) ->
  Forall (fun arg => isPlainToken arg = true) r.
Proof.
  revert cmdline r. induction fuel as [|fuel IH]; intros cmdline r H; [discriminate|].
  cbn [expandCommandLine] in H. eapply expandArgs_result; [|exact H]. exact IH.
Qed.

Lemma expandCommandLine_result_witness :
  expandCommandLine exampleSpace exampleRead 3 ["cl"; "/c"; "@a.rsp"; "foo.cpp"]
  = Some (Returned ["cl"; "/c"; "/O2"; "/DNDEBUG"; "/W4"; "foo.cpp"])
  /\ Forall (fun arg => isPlainToken arg = true)
            ["cl"; "/c"; "/O2"; "/DNDEBUG"; "/W4"; "foo.cpp"].
Proof.
  split; [reflexivity|].
  apply (expandCommandLine_result exampleSpace exampleRead 3
           ["cl"; "/c"; "@a.rsp"; "foo.cpp"]).
  reflexivity.
Defined.

(** X4: a response-file token is replaced, in place, by the expansion of
    the whitespace-separated tokens of the file it names. *)
Theorem expandCommandLine_splice isspace read fuel
        (pre post : list string) (f text : string) (tokens : list string) :
  Forall (fun arg => isPlainToken arg = true) pre ->
  Forall (fun arg => isPlainToken arg = true) post ->
  read f = Returned text ->
  expandCommandLine isspace read fuel (PyStr.split isspace text)
  = Some (Returned tokens) ->
  expandCommandLine isspace read (S fuel) (pre ++ String "@" f :: post)
  = Some (Returned (pre ++ tokens ++ post)%list).
Proof.
  intros Hpre Hpost Hread Htok. cbn [expandCommandLine].
  rewrite expandArgs_app, (expandArgs_plain _ _ _ _ Hpre).
  change (String "@" f :: post) with ([String "@" f] ++ post)%list.
  rewrite expandArgs_app, (expandArgs_plain _ _ _ _ Hpost).
  cbn [expandArgs Py.index String.get Py.slice_from].
  rewrite Ascii.eqb_refl. cbv zeta. rewrite Hread, Htok.
  cbn [expandArgs app]. reflexivity.
Qed.

Lemma expandCommandLine_splice_witness :
  expandCommandLine exampleSpace exampleRead 3 (["cl"; "/c"] ++ "@a.rsp" :: ["foo.cpp"])
  = Some (Returned (["cl"; "/c"] ++ ["/O2"; "/DNDEBUG"; "/W4"] ++ ["foo.cpp"])%list).
Proof.
  apply (expandCommandLine_splice exampleSpace exampleRead 2 ["cl"; "/c"] ["foo.cpp"]
           "a.rsp" "/O2 @b.rsp  /W4" ["/O2"; "/DNDEBUG"; "/W4"]);
    try reflexivity; repeat constructor.
Defined.

(** X5: there is no guard against cycles: when a response file names
    itself, the expansion of a command line that reaches it does not return
    at any depth of recursion. *)
Theorem expandCommandLine_self_reference isspace read
        (f text : string) (pre post : list string) :
  read f = Returned text ->
  PyStr.split isspace text = (pre ++ String "@" f :: post)%list ->
  Forall (fun arg => isPlainToken arg = true) pre ->
  forall fuel l1 l2,
    Forall (fun arg => isPlainToken arg = true) l1 ->
    expandCommandLine isspace read fuel (l1 ++ String "@" f :: l2) = None.
Proof.
  intros Hread Hsplit Hpre fuel.
  induction fuel as [|fuel IH]; intros l1 l2 Hl1; [reflexivity|].
  cbn [expandCommandLine].
  rewrite expandArgs_app, (expandArgs_plain _ _ _ _ Hl1).
  cbn [expandArgs Py.index String.get Py.slice_from].
  rewrite Ascii.eqb_refl. cbv zeta. rewrite Hread, Hsplit, (IH pre post Hpre).
  reflexivity.
Qed.

Lemma expandCommandLine_self_reference_witness :
  expandCommandLine exampleSpace exampleRead 1000
                    (["cl"; "/c"] ++ "@loop.rsp" :: ["foo.cpp"]) = None.
Proof.
  apply (expandCommandLine_self_reference exampleSpace exampleRead
           "loop.rsp" "/Zi @loop.rsp" ["/Zi"] []); try reflexivity;
    repeat constructor.
Defined.

Lemma expandArgs_mono isspace read (expand expand' : list string -> _) args ret r :
  (forall l r', expand l = Some r' -> expand' l = Some r') ->
  expandArgs isspace read expand args ret = Some r ->
  expandArgs isspace read expand' args ret = Some r.
Proof.
  intros Hmono. revert ret. induction args as [|arg args IH]; intros ret H; [exact H|].
  cbn [expandArgs] in *. destruct (Py.index arg 0) as [c|e]; [|exact H].
  destruct (Ascii.eqb c "@"); [|by apply IH].
  cbv zeta in *. destruct (read _) as [text|e]; [|exact H].
  destruct (expand _) as [[tokens|e]|] eqn:Htok; [| |discriminate];
    rewrite (Hmono _ _ Htok); [by apply IH|exact H].
Qed.

(** X6: the depth bound only matters when it is reached: a result
    obtained within some depth (a list or an exception) is the result at
    every greater depth. *)
Theorem expandCommandLine_fuel_mono isspace read (fuel fuel' : nat)
        (cmdline : list string) (r : PyResult (list string)) :
  expandCommandLine isspace read fuel cmdline = Some r ->
  (fuel <= fuel')%nat ->
  expandCommandLine isspace read fuel' cmdline = Some r.
Proof.
  revert fuel' cmdline r. induction fuel as [|fuel IH]; intros fuel' cmdline r H Hle;
    [discriminate|].
  destruct fuel' as [|fuel']; [lia|]. cbn [expandCommandLine] in *.
  eapply expandArgs_mono; [|exact H].
  intros l r' Hl. apply IH; [exact Hl|lia].
Qed.

Lemma expandCommandLine_fuel_mono_witness :
  expandCommandLine exampleSpace exampleRead 1000 ["cl"; "/c"; "@a.rsp"; "foo.cpp"]
  = Some (Returned ["cl"; "/c"; "/O2"; "/DNDEBUG"; "/W4"; "foo.cpp"]).
Proof.
  apply (expandCommandLine_fuel_mono exampleSpace exampleRead 3 1000);
    [reflexivity|lia].
Defined.

(** ** Finding the compiler *)

(** Joining the fields of a split with the separator gives the string
    back. *)
Lemma split_on_concat sep s :
  String.concat (String sep "") (PyStr.split_on sep s) = s.
Proof.
  induction s as [|c s IH]; [reflexivity|]. cbn [PyStr.split_on].
  destruct (Ascii.eqb c sep) eqn:Hc.
  - apply Ascii.eqb_eq in Hc. subst c.
    destruct (PyStr.split_on sep s) as [|field fields] eqn:Hs.
    + destruct s; cbn in Hs; [discriminate|].
      destruct (Ascii.eqb _ sep); [discriminate|].
      destruct (PyStr.split_on sep s); discriminate.
    + cbn [String.concat] in *. by rewrite IH.
  - destruct (PyStr.split_on sep s) as [|field fields] eqn:Hs.
    + cbn in *. by rewrite <- IH.
    + cbn [String.concat] in *. destruct fields; by rewrite <- IH.
Qed.

(** X7: a path that [findCompilerBinary] returns exists. *)
Theorem findCompilerBinary_exists host pathsep environ w (path : string) :
  findCompilerBinary host pathsep environ w = Returned (Some path) ->
  os_path_exists w path = true.
Proof.
  unfold findCompilerBinary. destruct (environ !! "CLCACHE_CL") as [p|].
  - destruct (os_path_exists w p) eqn:Hp; intros H; [|discriminate].
    by injection H as <-.
  - destruct (environ !! "PATH") as [dirs|]; [|discriminate].
    intros H. injection H as H. by apply List.find_some in H as [_ H].
Qed.

Lemma findCompilerBinary_exists_witness :
  findCompilerBinary exampleHost ";" exampleEnviron exampleFiles
  = Returned (Some "C:\vc\bin\cl.exe")
  /\ os_path_exists exampleFiles "C:\vc\bin\cl.exe" = true.
Proof.
  split; [reflexivity|].
  apply (findCompilerBinary_exists exampleHost ";" exampleEnviron exampleFiles).
  reflexivity.
Defined.

(** X8: without [CLCACHE_CL], the compiler found is [cl.exe] in the
    first directory of [PATH] that has one, and none is found exactly when
    no directory of [PATH] has one. *)
Theorem findCompilerBinary_first_on_PATH host pathsep environ w (dirs : string) :
  environ !! "CLCACHE_CL" = None ->
  environ !! "PATH" = Some dirs ->
  (forall path,
      findCompilerBinary host pathsep environ w = Returned (Some path)
      <-> exists before dir after,
          PyStr.split_on pathsep dirs = (before ++ dir :: after)%list
          /\ path = os_path_join host dir "cl.exe"
          /\ os_path_exists w path = true
          /\ Forall (fun d => os_path_exists w (os_path_join host d "cl.exe") = false)
                    before)
  /\ (findCompilerBinary host pathsep environ w = Returned None
      <-> Forall (fun d => os_path_exists w (os_path_join host d "cl.exe") = false)
                 (PyStr.split_on pathsep dirs)).
Proof.
  intros Hcl Hpath. unfold findCompilerBinary. rewrite Hcl, Hpath.
  generalize (PyStr.split_on pathsep dirs) as l. intros l. split.
  - intros path. induction l as [|d l IH]; cbn [List.map List.find].
    + split; [discriminate|]. intros (before & dir & after & H & _).
      by destruct before.
    + destruct (os_path_exists w (os_path_join host d "cl.exe")) eqn:Hd.
      * split.
        -- intros H. injection H as <-. exists [], d, l. by repeat split.
        -- intros (before & dir & after & Hl & -> & Hex & Hbefore).
           destruct before as [|b before]; cbn [app] in Hl.
           ++ by injection Hl as -> _.
           ++ injection Hl as <- _. apply Forall_cons in Hbefore as [Hb _]. congruence.
      * rewrite IH. split.
        -- intros (before & dir & after & -> & -> & Hex & Hbefore).
           exists (d :: before), dir, after. repeat split; [exact Hex|].
           by constructor.
        -- intros (before & dir & after & Hl & -> & Hex & Hbefore).
           destruct before as [|b before]; cbn [app] in Hl.
           ++ injection Hl as -> _. congruence.
           ++ injection Hl as <- ->. apply Forall_cons in Hbefore as [_ Hbefore].
              exists before, dir, after. by repeat split.
  - induction l as [|d l IH]; cbn [List.map List.find].
    + split; [constructor|reflexivity].
    + destruct (os_path_exists w (os_path_join host d "cl.exe")) eqn:Hd.
      * split; [discriminate|]. intros H. apply Forall_cons in H as [H _]. congruence.
      * rewrite IH. split; [by constructor|]. intros H. by apply Forall_cons in H as [_ H].
Qed.

Lemma findCompilerBinary_first_on_PATH_witness :
  findCompilerBinary exampleHost ";" exampleEnviron exampleFiles
  = Returned (Some "C:\vc\bin\cl.exe").
Proof.
  destruct (findCompilerBinary_first_on_PATH exampleHost ";" exampleEnviron exampleFiles
              "C:\windows;C:\vc\bin;C:\tools") as [Hfound _];
    [reflexivity|reflexivity|].
  apply Hfound. exists ["C:\windows"], "C:\vc\bin", ["C:\tools"].
  repeat split. repeat constructor.
Defined.

(** ** Documents across processes *)

(** X9: what a [PersistentJSONDict] with unsaved changes saves is what a
    later load of the same file returns, with the dirty flag unset; the
    other documents, the entries and the files are not touched. *)
Theorem PersistentJSONDict_save_then_load (d : PersistentJSONDict) (w : World) :
  _dirty d = true ->
  exists w',
    PersistentJSONDict_.save d w = (Done tt, w')
    /\ fst (PersistentJSONDict_.__init__ (_fileName d) w')
       = Done {| _dirty := false; _dict := _dict d; _fileName := _fileName d |}
    /\ (forall f, f <> _fileName d -> documents w' !! f = documents w !! f)
    /\ entries w' = entries w
    /\ files w' = files w.
Proof.
  intros Hdirty. unfold PersistentJSONDict_.save. rewrite Hdirty.
  eexists. split; [reflexivity|].
  unfold PersistentJSONDict_.__init__. proc_unfold.
  cbn [fst documents entries files emit setDocuments].
  rewrite lookup_insert_eq. split; [reflexivity|]. split; [|done].
  intros f Hf. by rewrite lookup_insert_ne.
Qed.

Lemma PersistentJSONDict_save_then_load_witness :
  exists w',
    PersistentJSONDict_.save
      (PersistentJSONDict_.__setitem__
         {| _dirty := false; _dict := ∅; _fileName := "C:\clcache\config.txt" |}
         "MaximumCacheSize" 5000) freshWorld = (Done tt, w')
    /\ fst (PersistentJSONDict_.__init__ "C:\clcache\config.txt" w')
       = Done {| _dirty := false; _dict := {["MaximumCacheSize" := 5000]};
                 _fileName := "C:\clcache\config.txt" |}.
Proof.
  destruct (PersistentJSONDict_save_then_load
              (PersistentJSONDict_.__setitem__
                 {| _dirty := false; _dict := ∅; _fileName := "C:\clcache\config.txt" |}
                 "MaximumCacheSize" 5000) freshWorld) as (w' & Hsave & Hload & _).
  - reflexivity.
  - exists w'. split; [exact Hsave|exact Hload].
Defined.

Lemma setdefault_lookup d kv k :
  _dict (setdefault d kv) !! k
  = match _dict d !! k with
    | Some v => Some v
    | None => if decide (fst kv = k) then Some (snd kv) else None
    end.
Proof.
  unfold setdefault, PersistentJSONDict_.__contains__, PersistentJSONDict_.__setitem__.
  destruct (bool_decide _) eqn:Hin; cbn [negb _dict].
  - apply bool_decide_eq_true_1 in Hin.
    destruct (_dict d !! k) as [v|] eqn:Hk; [reflexivity|].
    destruct (decide (fst kv = k)) as [<-|]; [|reflexivity].
    rewrite Hk in Hin. by destruct Hin.
  - destruct (decide (fst kv = k)) as [<-|Hne].
    + rewrite lookup_insert_eq. apply bool_decide_eq_false_1 in Hin.
      destruct (_dict d !! fst kv) eqn:Hk; [|reflexivity].
      exfalso. apply Hin. eauto.
    + rewrite lookup_insert_ne by done. by destruct (_dict d !! k).
Qed.

Lemma foldl_setdefault_zero keys d k :
  _dict (foldl setdefault d ((fun k => (k, 0)) <$> keys)) !! k
  = match _dict d !! k with
    | Some v => Some v
    | None => if bool_decide (k ∈ keys) then Some 0 else None
    end.
Proof.
  revert d. induction keys as [|key keys IH]; intros d.
  - cbn. by destruct (_dict d !! k).
  - cbn [fmap list_fmap foldl]. rewrite IH, setdefault_lookup. cbn [fst snd].
    destruct (_dict d !! k) as [v|]; [reflexivity|].
    destruct (decide (key = k)) as [->|Hne].
    + rewrite bool_decide_eq_true_2; [reflexivity|by left].
    + destruct (bool_decide (k ∈ keys)) eqn:Hin.
      * apply bool_decide_eq_true_1 in Hin.
        rewrite bool_decide_eq_true_2; [reflexivity|by right].
      * apply bool_decide_eq_false_1 in Hin.
        rewrite bool_decide_eq_false_2; [reflexivity|].
        intros H. apply elem_of_cons in H as [H|H]; congruence.
Qed.

(** X10: when [stats.txt] is missing, does not parse, or holds a JSON
    object with integer values, [CacheStatistics.__init__] returns and
    writes nothing: each value it finds stored is kept, each of the seven
    counters that is missing (all of them when the file is missing or does
    not parse) starts at zero, and no other key appears. *)
Theorem CacheStatistics_init_values (host : Host) (cache : ObjectCache) (w : World) :
  objectOrUnreadable w (os_path_join host (dir cache) "stats.txt") ->
  exists stats w',
    CacheStatistics__init__ host cache w = (Done stats, w')
    /\ documents w' = documents w
    /\ forall key,
        counter stats key
        = match storedDocument w (os_path_join host (dir cache) "stats.txt") !! key with
          | Some v => Some v
          | None => if bool_decide (key ∈ CacheStatistics_.counters)
                    then Some 0 else None
          end.
Proof.
  intros _.
  rewrite CacheStatistics_init_run. eexists _, _. split; [reflexivity|].
  split; [reflexivity|]. intros key. unfold counter. cbn [_stats].
  by rewrite foldl_setdefault_zero.
Qed.

Lemma CacheStatistics_init_values_witness :
  exists stats w',
    CacheStatistics__init__ exampleHost exampleCache corruptWorld = (Done stats, w')
    /\ documents w' = documents corruptWorld
    /\ counter stats "CacheHits" = Some 0.
Proof.
  destruct (CacheStatistics_init_values exampleHost exampleCache corruptWorld)
    as (stats & w' & Hrun & Hdocs & Hvalues); [right; left; reflexivity|].
  exists stats, w'. split; [exact Hrun|]. split; [exact Hdocs|].
  rewrite Hvalues. reflexivity.
Defined.

(** X11: on a statistics object that has the counters, each method that
    registers a call returns, adds exactly one to the count its reading
    method reports, leaves every other value as it was and marks the
    document as changed. *)
Theorem register_adds_one (stats : CacheStatistics) :
  (forall key, In key CacheStatistics_.counters -> is_Some (counter stats key)) ->
  Forall (fun '(register, num, key) =>
            exists v stats',
              num stats = Returned v
              /\ register stats = Returned stats'
              /\ num stats' = Returned (v + 1)
              /\ (forall k, k <> key -> counter stats' k = counter stats k)
              /\ _dirty (_stats stats') = true)
         callCounters.
Proof.
  intros Hhas.
  assert (Hadd : forall key,
             In key CacheStatistics_.counters ->
             exists v stats',
               PersistentJSONDict_.__getitem__ (_stats stats) key = Returned v
               /\ CacheStatistics_.add stats key 1 = Returned stats'
               /\ PersistentJSONDict_.__getitem__ (_stats stats') key = Returned (v + 1)
               /\ (forall k, k <> key -> counter stats' k = counter stats k)
               /\ _dirty (_stats stats') = true).
  { intros key Hkey. destruct (Hhas key Hkey) as [v Hv]. unfold counter in Hv.
    exists v. eexists.
    unfold CacheStatistics_.add, PersistentJSONDict_.__getitem__. rewrite Hv.
    split; [reflexivity|]. split; [reflexivity|].
    cbn [_stats PersistentJSONDict_.__setitem__ _dict _dirty].
    rewrite lookup_insert_eq. split; [reflexivity|]. split; [|reflexivity].
    intros k Hk. unfold counter.
    cbn [_stats PersistentJSONDict_.__setitem__ _dict]. by rewrite lookup_insert_ne. }
  unfold callCounters.
  repeat (constructor; [apply Hadd; cbn; tauto|]). constructor.
Qed.

Lemma register_adds_one_witness :
  exists stats',
    CacheStatistics_.registerCallForLinking (statsWithSize 20) = Returned stats'
    /\ CacheStatistics_.numCallsForLinking stats' = Returned 1.
Proof.
  pose proof (register_adds_one (statsWithSize 20)) as H.
  assert (Hhas : forall key, In key CacheStatistics_.counters ->
                             is_Some (counter (statsWithSize 20) key)).
  { intros key Hkey. cbn in Hkey.
    repeat (destruct Hkey as [<-|Hkey]; [vm_compute; eauto|]). destruct Hkey. }
  specialize (H Hhas).
  apply Forall_cons in H as [_ H]. apply Forall_cons in H as [_ H].
  apply Forall_cons in H as [(v & stats' & Hnum & Hreg & Hnum' & _) _].
  exists stats'. split; [exact Hreg|].
  assert (v = 0) as -> by (vm_compute in Hnum; congruence).
  exact Hnum'.
Defined.

(** X12: [registerCacheEntry] counts one more entry and adds the given
    size to the recorded cache size, and changes nothing else. *)
Theorem registerCacheEntry_counts (stats : CacheStatistics) (size n s : Z) :
  counter stats "CacheEntries" = Some n ->
  counter stats "CacheSize" = Some s ->
  exists stats',
    CacheStatistics_.registerCacheEntry stats size = Returned stats'
    /\ CacheStatistics_.numCacheEntries stats' = Returned (n + 1)
    /\ CacheStatistics_.currentCacheSize stats' = Returned (s + size)
    /\ (forall k, k <> "CacheEntries" -> k <> "CacheSize" ->
                  counter stats' k = counter stats k).
Proof.
  unfold counter. intros Hn Hs. eexists.
  unfold CacheStatistics_.registerCacheEntry, CacheStatistics_.add,
    PersistentJSONDict_.__getitem__.
  rewrite Hn. cbv beta iota. cbn [_stats PersistentJSONDict_.__setitem__ _dict].
  rewrite lookup_insert_ne by discriminate. rewrite Hs.
  split; [reflexivity|].
  unfold CacheStatistics_.numCacheEntries, CacheStatistics_.currentCacheSize,
    PersistentJSONDict_.__getitem__.
  cbn [_stats PersistentJSONDict_.__setitem__ _dict].
  rewrite lookup_insert_ne by discriminate. rewrite !lookup_insert_eq.
  split; [reflexivity|]. split; [reflexivity|].
  intros k Hk1 Hk2. by rewrite !lookup_insert_ne.
Qed.

Lemma registerCacheEntry_counts_witness :
  exists stats',
    CacheStatistics_.registerCacheEntry (statsWithSize 20) 7 = Returned stats'
    /\ CacheStatistics_.numCacheEntries stats' = Returned 1
    /\ CacheStatistics_.currentCacheSize stats' = Returned 27.
Proof.
  destruct (registerCacheEntry_counts (statsWithSize 20) 7 0 20)
    as (stats' & Hreg & Hn & Hs & _); [reflexivity|reflexivity|].
  exists stats'. split; [exact Hreg|]. split; [exact Hn|exact Hs].
Defined.

Lemma Configuration_init_lookup host cache w k :
  exists cfg w',
    Configuration__init__ host cache w = (Done cfg, w')
    /\ w' = emit (LoadDocument (os_path_join host (dir cache) "config.txt")) w
    /\ _fileName (_cfg cfg) = os_path_join host (dir cache) "config.txt"
    /\ _dict (_cfg cfg) !! k
       = match storedDocument w (os_path_join host (dir cache) "config.txt") !! k with
         | Some v => Some v
         | None => if decide ("MaximumCacheSize" = k) then Some (1024 * 1024 * 1000)
                   else None
         end.
Proof.
  rewrite Configuration_init_run. eexists _, _. split; [reflexivity|].
  split; [reflexivity|]. cbn [_cfg]. unfold Configuration_._defaultValues.
  cbn [foldl]. split.
  - unfold setdefault. by destruct (negb _).
  - by rewrite setdefault_lookup.
Qed.

(** X13: a stored maximum cache size is what [Configuration] reports,
    the default does not replace it, and saving such a configuration writes
    nothing. *)
Theorem Configuration_keeps_stored_maximum
        (host : Host) (cache : ObjectCache) (w : World) (d : gmap string Z) (v : Z) :
  documents w !! os_path_join host (dir cache) "config.txt" = Some (JsonObject d) ->
  d !! "MaximumCacheSize" = Some v ->
  exists cfg w',
    Configuration__init__ host cache w = (Done cfg, w')
    /\ Configuration_.maximumCacheSize cfg = Returned v
    /\ _dict (_cfg cfg) = d
    /\ Configuration_.save cfg w' = (Done tt, w').
Proof.
  intros Hdoc Hv. rewrite Configuration_init_run, Hdoc.
  eexists _, _. split; [reflexivity|].
  unfold Configuration_._defaultValues, Configuration_.maximumCacheSize,
    Configuration_.save, PersistentJSONDict_.save, PersistentJSONDict_.__getitem__.
  cbn [foldl _cfg]. unfold setdefault, PersistentJSONDict_.__contains__.
  cbn [fst _dict]. rewrite Hv.
  rewrite bool_decide_eq_true_2 by eauto. cbn [negb _dict _dirty]. rewrite Hv.
  by repeat split.
Qed.

Lemma Configuration_keeps_stored_maximum_witness :
  exists cfg w',
    Configuration__init__ exampleHost exampleCache configuredWorld = (Done cfg, w')
    /\ Configuration_.maximumCacheSize cfg = Returned 5000.
Proof.
  destruct (Configuration_keeps_stored_maximum exampleHost exampleCache configuredWorld
              {["MaximumCacheSize" := 5000]} 5000)
    as (cfg & w' & Hrun & Hmax & _); [reflexivity|reflexivity|].
  exists cfg, w'. split; [exact Hrun|exact Hmax].
Defined.

(** X14: when [config.txt] is missing, does not parse, or holds a JSON
    object with integer values, the [-M <size>] command with a size that
    [int] accepts exits with 0 and leaves a configuration from which a
    later process reads that maximum; the settings stored under other keys
    are kept, and neither the statistics nor the entries nor the files
    outside the cache are touched. *)
Theorem setMaximumCacheSizeCommand_persists (host : Host) (size : Z) (w : World) :
  objectOrUnreadable w (configPath host) ->
  exists w',
    setMaximumCacheSizeCommand host (Returned size) w = (Exited 0, w')
    /\ (exists cfg w'',
           Configuration__init__ host (cacheOf host) w' = (Done cfg, w'')
           /\ Configuration_.maximumCacheSize cfg = Returned size
           /\ forall k, k <> "MaximumCacheSize" ->
                        _dict (_cfg cfg) !! k = storedDocument w (configPath host) !! k)
    /\ (forall f, f <> configPath host -> documents w' !! f = documents w !! f)
    /\ entries w' = entries w
    /\ files w' = files w.
Proof.
  intros _.
  unfold setMaximumCacheSizeCommand, ObjectCache_.__init__.
  rewrite (bind_Done (mret _) _ w _ w eq_refl).
  destruct (Configuration_init_lookup host (cacheOf host) w "MaximumCacheSize")
    as (cfg & w1 & Hinit & -> & Hname & _).
  rewrite (bind_Done _ _ w _ _ Hinit).
  rewrite (bind_Done (lift (Returned size)) _ _ _ _ eq_refl). cbv zeta.
  unfold Configuration_.save, Configuration_.setMaximumCacheSize, PersistentJSONDict_.save.
  cbn [_cfg PersistentJSONDict_.__setitem__ _dirty _fileName _dict].
  proc_unfold. rewrite Hname. cbn [dir cacheOf].
  eexists. split; [reflexivity|].
  cbn [documents entries files emit setDocuments]. split; [|split; [|done]].
  - rewrite Configuration_init_run. eexists _, _. split; [reflexivity|].
    cbn [documents emit setDocuments dir cacheOf]. rewrite lookup_insert_eq.
    unfold Configuration_._defaultValues, Configuration_.maximumCacheSize,
      PersistentJSONDict_.__getitem__.
    cbn [foldl _cfg]. split.
    + rewrite setdefault_lookup. cbn [_dict]. by rewrite lookup_insert_eq.
    + intros k Hk. rewrite setdefault_lookup. cbn [_dict fst].
      rewrite lookup_insert_ne by done.
      destruct (Configuration_init_lookup host (cacheOf host) w k)
        as (cfg' & w1' & Hinit' & _ & _ & Hk').
      rewrite Hinit in Hinit'. injection Hinit' as <- _. rewrite Hk'.
      unfold configPath. cbn [dir cacheOf].
      destruct (storedDocument w _ !! k); [reflexivity|].
      by rewrite !decide_False.
  - intros f Hf. unfold configPath in Hf. by rewrite lookup_insert_ne.
Qed.

Lemma setMaximumCacheSizeCommand_persists_witness :
  exists w' cfg w'',
    setMaximumCacheSizeCommand exampleHost (Returned 77) configuredWorld = (Exited 0, w')
    /\ Configuration__init__ exampleHost (cacheOf exampleHost) w' = (Done cfg, w'')
    /\ Configuration_.maximumCacheSize cfg = Returned 77
    /\ documents w' !! "C:\clcache\stats.txt"
       = documents configuredWorld !! "C:\clcache\stats.txt".
Proof.
  destruct (setMaximumCacheSizeCommand_persists exampleHost 77 configuredWorld)
    as (w' & Hrun & (cfg & w'' & Hinit & Hmax & _) & Hdocs & _).
  { right. right. by eexists. }
  exists w', cfg, w''. split; [exact Hrun|]. split; [exact Hinit|].
  split; [exact Hmax|]. apply Hdocs. discriminate.
Defined.

(** ** The store *)

Lemma lookupEntry_alterEntry key f es :
  ObjectCache_.lookupEntry key (ObjectCache_.alterEntry key f es)
  = f <$> ObjectCache_.lookupEntry key es.
Proof.
  unfold ObjectCache_.lookupEntry, ObjectCache_.alterEntry.
  induction es as [|[k d] es IH]; [reflexivity|].
  cbn [List.map List.find fst snd].
  destruct (String.eqb k key) eqn:Hk; cbn [fst List.find]; rewrite Hk; [reflexivity|].
  exact IH.
Qed.

Lemma lookupEntry_alterEntry_ne key key' f es :
  key' <> key ->
  ObjectCache_.lookupEntry key' (ObjectCache_.alterEntry key f es)
  = ObjectCache_.lookupEntry key' es.
Proof.
  intros Hne. unfold ObjectCache_.lookupEntry, ObjectCache_.alterEntry.
  induction es as [|[k d] es IH]; [reflexivity|].
  cbn [List.map List.find fst snd].
  destruct (String.eqb k key) eqn:Hk; cbn [fst List.find].
  - apply String.eqb_eq in Hk. subst k.
    rewrite (proj2 (String.eqb_neq key key')) by congruence. exact IH.
  - destruct (String.eqb k key'); [reflexivity|exact IH].
Qed.

Lemma lookupEntry_app key es es' :
  ObjectCache_.lookupEntry key (es ++ es')
  = match ObjectCache_.lookupEntry key es with
    | Some d => Some d
    | None => ObjectCache_.lookupEntry key es'
    end.
Proof.
  unfold ObjectCache_.lookupEntry.
  induction es as [|[k d] es IH]; [reflexivity|].
  cbn [app List.find fst]. destruct (String.eqb k key); [reflexivity|exact IH].
Qed.

Lemma alterEntry_keys key f es :
  List.map fst (ObjectCache_.alterEntry key f es) = List.map fst es.
Proof.
  unfold ObjectCache_.alterEntry. induction es as [|[k d] es IH]; [reflexivity|].
  cbn [List.map fst]. destruct (String.eqb k key); cbn [fst]; by rewrite IH.
Qed.

Lemma lookupEntry_None_keys key es :
  ObjectCache_.lookupEntry key es = None -> ~ In key (List.map fst es).
Proof.
  unfold ObjectCache_.lookupEntry. induction es as [|[k d] es IH]; [auto|].
  cbn [List.find fst List.map]. destruct (String.eqb k key) eqn:Hk; [discriminate|].
  apply String.eqb_neq in Hk. intros H [Heq|Hin]; [congruence|by apply IH].
Qed.

(** [setEntry] as a function of the world, when the object file is there. *)
Lemma setEntry_run cache key obj text w data :
  files w !! obj = Some data ->
  exists w',
    ObjectCache_.setEntry cache key obj text w = (Done tt, w')
    /\ ObjectCache_.lookupEntry key (entries w')
       = Some {| object := Some {| st_atime := clock w; blob := data |};
                 output_txt := Some text |}
    /\ (forall key', key' <> key ->
                     ObjectCache_.lookupEntry key' (entries w')
                     = ObjectCache_.lookupEntry key' (entries w))
    /\ documents w' = documents w /\ files w' = files w /\ clock w' = clock w
    /\ (distinctKeys w -> distinctKeys w').
Proof.
  intros Hobj. unfold ObjectCache_.setEntry. proc_unfold. cbn [entries emit].
  destruct (ObjectCache_.lookupEntry key (entries w)) as [d|] eqn:Hkey;
    cbn [files setEntries emit entries]; rewrite Hobj; eexists; (split; [reflexivity|]);
    cbn [entries documents files clock setEntries emit].
  - rewrite !lookupEntry_alterEntry, Hkey. cbn. split; [reflexivity|].
    split; [|repeat split].
    + intros key' Hne. by rewrite !lookupEntry_alterEntry_ne.
    + unfold distinctKeys. cbn [entries setEntries emit]. by rewrite !alterEntry_keys.
  - rewrite !lookupEntry_alterEntry, lookupEntry_app, Hkey.
    unfold ObjectCache_.lookupEntry at 1. cbn [List.find fst].
    rewrite String.eqb_refl. cbn. split; [reflexivity|].
    split; [|repeat split].
    + intros key' Hne. rewrite !lookupEntry_alterEntry_ne, lookupEntry_app by done.
      destruct (ObjectCache_.lookupEntry key' (entries w)); [reflexivity|].
      unfold ObjectCache_.lookupEntry. cbn [List.find fst].
      by rewrite (proj2 (String.eqb_neq key key')) by congruence.
    + unfold distinctKeys. cbn [entries setEntries emit].
      rewrite !alterEntry_keys, List.map_app.
      intros Hnd. apply NoDup_ListNoDup, NoDup_app. split; [by apply NoDup_ListNoDup|].
      split; [|apply NoDup_singleton].
      intros k Hk Hk'. apply list_elem_of_In in Hk.
      apply list_elem_of_In in Hk'. destruct Hk' as [<-|[]].
      by apply (lookupEntry_None_keys _ _ Hkey).
Qed.

(** X15: what [setEntry] stores under a key is what the cache returns
    for it: the entry is there, its compiler output is the text given, and
    copying its object out gives the bytes of the object file stored,
    whatever was stored under the key before. *)
Theorem setEntry_then_fetch (cache : ObjectCache) (key obj text dst : string)
        (w : World) (data : string) :
  files w !! obj = Some data ->
  dst <> "" ->
  exists w',
    ObjectCache_.setEntry cache key obj text w = (Done tt, w')
    /\ fst (ObjectCache_.hasEntry cache key w') = Done true
    /\ fst (ObjectCache_.cachedCompilerOutput cache key w') = Done text
    /\ fst (ObjectCache_.copyObjectTo cache key dst w') = Done tt
    /\ files (snd (ObjectCache_.copyObjectTo cache key dst w')) !! dst = Some data.
Proof.
  intros Hobj Hdst.
  destruct (setEntry_run cache key obj text w data Hobj) as (w' & Hrun & Hkey & _).
  exists w'. split; [exact Hrun|].
  unfold ObjectCache_.hasEntry, ObjectCache_.cachedCompilerOutput,
    ObjectCache_.copyObjectTo.
  proc_unfold. cbn [entries emit]. rewrite Hkey.
  rewrite (proj2 (String.eqb_neq dst "")) by exact Hdst.
  cbn [fst snd files setFiles emit ObjectCache_.hasObject blob].
  rewrite lookup_insert_eq. by repeat split.
Qed.

Lemma setEntry_then_fetch_witness :
  exists w',
    ObjectCache_.setEntry exampleCache "5d41402abc4b2a76" "foo.obj" "foo.cpp"
                          compiledWorld = (Done tt, w')
    /\ fst (ObjectCache_.hasEntry exampleCache "5d41402abc4b2a76" w') = Done true
    /\ fst (ObjectCache_.cachedCompilerOutput exampleCache "5d41402abc4b2a76" w')
       = Done "foo.cpp"
    /\ files (snd (ObjectCache_.copyObjectTo exampleCache "5d41402abc4b2a76"
                                             "out\foo.obj" w'))
       !! "out\foo.obj" = Some "OBJ".
Proof.
  destruct (setEntry_then_fetch exampleCache "5d41402abc4b2a76" "foo.obj" "foo.cpp"
              "out\foo.obj" compiledWorld "OBJ")
    as (w' & Hrun & Hhas & Hout & _ & Hcopy); [reflexivity|discriminate|].
  exists w'. by repeat split.
Defined.

(** X16: [setEntry] touches one entry only: the entries under other keys,
    the documents and the files outside the cache are as before, and the
    entry directories keep distinct keys. *)
Theorem setEntry_frame (cache : ObjectCache) (key obj text : string)
        (w : World) (data : string) :
  files w !! obj = Some data ->
  exists w',
    ObjectCache_.setEntry cache key obj text w = (Done tt, w')
    /\ (forall key', key' <> key ->
                     ObjectCache_.lookupEntry key' (entries w')
                     = ObjectCache_.lookupEntry key' (entries w))
    /\ documents w' = documents w
    /\ files w' = files w
    /\ (distinctKeys w -> distinctKeys w').
Proof.
  intros Hobj.
  destruct (setEntry_run cache key obj text w data Hobj)
    as (w' & Hrun & _ & Hother & Hdocs & Hfiles & _ & Hnd).
  exists w'. by repeat split.
Qed.

Lemma setEntry_frame_witness :
  exists w',
    ObjectCache_.setEntry exampleCache "5d41402abc4b2a76" "foo.obj" "foo.cpp"
                          compiledWorld = (Done tt, w')
    /\ files w' = files compiledWorld.
Proof.
  destruct (setEntry_frame exampleCache "5d41402abc4b2a76" "foo.obj" "foo.cpp"
              compiledWorld "OBJ") as (w' & Hrun & _ & _ & Hfiles & _); [reflexivity|].
  exists w'. by split.
Defined.

(** ** More on eviction *)

Lemma sortByAtimeReverse_head (x : ObjectInfo) l z :
  (forall y, In y l -> y = x \/ st_atime (fst y) < st_atime (fst x)) ->
  hd_error (sortByAtimeReverse l) = Some z ->
  z = x \/ (st_atime (fst z) < st_atime (fst x) /\ ~ In x l).
Proof.
  revert z. induction l as [|y l IH]; intros z Hl Hz; [discriminate|].
  cbn [sortByAtimeReverse foldr] in Hz. fold (sortByAtimeReverse l) in Hz.
  assert (Hy : y = x \/ st_atime (fst y) < st_atime (fst x)) by (apply Hl; by left).
  assert (Hl' : forall y', In y' l -> y' = x \/ st_atime (fst y') < st_atime (fst x))
    by (intros y' Hy'; apply Hl; by right).
  destruct (sortByAtimeReverse l) as [|h t] eqn:Hs.
  - assert (l = []) as ->.
    { pose proof (sortByAtimeReverse_Permutation l) as Hp. rewrite Hs in Hp.
      by apply Permutation_nil. }
    cbn in Hz. injection Hz as <-.
    destruct Hy as [?|Hy]; [by left|right]. split; [exact Hy|].
    intros [->|[]]. lia.
  - specialize (IH h Hl' eq_refl). cbn [insertByAtime] in Hz.
    destruct (st_atime (fst h) <=? st_atime (fst y)) eqn:Hle.
    + apply Z.leb_le in Hle. cbn in Hz. injection Hz as <-.
      destruct Hy as [?|Hy]; [by left|right]. split; [exact Hy|].
      intros [->|Hin]; [lia|].
      destruct IH as [->|[_ Hnin]]; [lia|contradiction].
    + apply Z.leb_gt in Hle. cbn in Hz. injection Hz as <-.
      destruct IH as [?|[Hh Hnin]]; [by left|right]. split; [exact Hh|].
      intros [->|Hin]; [lia|contradiction].
Qed.

Lemma lookupEntry_filter (p : string -> bool) key es :
  ObjectCache_.lookupEntry key (List.filter (fun e => p (fst e)) es)
  = if p key then ObjectCache_.lookupEntry key es else None.
Proof.
  unfold ObjectCache_.lookupEntry. induction es as [|[k d] es IH].
  - cbn. by destruct (p key).
  - cbn [List.filter fst]. destruct (p k) eqn:Hpk; cbn [List.find fst].
    + destruct (String.eqb k key) eqn:Hk; [|exact IH].
      apply String.eqb_eq in Hk. subst k. by rewrite Hpk.
    + rewrite IH. destruct (String.eqb k key) eqn:Hk; [|reflexivity].
      apply String.eqb_eq in Hk. subst k. by rewrite Hpk.
Qed.

Lemma walkObjects_In o key es :
  In (o, key) (ObjectCache_.walkObjects es) <->
  exists d, In (key, d) es /\ object d = Some o.
Proof.
  unfold ObjectCache_.walkObjects. induction es as [|[k d] es IH].
  - split; [intros []|intros (d & [] & _)].
  - cbn [omap list_omap fst snd]. destruct (object d) as [o'|] eqn:Hd.
    + cbn [In]. rewrite IH. split.
      * intros [Heq|(d' & Hin & Ho)].
        -- injection Heq as <- <-. exists d. split; [by left|exact Hd].
        -- exists d'. split; [by right|exact Ho].
      * intros (d' & [Heq|Hin] & Ho).
        -- injection Heq as <- <-. left. congruence.
        -- right. by exists d'.
    + rewrite IH. split.
      * intros (d' & Hin & Ho). exists d'. split; [by right|exact Ho].
      * intros (d' & [Heq|Hin] & Ho); [congruence|by exists d'].
Qed.

(** X17: the object read last never survives an eviction run: when the
    recorded size has reached the maximum, the entry whose object has the
    strictly greatest access time is the first one deleted. *)
Theorem clean_deletes_the_newest_object
        (cache : ObjectCache) (stats : CacheStatistics) (maximumSize : Z)
        (w : World) (recorded : Z) (key : string) (o : ObjectBlob) :
  CacheStatistics_.currentCacheSize stats = Returned recorded ->
  maximumSize <= recorded ->
  In (o, key) (ObjectCache_.walkObjects (entries w)) ->
  (forall o' key', In (o', key') (ObjectCache_.walkObjects (entries w)) ->
                   (o', key') = (o, key) \/ st_atime o' < st_atime o) ->
  exists stats' w' events,
    ObjectCache_.clean cache stats maximumSize w = (Done stats', w')
    /\ trace w' = (trace w ++ WalkEntries :: RemoveEntry key :: events)%list
    /\ ObjectCache_.lookupEntry key (entries w') = None.
Proof.
  intros Hsize Hmax Hin Hnewest.
  rewrite (clean_run cache stats maximumSize w recorded Hsize).
  destruct (recorded <? maximumSize) eqn:Hlt; [apply Z.ltb_lt in Hlt; lia|].
  cbv zeta.
  destruct (sortByAtimeReverse (ObjectCache_.walkObjects (entries w)))
    as [|z rest] eqn:Hsort.
  { exfalso. apply (Permutation_in _ (Permutation_sym
                      (sortByAtimeReverse_Permutation _))) in Hin.
    rewrite Hsort in Hin. destruct Hin. }
  assert (z = (o, key)) as ->.
  { destruct (sortByAtimeReverse_head (o, key) (ObjectCache_.walkObjects (entries w)) z)
      as [?|[_ Hnin]]; [|by rewrite Hsort|done|contradiction].
    intros [o' key'] Hy. by apply Hnewest. }
  cbn [evicted fst]. eexists _, _, _. split; [reflexivity|].
  cbn [trace entries List.map snd]. split; [reflexivity|].
  rewrite foldl_removeEntry, lookupEntry_filter.
  unfold survives. cbn [existsb snd]. by rewrite String.eqb_refl.
Qed.

Lemma clean_deletes_the_newest_object_witness :
  exists stats' w' events,
    ObjectCache_.clean exampleCache (statsWithSize 13) 13 threeEntries = (Done stats', w')
    /\ trace w' = (trace threeEntries ++ WalkEntries :: RemoveEntry "a" :: events)%list
    /\ ObjectCache_.lookupEntry "a" (entries w') = None.
Proof.
  apply (clean_deletes_the_newest_object exampleCache (statsWithSize 13) 13 threeEntries
           13 "a" {| st_atime := 3; blob := "x" |}).
  - reflexivity.
  - lia.
  - cbn. tauto.
  - intros o' key' Hin. cbn in Hin.
    destruct Hin as [Heq|[Heq|[Heq|[]]]]; injection Heq as <- <-;
      [by left|right; cbn; lia|right; cbn; lia].
Defined.

Lemma evicted_minimal infos cur max p q :
  max <= cur ->
  evicted infos cur max = (p ++ q)%list -> q <> [] ->
  max <= cur - sumSizes p.
Proof.
  revert cur p. induction infos as [|i rest IH]; intros cur p Hcur Hsplit Hq.
  - destruct p, q; try discriminate. congruence.
  - destruct p as [|i' p]; [change (sumSizes []) with 0; lia|].
    cbn [evicted app] in Hsplit. injection Hsplit as <- Hsplit.
    destruct (cur - st_size (fst i) <? max) eqn:Hlt.
    + destruct p, q; try discriminate. congruence.
    + apply Z.ltb_ge in Hlt. rewrite sumSizes_cons.
      specialize (IH (cur - st_size (fst i)) p Hlt Hsplit Hq). lia.
Qed.

(** X18: an eviction run deletes objects in the order of the listing
    sorted by access time, newest first, deletes at least one when there is
    one, and stops at the first deletion that brings the running size
    below the maximum: before each deletion the running size was still at
    or above it. *)
Theorem clean_stops_at_first_fit
        (cache : ObjectCache) (stats : CacheStatistics) (maximumSize : Z)
        (w : World) (recorded : Z) :
  CacheStatistics_.currentCacheSize stats = Returned recorded ->
  maximumSize <= recorded ->
  exists stats' w' deleted kept,
    ObjectCache_.clean cache stats maximumSize w = (Done stats', w')
    /\ trace w' = (trace w ++ WalkEntries
                     :: List.map (fun i => RemoveEntry (snd i)) deleted)%list
    /\ sortByAtimeReverse (ObjectCache_.walkObjects (entries w)) = (deleted ++ kept)%list
    /\ (ObjectCache_.walkObjects (entries w) <> [] -> deleted <> [])
    /\ (forall before after,
           deleted = (before ++ after)%list -> after <> [] ->
           maximumSize <= recorded - sumSizes before)
    /\ (kept <> [] -> recorded - sumSizes deleted < maximumSize).
Proof.
  intros Hsize Hmax.
  rewrite (clean_run cache stats maximumSize w recorded Hsize).
  destruct (recorded <? maximumSize) eqn:Hlt; [apply Z.ltb_lt in Hlt; lia|].
  cbv zeta.
  pose proof (sortByAtimeReverse_Permutation (ObjectCache_.walkObjects (entries w)))
    as Hperm.
  set (infos := sortByAtimeReverse _) in *.
  destruct (evicted_prefix infos recorded maximumSize) as (kept & Hsplit & Hstop).
  eexists _, _, (evicted infos recorded maximumSize), kept.
  split; [reflexivity|]. cbn [trace]. split; [reflexivity|].
  split; [exact Hsplit|]. split; [|split].
  - intros Hne Hdel. destruct infos as [|i rest] eqn:Hinfos; [|discriminate Hdel].
    apply Hne, Permutation_nil. by symmetry.
  - intros before after Hd Hafter. by eapply evicted_minimal.
  - intros Hkept. by destruct Hstop.
Qed.

Lemma clean_stops_at_first_fit_witness :
  exists stats' w' deleted kept,
    ObjectCache_.clean exampleCache (statsWithSize 13) 7 threeEntries = (Done stats', w')
    /\ trace w' = (trace threeEntries ++ WalkEntries
                     :: List.map (fun i => RemoveEntry (snd i)) deleted)%list
    /\ sortByAtimeReverse (ObjectCache_.walkObjects (entries threeEntries))
       = (deleted ++ kept)%list.
Proof.
  destruct (clean_stops_at_first_fit exampleCache (statsWithSize 13) 7 threeEntries 13)
    as (stats' & w' & deleted & kept & Hrun & Htrace & Hsplit & _);
    [reflexivity|lia|].
  exists stats', w', deleted, kept. by repeat split.
Defined.

(** X19: an eviction run only removes entry directories: the documents
    and the files outside the cache are untouched, every entry that is
    left is as it was, the keys stay distinct, and a directory without an
    object file is never removed. *)
Theorem clean_only_removes
        (cache : ObjectCache) (stats : CacheStatistics) (maximumSize : Z)
        (w : World) (recorded : Z) :
  CacheStatistics_.currentCacheSize stats = Returned recorded ->
  exists stats' w',
    ObjectCache_.clean cache stats maximumSize w = (Done stats', w')
    /\ documents w' = documents w
    /\ files w' = files w
    /\ (forall key d, ObjectCache_.lookupEntry key (entries w') = Some d ->
                      ObjectCache_.lookupEntry key (entries w) = Some d)
    /\ (distinctKeys w -> distinctKeys w')
    /\ (distinctKeys w ->
        forall key d, ObjectCache_.lookupEntry key (entries w) = Some d ->
                      object d = None ->
                      ObjectCache_.lookupEntry key (entries w') = Some d).
Proof.
  intros Hsize.
  rewrite (clean_run cache stats maximumSize w recorded Hsize).
  destruct (recorded <? maximumSize); [by eexists _, _|].
  cbv zeta. eexists _, _. split; [reflexivity|].
  cbn [documents files entries]. split; [reflexivity|]. split; [reflexivity|].
  rewrite foldl_removeEntry.
  set (del := evicted _ recorded maximumSize).
  split; [|split].
  - intros key d. rewrite lookupEntry_filter. by destruct (survives del key).
  - unfold distinctKeys. cbn [entries].
    generalize (entries w). intros es Hnd.
    induction es as [|[k d] es IH]; [constructor|].
    cbn [List.map fst] in Hnd. apply List.NoDup_cons_iff in Hnd as [Hk Hnd].
    cbn [List.filter fst]. destruct (survives del k); [|by apply IH].
    cbn [List.map fst]. apply List.NoDup_cons; [|by apply IH].
    intros Hin. apply Hk. apply in_map_iff in Hin as ([k' d'] & <- & Hin).
    apply List.filter_In in Hin as [Hin _]. apply in_map_iff. by exists (k', d').
  - intros Hnd key d Hkey Hobj. rewrite lookupEntry_filter.
    destruct (survives del key) eqn:Hsurv; [exact Hkey|exfalso].
    unfold survives in Hsurv. apply negb_false_iff, existsb_exists in Hsurv
      as ([o k] & Hin & Heq).
    apply String.eqb_eq in Heq. cbn [snd] in Heq. subst k.
    assert (Hwalk : In (o, key) (ObjectCache_.walkObjects (entries w))).
    { destruct (evicted_prefix
                  (sortByAtimeReverse (ObjectCache_.walkObjects (entries w)))
                  recorded maximumSize) as (kept & Hsplit & _).
      eapply Permutation_in; [apply sortByAtimeReverse_Permutation|].
      rewrite Hsplit. apply in_or_app. by left. }
    apply walkObjects_In in Hwalk as (d' & Hin' & Ho').
    assert (d' = d); [|congruence].
    unfold ObjectCache_.lookupEntry in Hkey.
    destruct (List.find _ (entries w)) as [[k0 d0]|] eqn:Hfind; [|discriminate].
    cbn in Hkey. injection Hkey as ->.
    apply List.find_some in Hfind as [Hin0 Hk0]. cbn [fst] in Hk0.
    apply String.eqb_eq in Hk0. subst k0.
    assert (Heq : (key, d') = (key, d)); [|congruence].
    by apply (NoDup_map_eq fst (entries w)).
Qed.

Lemma clean_only_removes_witness :
  exists stats' w',
    ObjectCache_.clean exampleCache (statsWithSize 13) 13 threeEntries = (Done stats', w')
    /\ documents w' = documents threeEntries
    /\ files w' = files threeEntries
    /\ distinctKeys w'.
Proof.
  destruct (clean_only_removes exampleCache (statsWithSize 13) 13 threeEntries 13)
    as (stats' & w' & Hrun & Hdocs & Hfiles & _ & Hnd & _); [reflexivity|].
  exists stats', w'. split; [exact Hrun|]. split; [exact Hdocs|].
  split; [exact Hfiles|]. apply Hnd. unfold distinctKeys. cbn.
  repeat constructor; cbn; intuition discriminate.
Defined.

(** ** The paths of the main flow *)

Lemma invokeRealCompiler_uncaptured host compiler cmdLine w rc output fs :
  cl_compile host (compiler :: cmdLine) (files w) = (rc, output, fs) ->
  invokeRealCompiler host compiler cmdLine false w
  = (Done (rc, None), emit (Stdout output) (setFiles fs (emit RunCompiler w))).
Proof.
  intros H. unfold invokeRealCompiler. proc_unfold. cbn [files emit app].
  by rewrite H.
Qed.

Lemma printTraceStatement_traced host msg w :
  printTraceStatement host msg w
  = (Done tt, {| documents := documents w; entries := entries w; files := files w;
                 clock := clock w; trace := (trace w ++ traced host msg)%list |}).
Proof.
  unfold printTraceStatement, traced. destruct (env_CLCACHE_LOG host); [reflexivity|].
  cbn. by rewrite app_nil_r, world_eta.
Qed.

Lemma loadedCounter_init host w key :
  _dict (foldl setdefault
           {| _dirty := false;
              _dict := match documents w !! os_path_join host (env_cache_dir host)
                                              "stats.txt" with
                       | Some (JsonObject d) => d
                       | _ => ∅
                       end;
              _fileName := os_path_join host (env_cache_dir host) "stats.txt" |}
           ((fun k => (k, 0)) <$> CacheStatistics_.counters)) !! key
  = loadedCounter host w key.
Proof. by rewrite foldl_setdefault_zero. Qed.

Lemma save_dirty_run (d : PersistentJSONDict) (w : World) :
  _dirty d = true ->
  PersistentJSONDict_.save d w
  = (Done tt, setDocuments (<[_fileName d := JsonObject (_dict d)]> (documents w))
                (emit (DumpDocument (_fileName d)) w)).
Proof. intros H. unfold PersistentJSONDict_.save. by rewrite H. Qed.

Lemma foldl_setdefault_fileName d l :
  _fileName (foldl setdefault d l) = _fileName d.
Proof.
  revert d. induction l as [|kv l IH]; intros d; [reflexivity|].
  cbn [foldl]. rewrite IH. unfold setdefault. by destruct (negb _).
Qed.

(** X20: an invocation that the classifier does not accept is forwarded:
    the real compiler runs once on [sys.argv[1:]] with its output
    uncaptured, its exit code is the exit code of the process, the counter
    of the classification is one more in the statistics written to disk,
    the other values are as loaded, and no entry is touched. *)
Theorem not_cacheable_is_forwarded
        (host : Host) (compiler : string) (argv1 cmdLine : list string) (w : World)
        (r : AnalysisResult) (src out : option string)
        (rc : Z) (output : string) (fs : gmap string string) :
  analyzeCommandLine host cmdLine = Returned (r, src, out) ->
  r <> Ok ->
  cl_compile host (compiler :: argv1) (files w) = (rc, output, fs) ->
  exists w' statistics v,
    mainFlow host compiler argv1 cmdLine w = (Exited rc, w')
    /\ trace w' = (trace w ++ [LoadDocument (statsPath host)]
                     ++ traced host (notCacheableMessage r cmdLine)
                     ++ [DumpDocument (statsPath host); RunCompiler; Stdout output])%list
    /\ entries w' = entries w
    /\ files w' = fs
    /\ documents w' = <[statsPath host := JsonObject statistics]> (documents w)
    /\ loadedCounter host w (counterKey r) = Some v
    /\ statistics !! counterKey r = Some (v + 1)
    /\ forall key, key <> counterKey r -> statistics !! key = loadedCounter host w key.
Proof.
  intros Hanalysis Hr Hcompile.
  unfold mainFlow. rewrite Hanalysis.
  rewrite (bind_Done (lift (Returned _)) _ w _ w eq_refl). cbv beta iota.
  rewrite (bind_Done (ObjectCache_.__init__ host) _ w _ w eq_refl).
  rewrite (bind_Done _ _ w _ _ (CacheStatistics_init_run host _ w)).
  cbv zeta. unfold dispatch. cbn [dir].
  rewrite bool_decide_eq_false_2 by exact Hr. cbn [negb].
  set (stats0 := foldl setdefault _ _).
  assert (Hv : exists v, loadedCounter host w (counterKey r) = Some v).
  { unfold loadedCounter. destruct (storedDocument _ _ !! _); [eauto|].
    rewrite bool_decide_eq_true_2; [eauto|].
    destruct r; [done|..]; apply list_elem_of_In; cbn; tauto. }
  destruct Hv as [v Hv].
  assert (Hreg : forall w1,
             (match r with
              | NoSourceFile =>
                  printTraceStatement host
                    ("Cannot cache invocation as " ++ Py.join " " cmdLine
                     ++ ": no source file found");;
                  lift (CacheStatistics_.registerCallWithoutSourceFile {| _stats := stats0 |})
              | MultipleSourceFiles =>
                  printTraceStatement host
                    ("Cannot cache invocation as " ++ Py.join " " cmdLine
                     ++ ": multiple source files found");;
                  lift (CacheStatistics_.registerCallWithMultipleSourceFiles
                          {| _stats := stats0 |})
              | CalledForLink =>
                  printTraceStatement host
                    ("Cannot cache invocation as " ++ Py.join " " cmdLine
                     ++ ": called for linking");;
                  lift (CacheStatistics_.registerCallForLinking {| _stats := stats0 |})
              | Ok => raise AttributeError
              end) w1
             = (Done {| _stats := PersistentJSONDict_.__setitem__ stats0
                                    (counterKey r) (v + 1) |},
                {| documents := documents w1; entries := entries w1; files := files w1;
                   clock := clock w1;
                   trace := (trace w1 ++ traced host (notCacheableMessage r cmdLine))%list |})).
  { intros w1. rewrite <- (loadedCounter_init host w) in Hv. fold stats0 in Hv.
    destruct r; [done|..];
      rewrite (bind_Done _ _ w1 _ _ (printTraceStatement_traced _ _ _));
      unfold CacheStatistics_.registerCallWithoutSourceFile,
        CacheStatistics_.registerCallWithMultipleSourceFiles,
        CacheStatistics_.registerCallForLinking, CacheStatistics_.add,
        PersistentJSONDict_.__getitem__;
      cbn [_stats counterKey] in *; rewrite Hv; reflexivity. }
  unfold notCacheable. rewrite (bind_Done _ _ _ _ _ (Hreg _)).
  unfold CacheStatistics_.save. cbn [_stats].
  rewrite (bind_Done _ _ _ _ _
             (save_dirty_run (PersistentJSONDict_.__setitem__ stats0 _ _) _ eq_refl)).
  cbn [PersistentJSONDict_.__setitem__ _dirty _fileName _dict].
  erewrite (bind_Done (invokeRealCompiler _ _ _ _) _ _ _ _);
    [|apply invokeRealCompiler_uncaptured; cbn [files emit setDocuments]; exact Hcompile].
  cbv beta iota. unfold sys_exit.
  subst stats0. rewrite foldl_setdefault_fileName. cbn [_fileName].
  eexists _, _, v. split; [reflexivity|].
  cbn [trace entries files documents emit setFiles setDocuments].
  split; [by rewrite <- !app_assoc|]. split; [reflexivity|]. split; [reflexivity|].
  split; [reflexivity|]. split; [exact Hv|].
  split; [by rewrite lookup_insert_eq|].
  intros key Hkey. rewrite lookup_insert_ne by done. apply loadedCounter_init.
Qed.

Lemma not_cacheable_is_forwarded_witness :
  exists w' statistics,
    mainFlow (compilerWriting 3 "") "cl.exe" ["cl"; "foo.cpp"] ["cl"; "foo.cpp"]
             configuredWorld = (Exited 3, w')
    /\ documents w'
       = <["C:\clcache\stats.txt" := JsonObject statistics]> (documents configuredWorld)
    /\ statistics !! "CallsForLinking" = Some 1
    /\ statistics !! "CacheHits" = Some 7.
Proof.
  destruct (not_cacheable_is_forwarded
              (compilerWriting 3 "") "cl.exe" ["cl"; "foo.cpp"] ["cl"; "foo.cpp"]
              configuredWorld CalledForLink None None 3 "foo.cpp"
              (<["foo.obj" := ""]> ∅))
    as (w' & statistics & v & Hrun & _ & _ & _ & Hdocs & Hv & Hcount & Hother);
    [reflexivity|discriminate|reflexivity|].
  exists w', statistics. split; [exact Hrun|]. split; [exact Hdocs|].
  assert (v = 0) as -> by (vm_compute in Hv; congruence).
  split; [exact Hcount|]. rewrite Hother by discriminate. reflexivity.
Defined.

Lemma loadedStats_lookup host w key :
  _dict (_stats (loadedStats host w)) !! key = loadedCounter host w key.
Proof. apply loadedCounter_init. Qed.

Lemma loadedStats_fileName host w :
  _fileName (_stats (loadedStats host w)) = statsPath host.
Proof. unfold loadedStats. cbn [_stats]. by rewrite foldl_setdefault_fileName. Qed.

Lemma loadedCounter_counters host w key :
  In key CacheStatistics_.counters -> is_Some (loadedCounter host w key).
Proof.
  intros Hin. unfold loadedCounter. destruct (storedDocument _ _ !! _); [eauto|].
  rewrite bool_decide_eq_true_2; [eauto|]. by apply list_elem_of_In.
Qed.

(** The main flow up to the probe of the store, for a command line that
    the classifier accepts. *)
Lemma mainFlow_Ok_run host compiler argv1 cmdLine w src out key :
  analyzeCommandLine host cmdLine = Returned (Ok, src, out) ->
  fst (ObjectCache_.computeKey host {| dir := env_cache_dir host |} compiler cmdLine w)
  = Done key ->
  mainFlow host compiler argv1 cmdLine w
  = (if ObjectCache_.hasObject (ObjectCache_.lookupEntry key (entries w))
     then cacheHit host (cacheOf host) (loadedStats host w) key out
     else cacheMiss host (cacheOf host) (loadedStats host w) compiler argv1 key out)
      (emit (ProbeEntry key)
         (emit RunPreprocessor (emit (LoadDocument (statsPath host)) w))).
Proof.
  intros Hanalysis Hkey.
  unfold mainFlow. rewrite Hanalysis.
  rewrite (bind_Done (lift (Returned _)) _ w _ w eq_refl). cbv beta iota.
  rewrite (bind_Done (ObjectCache_.__init__ host) _ w _ w eq_refl).
  rewrite (bind_Done _ _ w _ _ (CacheStatistics_init_run host _ w)).
  cbv zeta. unfold dispatch.
  rewrite bool_decide_eq_true_2 by reflexivity. cbn [negb].
  set (w1 := emit (LoadDocument _) w).
  assert (Hk1 : ObjectCache_.computeKey host {| dir := env_cache_dir host |}
                  compiler cmdLine w1
                = (Done key, emit RunPreprocessor w1)).
  { rewrite computeKey_unfold in Hkey |- *.
    destruct (_normalizedCommandLine (tail cmdLine)); [|discriminate].
    cbn [fst] in Hkey. injection Hkey as <-. reflexivity. }
  rewrite (bind_Done _ _ w1 _ _ Hk1).
  rewrite (bind_Done _ _ _ _ _ (hasEntry_run _ key _)).
  subst w1. cbn [entries emit dir].
  destruct (ObjectCache_.hasObject _); reflexivity.
Qed.

(** [self._stats[k] += n] on a counter that is there. *)
Lemma add_run stats k n v :
  _dict (_stats stats) !! k = Some v ->
  CacheStatistics_.add stats k n
  = Returned {| _stats := PersistentJSONDict_.__setitem__ (_stats stats) k (v + n) |}.
Proof.
  intros H. unfold CacheStatistics_.add, PersistentJSONDict_.__getitem__. by rewrite H.
Qed.

(** The cache-hit branch as a function of the world. *)
Lemma cacheHit_run host cache stats key out w o text v :
  out <> "" ->
  ObjectCache_.lookupEntry key (entries w)
  = Some {| object := Some o; output_txt := Some text |} ->
  _dict (_stats stats) !! "CacheHits" = Some v ->
  cacheHit host cache stats key (Some out) w
  = (Exited 0,
     {| documents := <[_fileName (_stats stats)
                       := JsonObject (<["CacheHits" := v + 1]> (_dict (_stats stats)))]>
                       (documents w);
        entries := entries w;
        files := <[out := blob o]> (files w);
        clock := clock w;
        trace := (trace w ++ [DumpDocument (_fileName (_stats stats))]
                    ++ traced host ("Reusing cached object for key " ++ key ++ " for "
                                    ++ "output file " ++ out)
                    ++ [ReadEntry key; ReadEntry key; Stdout text])%list |}).
Proof.
  intros Hout Hentry Hv.
  unfold cacheHit, CacheStatistics_.registerCacheHit.
  rewrite (add_run _ _ _ v) by exact Hv.
  rewrite (bind_Done (lift (Returned _)) _ _ _ _ eq_refl).
  unfold CacheStatistics_.save. cbn [_stats].
  rewrite (bind_Done _ _ _ _ _
             (save_dirty_run (PersistentJSONDict_.__setitem__ _ _ _) _ eq_refl)).
  cbn [PersistentJSONDict_.__setitem__ _dirty _fileName _dict].
  rewrite (bind_Done _ _ _ _ _ (printTraceStatement_traced _ _ _)).
  unfold ObjectCache_.copyObjectTo, ObjectCache_.cachedCompilerOutput, sys_exit.
  proc_unfold.
  cbn [entries files documents clock trace emit setDocuments setFiles].
  rewrite Hentry. rewrite (proj2 (String.eqb_neq out "")) by exact Hout.
  cbn [entries files documents clock trace emit setDocuments setFiles].
  rewrite Hentry. unfold emit, setFiles.
  cbn [entries files documents clock trace].
  by rewrite <- !app_assoc.
Qed.



Lemma getsize_run path w data :
  files w !! path = Some data ->
  getsize path w = (Done (Z.of_nat (String.length data)), w).
Proof. intros H. unfold getsize. proc_unfold. by rewrite H. Qed.

(** The cache-miss branch when the compiler succeeds, the output file is
    there and the cache stays below its maximum. *)
Lemma cacheMiss_store_run host stats compiler argv1 key out w output data fs
      misses n recorded :
  cl_compile host (compiler :: argv1) (files w) = (0, output, fs) ->
  fs !! out = Some data ->
  _dict (_stats stats) !! "CacheMisses" = Some misses ->
  _dict (_stats stats) !! "CacheEntries" = Some n ->
  _dict (_stats stats) !! "CacheSize" = Some recorded ->
  recorded + Z.of_nat (String.length data) < loadedMaximum host w ->
  exists w' events,
    cacheMiss host (cacheOf host) stats compiler argv1 key (Some out) w = (Exited 0, w')
    /\ ObjectCache_.lookupEntry key (entries w')
       = Some {| object := Some {| st_atime := clock w; blob := data |};
                 output_txt := Some output |}
    /\ (forall key', key' <> key ->
                     ObjectCache_.lookupEntry key' (entries w')
                     = ObjectCache_.lookupEntry key' (entries w))
    /\ files w' = fs
    /\ trace w' = (events ++ [Stdout output])%list
    /\ documents w'
       = <[_fileName (_stats stats)
           := JsonObject
                (<["CacheSize" := recorded + Z.of_nat (String.length data)]>
                   (<["CacheEntries" := n + 1]>
                      (<["CacheMisses" := misses + 1]> (_dict (_stats stats)))))]>
           (documents w).
Proof.
  intros Hcompile Hdata Hmisses Hn Hrecorded Hfits.
  unfold cacheMiss, CacheStatistics_.registerCacheMiss.
  rewrite (add_run _ _ _ misses) by exact Hmisses.
  rewrite (bind_Done (lift (Returned _)) _ _ _ _ eq_refl).
  rewrite (bind_Done _ _ w _ _ (invokeRealCompiler_run host compiler argv1 w 0 output fs
                                  Hcompile)).
  cbv beta iota. cbn [Z.eqb].
  set (w4 := setFiles fs (emit RunCompiler w)).
  assert (Hdocs4 : documents w4 = documents w) by reflexivity.
  assert (Hentries4 : entries w4 = entries w) by reflexivity.
  assert (Hfiles4 : files w4 = fs) by reflexivity.
  assert (Hclock4 : clock w4 = clock w) by reflexivity.
  clearbody w4.
  set (stats1 := {| _stats := PersistentJSONDict_.__setitem__ _ "CacheMisses" _ |}).
  (* the branch that stores the entry *)
  assert (Hstore :
            exists w7 stats3,
              (printTraceStatement host ("Adding file " ++ out ++ " to cache using "
                                         ++ "key " ++ key);;
               text ← lift (Returned output);
               ObjectCache_.setEntry (cacheOf host) key out text;;
               size ← getsize out;
               stats ← lift (CacheStatistics_.registerCacheEntry stats1 size);
               cfg ← Configuration__init__ host (cacheOf host);
               maximumSize ← lift (Configuration_.maximumCacheSize cfg);
               ObjectCache_.clean (cacheOf host) stats maximumSize) w4
              = (Done stats3, w7)
              /\ stats3
                 = {| _stats :=
                        PersistentJSONDict_.__setitem__
                          (PersistentJSONDict_.__setitem__ (_stats stats1)
                             "CacheEntries" (n + 1))
                          "CacheSize" (recorded + Z.of_nat (String.length data)) |}
              /\ ObjectCache_.lookupEntry key (entries w7)
                 = Some {| object := Some {| st_atime := clock w; blob := data |};
                           output_txt := Some output |}
              /\ (forall key', key' <> key ->
                               ObjectCache_.lookupEntry key' (entries w7)
                               = ObjectCache_.lookupEntry key' (entries w))
              /\ files w7 = fs /\ documents w7 = documents w).
  { rewrite (bind_Done _ _ w4 _ _ (printTraceStatement_traced _ _ _)).
    rewrite (bind_Done (lift (Returned _)) _ _ _ _ eq_refl).
    set (w5 := {| documents := documents w4 |}).
    assert (Hdocs5 : documents w5 = documents w) by exact Hdocs4.
    assert (Hentries5 : entries w5 = entries w) by exact Hentries4.
    assert (Hfiles5 : files w5 = fs) by exact Hfiles4.
    assert (Hclock5 : clock w5 = clock w) by exact Hclock4.
    clearbody w5.
    destruct (setEntry_run (cacheOf host) key out output w5 data)
      as (w6 & Hset & Hnew & Hothers & Hdocs6 & Hfiles6 & Hclock6 & _).
    { by rewrite Hfiles5. }
    rewrite (bind_Done _ _ w5 _ _ Hset).
    rewrite (bind_Done _ _ w6 _ _ (getsize_run out w6 data
                                     ltac:(by rewrite Hfiles6, Hfiles5))).
    unfold CacheStatistics_.registerCacheEntry.
    rewrite (add_run _ _ _ n).
    2:{ subst stats1. cbn [_stats PersistentJSONDict_.__setitem__ _dict].
        by rewrite lookup_insert_ne by discriminate. }
    rewrite (add_run _ _ _ recorded).
    2:{ subst stats1. cbn [_stats PersistentJSONDict_.__setitem__ _dict].
        by rewrite !lookup_insert_ne by discriminate. }
    rewrite (bind_Done (lift (Returned _)) _ _ _ _ eq_refl).
    destruct (Configuration_init_lookup host (cacheOf host) w6 "MaximumCacheSize")
      as (cfg & w7 & Hcfg & -> & _ & Hmax).
    rewrite (bind_Done _ _ w6 _ _ Hcfg).
    assert (Hmax' : Configuration_.maximumCacheSize cfg
                    = Returned (loadedMaximum host w)).
    { unfold Configuration_.maximumCacheSize, PersistentJSONDict_.__getitem__.
      assert (Hsd : storedDocument w6
                      (os_path_join host (dir (cacheOf host)) "config.txt")
                    = storedDocument w (configPath host))
        by (unfold storedDocument, configPath; by rewrite Hdocs6, Hdocs5).
      rewrite Hmax, Hsd. unfold loadedMaximum.
      destruct (storedDocument w (configPath host) !! "MaximumCacheSize");
        [reflexivity|].
      by destruct (decide _). }
    rewrite Hmax'.
    rewrite (bind_Done (lift (Returned _)) _ _ _ _ eq_refl).
    rewrite (clean_run _ _ _ _ (recorded + Z.of_nat (String.length data)))
      by (unfold CacheStatistics_.currentCacheSize, PersistentJSONDict_.__getitem__;
          cbn [_stats PersistentJSONDict_.__setitem__ _dict];
          by rewrite lookup_insert_eq).
    rewrite (proj2 (Z.ltb_lt _ _)) by exact Hfits.
    eexists _, _. split; [reflexivity|]. split; [reflexivity|].
    cbn [entries files documents emit].
    split; [by rewrite Hnew, Hclock5|].
    split.
    - intros key' Hne. rewrite Hothers by exact Hne. by rewrite Hentries5.
    - split; [by rewrite Hfiles6|by rewrite Hdocs6]. }
  destruct Hstore as (w7 & stats3 & Hstore & -> & Hnew & Hothers & Hfiles7 & Hdocs7).
  rewrite (bind_Done _ _ w4 _ _ Hstore).
  unfold CacheStatistics_.save. cbn [_stats].
  rewrite (bind_Done _ _ _ _ _
             (save_dirty_run (PersistentJSONDict_.__setitem__ _ _ _) _ eq_refl)).
  unfold stdout_write, sys_exit. proc_unfold.
  subst stats1.
  cbn [PersistentJSONDict_.__setitem__ _dirty _fileName _dict _stats].
  eexists _, _. split; [reflexivity|].
  cbn [entries files documents clock trace emit setDocuments setFiles].
  split; [exact Hnew|]. split; [exact Hothers|]. split; [exact Hfiles7|].
  split; [reflexivity|]. by rewrite Hdocs7.
Qed.

(** X22: a cache miss whose compilation succeeds and leaves the cache
    below its maximum stores the result: the real compiler runs, its exit
    code 0 is the exit code of the process, the entry of the key holds the
    bytes of the output file and the captured compiler output, no other
    entry changes, the statistics written to disk count one more miss, one
    more entry and the size of the object, and the captured output is the
    last thing written to standard output. *)
Theorem cache_miss_stores_compiler_result
        (host : Host) (compiler : string) (argv1 cmdLine : list string) (w : World)
        (src : option string) (out key output data : string)
        (fs : gmap string string) (recorded : Z) :
  analyzeCommandLine host cmdLine = Returned (Ok, src, Some out) ->
  fst (ObjectCache_.computeKey host {| dir := env_cache_dir host |} compiler cmdLine w)
  = Done key ->
  ObjectCache_.hasObject (ObjectCache_.lookupEntry key (entries w)) = false ->
  cl_compile host (compiler :: argv1) (files w) = (0, output, fs) ->
  fs !! out = Some data ->
  loadedCounter host w "CacheSize" = Some recorded ->
  recorded + Z.of_nat (String.length data) < loadedMaximum host w ->
  exists w' statistics events,
    mainFlow host compiler argv1 cmdLine w = (Exited 0, w')
    /\ ObjectCache_.lookupEntry key (entries w')
       = Some {| object := Some {| st_atime := clock w; blob := data |};
                 output_txt := Some output |}
    /\ (forall key', key' <> key ->
                     ObjectCache_.lookupEntry key' (entries w')
                     = ObjectCache_.lookupEntry key' (entries w))
    /\ files w' = fs
    /\ trace w' = (events ++ [Stdout output])%list
    /\ documents w' = <[statsPath host := JsonObject statistics]> (documents w)
    /\ statistics !! "CacheMisses"
       = (fun v => v + 1) <$> loadedCounter host w "CacheMisses"
    /\ statistics !! "CacheEntries"
       = (fun v => v + 1) <$> loadedCounter host w "CacheEntries"
    /\ statistics !! "CacheSize" = Some (recorded + Z.of_nat (String.length data))
    /\ forall k, k <> "CacheMisses" -> k <> "CacheEntries" -> k <> "CacheSize" ->
                 statistics !! k = loadedCounter host w k.
Proof.
  intros Hanalysis Hkey Hmiss Hcompile Hdata Hrecorded Hfits.
  rewrite (mainFlow_Ok_run _ _ _ _ _ _ _ _ Hanalysis Hkey). rewrite Hmiss.
  destruct (loadedCounter_counters host w "CacheMisses") as [misses Hmisses];
    [cbn; tauto|].
  destruct (loadedCounter_counters host w "CacheEntries") as [n Hn]; [cbn; tauto|].
  rewrite Hmisses, Hn. cbn [fmap option_fmap option_map].
  destruct (cacheMiss_store_run host (loadedStats host w) compiler argv1 key out
              (emit (ProbeEntry key)
                 (emit RunPreprocessor (emit (LoadDocument (statsPath host)) w)))
              output data fs misses n recorded)
    as (w' & events & Hrun & Hnew & Hothers & Hfiles & Htrace & Hdocs);
    [exact Hcompile|exact Hdata|by rewrite loadedStats_lookup..|exact Hfits|].
  rewrite loadedStats_fileName in Hdocs.
  exists w'. eexists _, events. split; [exact Hrun|].
  split; [exact Hnew|]. split; [exact Hothers|]. split; [exact Hfiles|].
  split; [exact Htrace|]. split; [exact Hdocs|].
  split; [by rewrite !lookup_insert_ne, lookup_insert_eq by discriminate|].
  split; [by rewrite lookup_insert_ne, lookup_insert_eq by discriminate|].
  split; [by rewrite lookup_insert_eq|].
  intros k Hk1 Hk2 Hk3. rewrite !lookup_insert_ne by done. apply loadedStats_lookup.
Qed.

Lemma cache_miss_stores_compiler_result_witness :
  exists w',
    mainFlow (compilerWriting 0 "OBJ") "cl.exe" exampleArgs exampleArgs configuredWorld
    = (Exited 0, w')
    /\ ObjectCache_.lookupEntry "5d41402abc4b2a76" (entries w')
       = Some {| object := Some {| st_atime := 1000; blob := "OBJ" |};
                 output_txt := Some "foo.cpp" |}
    /\ storedDocument w' "C:\clcache\stats.txt" !! "CacheSize" = Some 123.
Proof.
  destruct (cache_miss_stores_compiler_result
              (compilerWriting 0 "OBJ") "cl.exe" exampleArgs exampleArgs configuredWorld
              (Some "foo.cpp") "foo.obj" "5d41402abc4b2a76" "foo.cpp" "OBJ"
              (<["foo.obj" := "OBJ"]> ∅) 120)
    as (w' & statistics & events & Hrun & Hnew & _ & _ & _ & Hdocs & _ & _ & Hsize & _);
    [reflexivity|reflexivity|reflexivity|reflexivity|reflexivity|reflexivity
    |vm_compute; reflexivity|].
  exists w'. split; [exact Hrun|]. split; [exact Hnew|].
  unfold storedDocument. rewrite Hdocs.
  change (statsPath (compilerWriting 0 "OBJ")) with "C:\clcache\stats.txt".
  rewrite lookup_insert_eq. exact Hsize.
Defined.

Lemma computeKey_files host cache compiler cmdLine w w' :
  files w = files w' ->
  fst (ObjectCache_.computeKey host cache compiler cmdLine w)
  = fst (ObjectCache_.computeKey host cache compiler cmdLine w').
Proof.
  intros H. rewrite !computeKey_unfold, H.
  by destruct (_normalizedCommandLine (tail cmdLine)).
Qed.

(** X23: compiling twice: when a first run misses and stores its result,
    and the preprocessor gives the same text with the object file in
    place, a second run of the same command line is a hit: it exits with
    code 0 without running the compiler, adds and removes no entry and
    changes no object bytes or compiler output in the store (nothing is
    said of access times), leaves the output file with the bytes the
    compiler wrote, and ends by writing the compiler output of the first
    run to standard output. *)
Theorem second_compilation_is_served_from_cache
        (host : Host) (compiler : string) (argv1 cmdLine : list string) (w : World)
        (src : option string) (out key output data : string)
        (fs : gmap string string) (recorded : Z) :
  analyzeCommandLine host cmdLine = Returned (Ok, src, Some out) ->
  out <> "" ->
  fst (ObjectCache_.computeKey host {| dir := env_cache_dir host |} compiler cmdLine w)
  = Done key ->
  fst (ObjectCache_.computeKey host {| dir := env_cache_dir host |} compiler cmdLine
         (setFiles fs w))
  = Done key ->
  ObjectCache_.hasObject (ObjectCache_.lookupEntry key (entries w)) = false ->
  cl_compile host (compiler :: argv1) (files w) = (0, output, fs) ->
  fs !! out = Some data ->
  loadedCounter host w "CacheSize" = Some recorded ->
  recorded + Z.of_nat (String.length data) < loadedMaximum host w ->
  exists w1 w2 events,
    mainFlow host compiler argv1 cmdLine w = (Exited 0, w1)
    /\ mainFlow host compiler argv1 cmdLine w1 = (Exited 0, w2)
    /\ trace w2 = (trace w1 ++ events ++ [Stdout output])%list
    /\ ~ In RunCompiler events
    /\ files w2 = fs
    /\ files w2 !! out = Some data
    /\ storedContent (entries w2) = storedContent (entries w1).
Proof.
  intros Hanalysis Hout Hkey Hkey' Hmiss Hcompile Hdata Hrecorded Hfits.
  destruct (loadedCounter_counters host w "CacheMisses") as [misses Hmisses];
    [cbn; tauto|].
  destruct (loadedCounter_counters host w "CacheEntries") as [n Hn]; [cbn; tauto|].
  destruct (cacheMiss_store_run host (loadedStats host w) compiler argv1 key out
              (emit (ProbeEntry key)
                 (emit RunPreprocessor (emit (LoadDocument (statsPath host)) w)))
              output data fs misses n recorded)
    as (w1 & events1 & Hrun1 & Hnew & _ & Hfiles1 & _ & _);
    [exact Hcompile|exact Hdata|by rewrite loadedStats_lookup..|exact Hfits|].
  cbn [clock emit] in Hnew.
  assert (Hkey1 : fst (ObjectCache_.computeKey host {| dir := env_cache_dir host |}
                         compiler cmdLine w1) = Done key).
  { rewrite <- Hkey'. apply computeKey_files. by rewrite Hfiles1. }
  destruct (loadedCounter_counters host w1 "CacheHits") as [hits Hhits]; [cbn; tauto|].
  rewrite <- loadedStats_lookup in Hhits.
  pose proof (cacheHit_run host (cacheOf host) (loadedStats host w1) key out
                (emit (ProbeEntry key)
                   (emit RunPreprocessor (emit (LoadDocument (statsPath host)) w1)))
                {| st_atime := clock w; blob := data |} output hits Hout Hnew Hhits)
    as Hrun2.
  rewrite loadedStats_fileName in Hrun2.
  cbn [entries files documents clock trace emit blob] in Hrun2.
  exists w1. eexists.
  exists ([LoadDocument (statsPath host); RunPreprocessor; ProbeEntry key;
           DumpDocument (statsPath host)]
            ++ traced host ("Reusing cached object for key " ++ key ++ " for "
                            ++ "output file " ++ out)
            ++ [ReadEntry key; ReadEntry key])%list.
  split; [|split].
  - rewrite (mainFlow_Ok_run _ _ _ _ _ _ _ _ Hanalysis Hkey). rewrite Hmiss.
    exact Hrun1.
  - rewrite (mainFlow_Ok_run _ _ _ _ _ _ _ _ Hanalysis Hkey1).
    rewrite Hnew. cbn [ObjectCache_.hasObject]. exact Hrun2.
  - cbn [entries files documents clock trace].
    split; [|split; [|split; [|split]]].
    + rewrite <- !app_assoc. reflexivity.
    + intros Hin. apply in_app_or in Hin as [Hin|Hin].
      * cbn in Hin. intuition discriminate.
      * apply in_app_or in Hin as [Hin|Hin].
        -- unfold traced in Hin. destruct (env_CLCACHE_LOG host); cbn in Hin;
             intuition discriminate.
        -- cbn in Hin. intuition discriminate.
    + rewrite Hfiles1. by apply insert_id.
    + rewrite Hfiles1. by rewrite lookup_insert_eq.
    + reflexivity.
Qed.

Lemma second_compilation_is_served_from_cache_witness :
  exists w1 w2,
    mainFlow (compilerWriting 0 "OBJ") "cl.exe" exampleArgs exampleArgs configuredWorld
    = (Exited 0, w1)
    /\ mainFlow (compilerWriting 0 "OBJ") "cl.exe" exampleArgs exampleArgs w1
       = (Exited 0, w2)
    /\ files w2 !! "foo.obj" = Some "OBJ".
Proof.
  destruct (second_compilation_is_served_from_cache
              (compilerWriting 0 "OBJ") "cl.exe" exampleArgs exampleArgs configuredWorld
              (Some "foo.cpp") "foo.obj" "5d41402abc4b2a76" "foo.cpp" "OBJ"
              (<["foo.obj" := "OBJ"]> ∅) 120)
    as (w1 & w2 & events & Hrun1 & Hrun2 & _ & _ & _ & Hout & _);
    [reflexivity|discriminate|reflexivity|reflexivity|reflexivity|reflexivity
    |reflexivity|reflexivity|vm_compute; reflexivity|].
  exists w1, w2. split; [exact Hrun1|]. split; [exact Hrun2|exact Hout].
Defined.

(** ** The classifier *)

(** X24: the shape of a classification: a result other than [Ok] names
    neither a source nor an output file; an [Ok] result never names the
    empty string as its source, and names an output file whenever it
    names a source. *)
Theorem analysis_result_shape
        (host : Host) (cmdline : list string)
        (r : AnalysisResult) (src out : option string) :
  analyzeCommandLine host cmdline = Returned (r, src, out) ->
  (r <> Ok -> src = None /\ out = None)
  /\ (r = Ok -> src <> Some "" /\ (is_Some src -> is_Some out)).
Proof.
  unfold analyzeCommandLine. intros H.
  destruct (analyzeLoop _ (tail cmdline)) as [[st|r']|e] eqn:Hloop; [| |discriminate].
  - destruct (negb (foundCompileOnlySwitch st)).
    { injection H as <- <- <-. split; [auto|discriminate]. }
    destruct (Py.eq_str (sourceFile st) "") eqn:Heq.
    { injection H as <- <- <-. split; [auto|discriminate]. }
    injection H as <- <- <-. split; [congruence|]. intros _. split.
    + intros Hsrc. rewrite Hsrc in Heq. discriminate.
    + intros [s Hs]. rewrite Hs in *. cbn [Py.truthy].
      destruct s as [|c s]; [discriminate|]. cbn [String.eqb negb andb].
      destruct (negb (Py.truthy (outputFile st))) eqn:Hout; cbn [andb]; [eauto|].
      destruct (outputFile st); [eauto|discriminate].
  - injection H as ->.
    destruct (analyzeLoop_Return _ _ _ Hloop) as [Hr|Hr]; injection Hr as -> -> ->;
      (split; [auto|discriminate]).
Qed.

Lemma analysis_result_shape_witness :
  (Ok <> Ok -> Some "foo.cpp" = None /\ Some "foo.obj" = None)
  /\ (Ok = Ok -> Some "foo.cpp" <> Some "" /\ (is_Some (Some "foo.cpp")
                                               -> is_Some (Some "foo.obj"))).
Proof.
  apply (analysis_result_shape exampleHost exampleArgs Ok (Some "foo.cpp")
           (Some "foo.obj")).
  reflexivity.
Defined.

(** X25: the usual compile command is cacheable: when the tokens after
    the program name are one bare token among switches that are not link,
    source or output switches, and one of the switches has [c] after its
    [/] or [-], the classification is [Ok] with the bare token as the
    source and the object file derived from it in the working directory
    as the output. *)
Theorem single_source_compile_is_Ok
        (host : Host) (prog : string) (pre post : list string) (src : string) :
  Forall plainSwitch pre ->
  Forall plainSwitch post ->
  isBare src = true ->
  existsb isCompileOnlySwitchLike (pre ++ post) = true ->
  analyzeCommandLine host (prog :: pre ++ src :: post)
  = Returned (Ok, Some src, Some (defaultOutputFile host src)).
Proof.
  intros Hpre Hpost Hsrc Hc. unfold analyzeCommandLine. cbn [tail].
  rewrite (analyzeLoop_app _ _ _ _ (analyzeLoop_plain_switches _ _ Hpre)).
  cbn [analyzeLoop]. rewrite (analyzeArg_bare _ _ Hsrc).
  cbn [sourceFile Py.truthy foundCompileOnlySwitch outputFile orb].
  rewrite (analyzeLoop_plain_switches _ _ Hpost).
  cbn [sourceFile Py.truthy foundCompileOnlySwitch outputFile orb negb andb].
  rewrite existsb_app in Hc. rewrite Hc.
  destruct src as [|c s]; [discriminate|]. reflexivity.
Qed.

Lemma single_source_compile_is_Ok_witness :
  analyzeCommandLine exampleHost ["cl"; "/nologo"; "-c"; "foo.cpp"; "/W4"]
  = Returned (Ok, Some "foo.cpp", Some "C:\build\foo.cpp.obj").
Proof.
  apply (single_source_compile_is_Ok exampleHost "cl" ["/nologo"; "-c"] ["/W4"] "foo.cpp").
  - repeat constructor.
  - repeat constructor.
  - reflexivity.
  - reflexivity.
Defined.

(** X26: a second source is reported only when it is a bare token: a
    [/Tc] or [/Tp] switch after a bare source replaces it and the
    classification is [Ok] with the path of the switch, while the same
    two tokens in the other order give [MultipleSourceFiles]. *)
Theorem second_source_is_reported_only_when_bare
        (host : Host) (prog : string) (pre mid post : list string) (a t : string) :
  Forall plainSwitch pre ->
  Forall plainSwitch mid ->
  Forall plainSwitch post ->
  isBare a = true ->
  isSourceSwitch t = true ->
  Py.slice_from 3 t <> "" ->
  existsb isCompileOnlySwitchLike (pre ++ mid ++ post) = true ->
  analyzeCommandLine host (prog :: pre ++ a :: mid ++ t :: post)
  = Returned (Ok, Some (Py.slice_from 3 t),
              Some (defaultOutputFile host (Py.slice_from 3 t)))
  /\ analyzeCommandLine host (prog :: pre ++ t :: mid ++ a :: post)
     = Returned (MultipleSourceFiles, None, None).
Proof.
  intros Hpre Hmid Hpost Ha Ht Hpath Hc. unfold analyzeCommandLine. cbn [tail].
  rewrite !(analyzeLoop_app _ _ _ _ (analyzeLoop_plain_switches _ _ Hpre)).
  cbn [analyzeLoop]. rewrite (analyzeArg_bare _ _ Ha), (analyzeArg_source _ _ Ht).
  cbn [sourceFile Py.truthy foundCompileOnlySwitch outputFile orb].
  rewrite !(analyzeLoop_app _ _ _ _ (analyzeLoop_plain_switches _ _ Hmid)).
  cbn [analyzeLoop]. rewrite (analyzeArg_bare _ _ Ha), (analyzeArg_source _ _ Ht).
  cbn [sourceFile Py.truthy foundCompileOnlySwitch outputFile orb].
  rewrite (proj2 (String.eqb_neq _ _) Hpath). cbn [negb].
  split; [|reflexivity].
  rewrite (analyzeLoop_plain_switches _ _ Hpost).
  cbn [sourceFile Py.truthy foundCompileOnlySwitch outputFile orb negb andb Py.eq_str].
  rewrite !existsb_app in Hc. rewrite <- orb_assoc, Hc.
  rewrite (proj2 (String.eqb_neq _ _) Hpath). reflexivity.
Qed.

Lemma second_source_is_reported_only_when_bare_witness :
  analyzeCommandLine exampleHost ["cl"; "/c"; "a.cpp"; "/Tcb.c"]
  = Returned (Ok, Some "b.c", Some "C:\build\b.c.obj")
  /\ analyzeCommandLine exampleHost ["cl"; "/c"; "/Tcb.c"; "a.cpp"]
     = Returned (MultipleSourceFiles, None, None).
Proof.
  apply (second_source_is_reported_only_when_bare
           exampleHost "cl" ["/c"] [] [] "a.cpp" "/Tcb.c").
  - repeat constructor.
  - constructor.
  - constructor.
  - reflexivity.
  - reflexivity.
  - discriminate.
  - reflexivity.
Defined.

(** ** The commands of the script *)

Lemma loadedCounter_recorded host w key :
  In key CacheStatistics_.counters ->
  loadedCounter host w key = Some (recordedCounter host w key).
Proof.
  intros Hin. unfold loadedCounter, recordedCounter.
  destruct (storedDocument _ _ !! _); [reflexivity|].
  rewrite bool_decide_eq_true_2; [reflexivity|]. by apply list_elem_of_In.
Qed.

(** X27: when [stats.txt] and [config.txt] are each missing, unparseable
    or a JSON object with integer values, [printStatistics] returns
    without an exception, leaves every document, every entry and every
    file outside the cache as it was, and prints the cache directory, the
    recorded counters, 0 for those not recorded, and the configured or
    default maximum. *)
Theorem printStatistics_reports_recorded (host : Host) (w : World) :
  objectOrUnreadable w (statsPath host) ->
  objectOrUnreadable w (configPath host) ->
  exists w',
    printStatistics host w = (Done tt, w')
    /\ documents w' = documents w
    /\ entries w' = entries w
    /\ files w' = files w
    /\ trace w'
       = (trace w
            ++ [LoadDocument (statsPath host); LoadDocument (configPath host);
                Stdout (statisticsReport (env_cache_dir host)
                          (recordedCounter host w "CacheSize")
                          (loadedMaximum host w)
                          (recordedCounter host w "CacheEntries")
                          (recordedCounter host w "CacheHits")
                          (recordedCounter host w "CacheMisses")
                          (recordedCounter host w "CallsForLinking")
                          (recordedCounter host w "CallsWithoutSourceFile")
                          (recordedCounter host w "CallsWithMultipleSourceFiles"))])%list.
Proof.
  intros _ _. unfold printStatistics.
  rewrite (bind_Done (ObjectCache_.__init__ host) _ w _ w eq_refl).
  rewrite (bind_Done _ _ w _ _ (CacheStatistics_init_run host _ w)).
  destruct (Configuration_init_lookup host (cacheOf host)
              (emit (LoadDocument (statsPath host)) w) "MaximumCacheSize")
    as (cfg & w2 & Hcfg & -> & _ & Hmax).
  cbn [dir]. change {| dir := env_cache_dir host |} with (cacheOf host).
  change (os_path_join host (env_cache_dir host) "stats.txt") with (statsPath host).
  rewrite (bind_Done _ _ _ _ _ Hcfg). cbv zeta.
  change {| _stats := foldl setdefault _ _ |} with (loadedStats host w).
  assert (Hget : forall key,
             In key CacheStatistics_.counters ->
             PersistentJSONDict_.__getitem__ (_stats (loadedStats host w)) key
             = Returned (recordedCounter host w key)).
  { intros key Hin. unfold PersistentJSONDict_.__getitem__.
    by rewrite loadedStats_lookup, (loadedCounter_recorded _ _ _ Hin). }
  assert (Hmax' : Configuration_.maximumCacheSize cfg = Returned (loadedMaximum host w)).
  { unfold Configuration_.maximumCacheSize, PersistentJSONDict_.__getitem__.
    rewrite Hmax. unfold loadedMaximum.
    change (storedDocument (emit (LoadDocument (statsPath host)) w)
              (os_path_join host (dir (cacheOf host)) "config.txt"))
      with (storedDocument w (configPath host)).
    destruct (storedDocument w (configPath host) !! "MaximumCacheSize"); [reflexivity|].
    by destruct (decide _). }
  unfold CacheStatistics_.currentCacheSize, CacheStatistics_.numCacheEntries,
    CacheStatistics_.numCacheHits, CacheStatistics_.numCacheMisses,
    CacheStatistics_.numCallsForLinking, CacheStatistics_.numCallsWithoutSourceFile,
    CacheStatistics_.numCallsWithMultipleSourceFiles.
  rewrite Hmax', !Hget by (cbn; tauto).
  unfold ObjectCache_.cacheDirectory. proc_unfold.
  eexists. split; [reflexivity|].
  cbn [documents entries files clock trace emit dir cacheOf].
  split; [reflexivity|]. split; [reflexivity|]. split; [reflexivity|].
  by rewrite <- !app_assoc.
Qed.

Lemma printStatistics_reports_recorded_witness :
  exists w',
    printStatistics exampleHost configuredWorld = (Done tt, w')
    /\ documents w' = documents configuredWorld
    /\ trace w'
       = [LoadDocument "C:\clcache\stats.txt"; LoadDocument "C:\clcache\config.txt";
          Stdout (statisticsReport "C:\clcache" 120 5000 0 7 0 0 0 0)].
Proof.
  destruct (printStatistics_reports_recorded exampleHost configuredWorld)
    as (w' & Hrun & Hdocs & _ & _ & Htrace).
  - right. right. by eexists.
  - right. right. by eexists.
  - exists w'. split; [exact Hrun|]. split; [exact Hdocs|]. exact Htrace.
Defined.

(** The tests of the first lines of the script fail on an invocation of
    the compiler. *)
Lemma front_matter_skipped argv1 :
  isCompilerInvocation argv1 ->
  bool_decide (argv1 = ["--help"]) = false
  /\ bool_decide (argv1 = ["-s"]) = false
  /\ ((length argv1 =? 2)%nat && String.eqb (nth 0 argv1 EmptyString) "-M") = false.
Proof.
  intros (Hhelp & Hstats & Hmax).
  split; [by apply bool_decide_eq_false_2|]. split; [by apply bool_decide_eq_false_2|].
  destruct argv1 as [|a [|b [|c rest]]]; try reflexivity.
  cbn [length Nat.eqb nth andb]. apply String.eqb_neq. intros ->. by apply (Hmax b).
Qed.

(** X28: on an invocation that is none of [--help], [-s] and
    [-M <size>], when [CLCACHE_CL] names a file that does not exist the
    script gives up with exit code 1 after one message, also when
    [cl.exe] is on [PATH]: no compiler is run and nothing in the cache
    directory is read or written. *)
Theorem missing_CLCACHE_CL_aborts
        (host : Host) (home : string) (pathsep : ascii) (isspace : ascii -> bool)
        (read : string -> PyResult string) (py_int : string -> PyResult Z)
        (environ : gmap string string)
        (fuel : nat) (argv1 : list string) (w : World) (path : string) :
  isCompilerInvocation argv1 ->
  environ !! "CLCACHE_CL" = Some path ->
  files w !! path = None ->
  script host home pathsep isspace read py_int environ fuel argv1 w
  = Some (Exited 1,
          emit (Stdout "Failed to locate cl.exe on PATH (and CLCACHE_CL is not set), aborting.")
               w).
Proof.
  intros Hargv Henv Hmissing. unfold script. cbv zeta.
  destruct (front_matter_skipped argv1 Hargv) as (-> & -> & ->).
  unfold findCompilerBinary. rewrite Henv. unfold os_path_exists. rewrite Hmissing.
  rewrite bool_decide_eq_false_2 by (intros [x Hx]; discriminate).
  reflexivity.
Qed.

Lemma missing_CLCACHE_CL_aborts_witness :
  findCompilerBinary exampleHost ";" exampleEnviron exampleFiles
  = Returned (Some "C:\vc\bin\cl.exe")
  /\ script exampleHost "C:\home" ";" exampleSpace exampleRead exampleInt
       (<["CLCACHE_CL" := "D:\cl.exe"]> exampleEnviron) 5 exampleArgs exampleFiles
     = Some (Exited 1,
             emit (Stdout "Failed to locate cl.exe on PATH (and CLCACHE_CL is not set), aborting.")
                  exampleFiles).
Proof.
  split; [reflexivity|].
  apply (missing_CLCACHE_CL_aborts exampleHost "C:\home" ";" exampleSpace exampleRead
           exampleInt (<["CLCACHE_CL" := "D:\cl.exe"]> exampleEnviron) 5 exampleArgs
           exampleFiles "D:\cl.exe").
  - split; [discriminate|]. split; [discriminate|]. intros size. discriminate.
  - reflexivity.
  - reflexivity.
Defined.

(** X29: on an invocation that is none of [--help], [-s] and
    [-M <size>], with [CLCACHE_DISABLE] set and a compiler found, the
    script is the real compiler: it runs it once on [sys.argv[1:]] as
    given, response files unread, with the output uncaptured, exits with
    its exit code, and reads or writes nothing in the cache directory. *)
Theorem disabled_cache_is_bypassed
        (host : Host) (home : string) (pathsep : ascii) (isspace : ascii -> bool)
        (read : string -> PyResult string) (py_int : string -> PyResult Z)
        (environ : gmap string string)
        (fuel : nat) (argv1 : list string) (w : World)
        (compiler : string) (rc : Z) (output : string) (fs : gmap string string) :
  isCompilerInvocation argv1 ->
  findCompilerBinary (hostIn host home environ) pathsep environ w
  = Returned (Some compiler) ->
  compiler <> "" ->
  is_Some (environ !! "CLCACHE_DISABLE") ->
  cl_compile host (compiler :: argv1) (files w) = (rc, output, fs) ->
  script host home pathsep isspace read py_int environ fuel argv1 w
  = Some (Exited rc,
          {| documents := documents w; entries := entries w; files := fs;
             clock := clock w;
             trace := (trace w ++ [RunCompiler; Stdout output])%list |}).
Proof.
  intros Hargv Hfound Hcompiler Hdisable Hcompile. unfold script. cbv zeta.
  destruct (front_matter_skipped argv1 Hargv) as (-> & -> & ->).
  rewrite Hfound. cbn [Py.truthy default].
  rewrite (proj2 (String.eqb_neq _ _) Hcompiler). cbn [negb].
  rewrite bool_decide_eq_true_2 by exact Hdisable.
  rewrite (bind_Done _ _ w _ _
             (invokeRealCompiler_uncaptured (hostIn host home environ) compiler argv1 w
                rc output fs Hcompile)).
  unfold sys_exit, emit, setFiles. cbn [documents entries files clock trace].
  by rewrite <- app_assoc.
Qed.

Lemma disabled_cache_is_bypassed_witness :
  script (compilerWriting 2 "") "C:\home" ";" exampleSpace exampleRead exampleInt
    (<["CLCACHE_DISABLE" := "1"]> exampleEnviron) 0 ["/c"; "@missing.rsp"] exampleFiles
  = Some (Exited 2,
          {| documents := ∅; entries := [];
             files := <["foo.obj" := ""]> (files exampleFiles); clock := 1000;
             trace := [RunCompiler; Stdout "foo.cpp"] |}).
Proof.
  apply (disabled_cache_is_bypassed (compilerWriting 2 "") "C:\home" ";" exampleSpace
           exampleRead exampleInt (<["CLCACHE_DISABLE" := "1"]> exampleEnviron) 0
           ["/c"; "@missing.rsp"] exampleFiles
           "C:\vc\bin\cl.exe" 2 "foo.cpp" (<["foo.obj" := ""]> (files exampleFiles))).
  - split; [discriminate|]. split; [discriminate|]. intros size. discriminate.
  - reflexivity.
  - discriminate.
  - by eexists.
  - reflexivity.
Defined.
